(** * Project creation wizard of hardhat-core

    A shallow embedding of
    [packages/hardhat-core/src/internal/cli/project-creation.ts] and the
    properties of its three decision-dense parts: the selection of the action,
    the layered copy of the sample projects with its conflict check, and the
    reconciliation of the recommended dependencies with the manifest of the
    working directory.

    Conventions of the embedding:
    - a JavaScript object used as a mapping is an association list in
      insertion order, which is the order [Object.keys] and [Object.entries]
      enumerate it in (no key of the program is an integer index);
    - the file system is a tree of named entries; a path is its list of
      segments, relative to the working directory of the process or absolute;
    - an [async] function is a computation over the state of the world (the
      file system and the trace of what was shown, asked and spawned), that
      either returns a value or throws a JavaScript value;
    - what the outside decides (environment variables, answers to prompts,
      the exit of the child process, the platform) is read from a record of
      inputs. *)

From Stdlib Require Import String Ascii List Bool ZArith Lia.
Import ListNotations.
Open Scope string_scope.

Set Implicit Arguments.
Set Warnings "-register-all".

(** ** JavaScript strings and arrays *)

Module Js.

(** The double quote character, as a string of length one. *)
Definition dquote : string := String "034"%char EmptyString.

(** [xs.join(sep)] *)
Definition join (sep : string) (xs : list string) : string :=
  String.concat sep xs.

(** [xs.includes(x)] on an array of strings *)
Definition includes (x : string) (xs : list string) : bool :=
  existsb (String.eqb x) xs.

(** lodash [uniq]: the first occurrence of every value, in order. *)
Fixpoint uniq_acc (seen xs : list string) : list string :=
  match xs with
  | [] => []
  | x :: xs' =>
      if includes x seen then uniq_acc seen xs'
      else x :: uniq_acc (x :: seen) xs'
  end.

Definition uniq (xs : list string) : list string := uniq_acc [] xs.

(** lodash [union(...arrays)]: the unique values of all arrays, in order. *)
Definition union (arrays : list (list string)) : list string :=
  uniq (concat arrays).

(** lodash [intersection(a, b)]: the unique values of [a] that [b]
    includes, in the order of [a]. *)
Definition intersection (a b : list string) : list string :=
  uniq (filter (fun x => includes x b) a).

End Js.

(** ** Objects used as mappings from names to strings *)

Module Obj.

Definition t := list (string * string).

(** [Object.keys(o)] and [Object.entries(o)] *)
Definition keys (o : t) : list string := map fst o.
Definition entries (o : t) : list (string * string) := o.

(** Own property test. *)
Definition has (k : string) (o : t) : bool := Js.includes k (keys o).

Fixpoint get (k : string) (o : t) : option string :=
  match o with
  | [] => None
  | (k', v) :: o' => if String.eqb k' k then Some v else get k o'
  end.

(** [o[k] = v]: an existing property keeps its place, a new one is added
    last. *)
Fixpoint set (k v : string) (o : t) : t :=
  match o with
  | [] => [(k, v)]
  | (k', v') :: o' =>
      if String.eqb k' k then (k', v) :: o' else (k', v') :: set k v o'
  end.

(** [{ ...o, ...more }], and an object literal as the spread of its
    properties, in source order, over the empty object. *)
Definition spread (o : t) (more : list (string * string)) : t :=
  fold_left (fun acc kv => set (fst kv) (snd kv) acc) more o.

Definition literal (props : list (string * string)) : t := spread [] props.

(** [fromEntries] of [util/lang]. *)
Definition fromEntries (es : list (string * string)) : t := spread [] es.

(** The properties every object literal inherits from [Object.prototype];
    the [in] operator sees them too. *)
Definition prototype_properties : list string :=
  [ "constructor"; "__defineGetter__"; "__defineSetter__"; "hasOwnProperty";
    "__lookupGetter__"; "__lookupSetter__"; "isPrototypeOf";
    "propertyIsEnumerable"; "toString"; "valueOf"; "__proto__";
    "toLocaleString" ].

(** [k in o] *)
Definition in_op (k : string) (o : t) : bool :=
  has k o || Js.includes k prototype_properties.

End Obj.

Definition Dependencies := Obj.t.

(** ** Actions and dependency tables *)

(** [SampleProjectTypeCreationAction]: the three members of [Action] that
    create a sample project. *)
Inductive SampleProjectTypeCreationAction : Type :=
| CREATE_BASIC_SAMPLE_PROJECT_ACTION
| CREATE_ADVANCED_SAMPLE_PROJECT_ACTION
| CREATE_ADVANCED_TYPESCRIPT_SAMPLE_PROJECT_ACTION.

(** [enum Action]; the union type above is a part of it. *)
Inductive Action : Type :=
| CREATE_SAMPLE_PROJECT (projectType : SampleProjectTypeCreationAction)
| CREATE_EMPTY_HARDHAT_CONFIG_ACTION
| QUIT_ACTION.

Definition sample_action_value (a : SampleProjectTypeCreationAction) : string :=
  match a with
  | CREATE_BASIC_SAMPLE_PROJECT_ACTION => "Create a basic sample project"
  | CREATE_ADVANCED_SAMPLE_PROJECT_ACTION => "Create an advanced sample project"
  | CREATE_ADVANCED_TYPESCRIPT_SAMPLE_PROJECT_ACTION =>
      "Create an advanced sample project that uses TypeScript"
  end.

(** The string value of each member of the enum. *)
Definition action_value (a : Action) : string :=
  match a with
  | CREATE_SAMPLE_PROJECT t => sample_action_value t
  | CREATE_EMPTY_HARDHAT_CONFIG_ACTION => "Create an empty hardhat.config.js"
  | QUIT_ACTION => "Quit"
  end.

(** [Object.values(Action)], in declaration order. *)
Definition Action_values : list Action :=
  [ CREATE_SAMPLE_PROJECT CREATE_BASIC_SAMPLE_PROJECT_ACTION;
    CREATE_SAMPLE_PROJECT CREATE_ADVANCED_SAMPLE_PROJECT_ACTION;
    CREATE_SAMPLE_PROJECT CREATE_ADVANCED_TYPESCRIPT_SAMPLE_PROJECT_ACTION;
    CREATE_EMPTY_HARDHAT_CONFIG_ACTION;
    QUIT_ACTION ].

(** The member of the enum a string is the value of, if any. *)
Definition action_of_value (s : string) : option Action :=
  find (fun a => String.eqb (action_value a) s) Action_values.

Definition HARDHAT_PACKAGE_NAME : string := "hardhat".

Definition BASIC_SAMPLE_PROJECT_DEPENDENCIES : Dependencies :=
  Obj.literal
    [ ("@nomiclabs/hardhat-waffle", "^2.0.0");
      ("ethereum-waffle", "^3.0.0");
      ("chai", "^4.2.0");
      ("@nomiclabs/hardhat-ethers", "^2.0.0");
      ("ethers", "^5.0.0") ].

Definition ADVANCED_SAMPLE_PROJECT_DEPENDENCIES : Dependencies :=
  Obj.spread (Obj.spread [] BASIC_SAMPLE_PROJECT_DEPENDENCIES)
    [ ("@nomiclabs/hardhat-etherscan", "^3.0.0");
      ("dotenv", "^16.0.0");
      ("eslint", "^7.29.0");
      ("eslint-config-prettier", "^8.3.0");
      ("eslint-config-standard", "^16.0.3");
      ("eslint-plugin-import", "^2.23.4");
      ("eslint-plugin-node", "^11.1.0");
      ("eslint-plugin-prettier", "^3.4.0");
      ("eslint-plugin-promise", "^5.1.0");
      ("hardhat-gas-reporter", "^1.0.4");
      ("prettier", "^2.3.2");
      ("prettier-plugin-solidity", "^1.0.0-beta.13");
      ("solhint", "^3.3.6");
      ("solidity-coverage", "^0.7.16") ].

Definition ADVANCED_TYPESCRIPT_SAMPLE_PROJECT_DEPENDENCIES : Dependencies :=
  Obj.spread (Obj.spread [] ADVANCED_SAMPLE_PROJECT_DEPENDENCIES)
    [ ("@typechain/ethers-v5", "^7.0.1");
      ("@typechain/hardhat", "^2.3.0");
      ("@typescript-eslint/eslint-plugin", "^4.29.1");
      ("@typescript-eslint/parser", "^4.29.1");
      ("@types/chai", "^4.2.21");
      ("@types/node", "^12.0.0");
      ("@types/mocha", "^9.0.0");
      ("ts-node", "^10.1.0");
      ("typechain", "^5.1.2");
      ("typescript", "^4.5.2") ].

Definition SAMPLE_PROJECT_DEPENDENCIES
  (projectType : SampleProjectTypeCreationAction) : Dependencies :=
  match projectType with
  | CREATE_BASIC_SAMPLE_PROJECT_ACTION => BASIC_SAMPLE_PROJECT_DEPENDENCIES
  | CREATE_ADVANCED_SAMPLE_PROJECT_ACTION =>
      ADVANCED_SAMPLE_PROJECT_DEPENDENCIES
  | CREATE_ADVANCED_TYPESCRIPT_SAMPLE_PROJECT_ACTION =>
      ADVANCED_TYPESCRIPT_SAMPLE_PROJECT_DEPENDENCIES
  end.

(** ** The file system *)

(** What the program reads of a [package.json]: the three optional
    mappings of declared packages ([None] is [undefined]). *)
Record PackageJson : Type := {
  pkg_name : option string;
  pkg_dependencies : option Dependencies;
  pkg_devDependencies : option Dependencies;
  pkg_optionalDependencies : option Dependencies
}.

(** The content of a file, by what [JSON.parse] makes of it: a text that is
    not JSON (the program parses [package.json] alone, and the texts it
    writes go to files of other names); the JSON of a value other than
    [null], kept parsed as what the program reads of it (the three sections,
    all absent when the value is a number, a string or a boolean); or the
    JSON of [null], of which no property can be read. *)
Inductive content : Type :=
| Text (text : string)
| Json (manifest : PackageJson)
| JsonNull.

Module Fs.

(** A file, or a directory with its entries in listing order. *)
Inductive node : Type :=
| File (c : content)
| Dir (entries : list (string * node)).

Definition path := list string.

Inductive error : Type :=
| ENOENT          (* no such file or directory *)
| ENOTDIR         (* a segment of the path is not a directory *)
| EISDIR          (* a file operation on a directory *)
| EEXIST          (* a directory is to be made where a file is *)
| ECOPYKIND       (* fs-extra: a directory over a file, or a file over a
                     directory *)
| ECOPYSELF.      (* fs-extra: the destination lies inside the source *)

Fixpoint assoc (s : string) (es : list (string * node)) : option node :=
  match es with
  | [] => None
  | (k, c) :: es' => if String.eqb k s then Some c else assoc s es'
  end.

(** Replaces the entry named [s], or adds it last. *)
Fixpoint set_entry (s : string) (c : node) (es : list (string * node))
  : list (string * node) :=
  match es with
  | [] => [(s, c)]
  | (k, v) :: es' =>
      if String.eqb k s then (k, c) :: es' else (k, v) :: set_entry s c es'
  end.

Definition del_entry (s : string) (es : list (string * node))
  : list (string * node) :=
  filter (fun e => negb (String.eqb (fst e) s)) es.

Fixpoint lookup (p : path) (n : node) : option node :=
  match p with
  | [] => Some n
  | s :: p' =>
      match n with
      | Dir es =>
          match assoc s es with
          | Some c => lookup p' c
          | None => None
          end
      | File _ => None
      end
  end.

Definition exists_ (p : path) (n : node) : bool :=
  match lookup p n with Some _ => true | None => false end.

(** Whether the way to [p] goes through a file: a segment before the last
    names a file, so that what [p] names cannot even be looked for. *)
Fixpoint through_file (p : path) (n : node) : bool :=
  match p, n with
  | [], _ => false
  | _ :: _, File _ => true
  | s :: p', Dir es =>
      match assoc s es with
      | Some c => through_file p' c
      | None => false
      end
  end.

(** Recursive removal of the entry at [p]; nothing happens when there is
    none. The root itself is never the target. *)
Fixpoint remove (p : path) (n : node) : node :=
  match p, n with
  | [], _ => n
  | _ :: _, File _ => n
  | [s], Dir es => Dir (del_entry s es)
  | s :: p', Dir es =>
      Dir (map (fun e => if String.eqb (fst e) s
                         then (fst e, remove p' (snd e)) else e) es)
  end.

(** [mkdir -p]: every missing directory of [p] is made; a file in the way
    is an error. *)
Fixpoint mkdirs (p : path) (n : node) : option node :=
  match n with
  | File _ => None
  | Dir es =>
      match p with
      | [] => Some n
      | s :: p' =>
          match mkdirs p' (match assoc s es with
                           | Some c => c
                           | None => Dir []
                           end) with
          | Some c' => Some (Dir (set_entry s c' es))
          | None => None
          end
      end
  end.

(** Puts [new] at [p], over what is there; the parent directory has to
    exist. *)
Fixpoint write_at (p : path) (new : node) (n : node) : option node :=
  match p, n with
  | [], _ => Some new
  | _ :: _, File _ => None
  | s :: p', Dir es =>
      match p', assoc s es with
      | [], _ => Some (Dir (set_entry s new es))
      | _ :: _, Some c =>
          match write_at p' new c with
          | Some c' => Some (Dir (set_entry s c' es))
          | None => None
          end
      | _ :: _, None => None
      end
  end.

(** The recursive copy of fs-extra with its default options: directories
    are merged, files overwrite files, and a file against a directory is an
    error. The result is the new destination and whether the copy went
    through; after a failure the entries copied so far stay. *)
Fixpoint merge (src : node) (dst : option node) {struct src}
  : option node * bool :=
  match src with
  | File c =>
      match dst with
      | Some (Dir _) => (dst, false)
      | _ => (Some (File c), true)
      end
  | Dir es =>
      match dst with
      | Some (File _) => (dst, false)
      | _ =>
          let ds := match dst with Some (Dir ds) => ds | _ => [] end in
          let '(ds', ok) :=
            (fix go (es : list (string * node)) (ds : list (string * node))
               : list (string * node) * bool :=
               match es with
               | [] => (ds, true)
               | (k, c) :: es' =>
                   let '(c', ok) := merge c (assoc k ds) in
                   let ds' := match c' with
                              | Some x => set_entry k x ds
                              | None => ds
                              end in
                   if ok then go es' ds' else (ds', false)
               end) es ds in
          (Some (Dir ds'), ok)
      end
  end.

Fixpoint is_prefix (p q : path) : bool :=
  match p, q with
  | [], _ => true
  | _ :: _, [] => false
  | a :: p', b :: q' => String.eqb a b && is_prefix p' q'
  end.

Definition parent (p : path) : path := removelast p.

End Fs.

(** A path as the program writes it: absolute, or relative to the working
    directory. [path.join] adds segments to either. *)
Inductive fpath : Type :=
| Abs (segments : Fs.path)
| Rel (segments : Fs.path).

Definition path_join (p : fpath) (more : list string) : fpath :=
  match p with
  | Abs s => Abs (s ++ more)%list
  | Rel s => Rel (s ++ more)%list
  end.

(** ** Thrown values, the world and the inputs *)

Inductive hardhat_error : Type :=
| CONFLICTING_FILES (dest : fpath) (conflicts : string)
| UNSUPPORTED_OPERATION (operation : string).

(** A thrown JavaScript value. *)
Inductive exn : Type :=
| HardhatError (e : hardhat_error)
| SystemError (code : Fs.error) (p : fpath)   (* of fs and fs-extra *)
| SyntaxError (p : fpath)                      (* of JSON.parse *)
| TypeError
| ThrownString (s : string)
| ThrownBoolean (b : bool).

Inductive result (A : Type) : Type :=
| Ok (a : A)
| Throw (e : exn).
Arguments Ok {A} a.
Arguments Throw {A} e.

(** What the run shows, asks and starts, in order. *)
Inductive event : Type :=
| AsciiLogo
| Welcome (version : string)
| ConsoleLog (line : string)
| ConsoleWarn (line : string)
| PromptAction (choices : list string) (initial : nat)
| PromptProjectCreation
| PromptTelemetryConsent
| PromptRecommendedDepsInstallation (deps : Dependencies)
| WriteTelemetryConsent (consent : bool)
| Spawn (command : string) (args : list string).

Record World : Type := {
  fs : Fs.node;
  trace : list event
}.

(** How the child process ends: it closes with an exit status ([None] when
    a signal ended it), or it could not be spawned. *)
Inductive child_outcome : Type :=
| Close (status : option Z)
| SpawnError.

Record Inputs : Type := {
  (* process.env.HARDHAT_CREATE_*_SAMPLE_PROJECT_WITH_DEFAULTS *)
  env_BASIC_WITH_DEFAULTS : option string;
  env_ADVANCED_WITH_DEFAULTS : option string;
  env_ADVANCED_TYPESCRIPT_WITH_DEFAULTS : option string;
  cwd : Fs.path;                       (* process.cwd() *)
  os_type : string;                    (* os.type() *)
  os_EOL : string;                     (* os.EOL *)
  packageRoot : Fs.path;               (* getPackageRoot() *)
  hardhat_version : string;            (* (await getPackageJson()).version *)
  DEFAULT_SOLC_VERSION : string;
  recommendedGitIgnore : string;       (* getRecommendedGitIgnore() *)
  json_text : PackageJson -> string;   (* the text of a JSON file *)
  consentedTelemetry : option bool;    (* hasConsentedTelemetry() *)
  (* what the prompts resolve to *)
  answer_action : result string;
  answer_projectCreation : result (fpath * bool);
  answer_telemetryConsent : result (option bool);
  answer_recommendedDepsInstallation : Dependencies -> result bool;
  (* how the spawned installer ends *)
  child : string -> list string -> child_outcome
}.

(** ** Computations *)

Definition M (A : Type) : Type := World -> World * result A.

Definition ret {A} (a : A) : M A := fun w => (w, Ok a).

Definition throw {A} (e : exn) : M A := fun w => (w, Throw e).

Definition bind {A B} (m : M A) (k : A -> M B) : M B :=
  fun w =>
    match m w with
    | (w', Ok a) => k a w'
    | (w', Throw e) => (w', Throw e)
    end.

(** [try { m } catch (e) { handler(e) }] *)
Definition try_catch {A} (m : M A) (handler : exn -> M A) : M A :=
  fun w =>
    match m w with
    | (w', Ok a) => (w', Ok a)
    | (w', Throw e) => handler e w'
    end.

Declare Scope js_scope.
Delimit Scope js_scope with js.
Notation "x <- m ;; k" := (bind m (fun x => k))
  (at level 61, m at next level, right associativity) : js_scope.
Notation "m ;; k" := (bind m (fun _ => k))
  (at level 61, right associativity) : js_scope.
Open Scope js_scope.

Definition emit (e : event) : M unit :=
  fun w => ({| fs := fs w; trace := (trace w ++ [e])%list |}, Ok tt).

Definition when (b : bool) (m : M unit) : M unit :=
  if b then m else ret tt.

(** [xs.filter(f)] with a callback that reads the world and may throw. *)
Fixpoint filterM {A} (f : A -> M bool) (xs : list A) : M (list A) :=
  match xs with
  | [] => ret []
  | x :: xs' =>
      b <- f x ;;
      r <- filterM f xs' ;;
      ret (if b then x :: r else r)
  end.

(** [for (const x of xs) { await f(x) }] *)
Fixpoint forM_ {A} (xs : list A) (f : A -> M unit) : M unit :=
  match xs with
  | [] => ret tt
  | x :: xs' => f x ;; forM_ xs' f
  end.

(** The template literals of the install command: [name@range], and the
    same between double quotes. *)
Definition token (e : string * string) : string := fst e ++ "@" ++ snd e.
Definition quoted (s : string) : string := Js.dquote ++ s ++ Js.dquote.

(** ** The program *)

Section Program.

Variable io : Inputs.

(** *** fs and fs-extra *)

Definition resolve (p : fpath) : Fs.path :=
  match p with
  | Abs s => s
  | Rel s => (cwd io ++ s)%list
  end.

(** The value a prompt or another collaborator settles with. *)
Definition settle {A} (r : result A) : M A := fun w => (w, r).

Definition put_fs (n : Fs.node) (w : World) : World :=
  {| fs := n; trace := trace w |}.

Definition pathExists (p : fpath) : M bool :=
  fun w => (w, Ok (Fs.exists_ (resolve p) (fs w))).

Definition readdirSync (p : fpath) : M (list string) :=
  fun w =>
    match Fs.lookup (resolve p) (fs w) with
    | Some (Fs.Dir es) => (w, Ok (map fst es))
    | Some (Fs.File _) => (w, Throw (SystemError Fs.ENOTDIR p))
    | None => (w, Throw (SystemError Fs.ENOENT p))
    end.

(** [fsExtra.remove(p)]: what is at [p] is removed with all it holds, and
    nothing at [p] is no error; a file on the way to [p] is one. *)
Definition remove (p : fpath) : M unit :=
  fun w =>
    if Fs.through_file (resolve p) (fs w)
    then (w, Throw (SystemError Fs.ENOTDIR p))
    else (put_fs (Fs.remove (resolve p) (fs w)) w, Ok tt).

Definition ensureDir (p : fpath) : M unit :=
  fun w =>
    match Fs.mkdirs (resolve p) (fs w) with
    | Some n => (put_fs n w, Ok tt)
    | None => (w, Throw (SystemError Fs.EEXIST p))
    end.

(** [fsExtra.copy(src, dest)] *)
Definition copy (src dest : fpath) : M unit :=
  fun w =>
    match Fs.lookup (resolve src) (fs w) with
    | None => (w, Throw (SystemError Fs.ENOENT src))
    | Some s =>
        if Fs.is_prefix (resolve src) (resolve dest)
        then (w, Throw (SystemError Fs.ECOPYSELF dest))
        else
          match Fs.mkdirs (Fs.parent (resolve dest)) (fs w) with
          | None => (w, Throw (SystemError Fs.EEXIST dest))
          | Some n1 =>
              let '(d, ok) := Fs.merge s (Fs.lookup (resolve dest) n1) in
              let n2 :=
                match d with
                | Some d' =>
                    match Fs.write_at (resolve dest) d' n1 with
                    | Some n2 => n2
                    | None => n1
                    end
                | None => n1
                end in
              (put_fs n2 w,
               if ok then Ok tt else Throw (SystemError Fs.ECOPYKIND dest))
          end
    end.

(** [fsExtra.move(src, dest, { overwrite: true })]: the destination is
    removed, then the source is renamed to it. *)
Definition move_overwrite (src dest : fpath) : M unit :=
  fun w =>
    match Fs.lookup (resolve src) (fs w) with
    | None => (w, Throw (SystemError Fs.ENOENT src))
    | Some _ =>
        if Fs.is_prefix (resolve src) (resolve dest)
           && Fs.is_prefix (resolve dest) (resolve src)
        then (w, Ok tt)
        else if Fs.is_prefix (resolve src) (resolve dest)
        then (w, Throw (SystemError Fs.ECOPYSELF dest))
        else
          match Fs.mkdirs (Fs.parent (resolve dest)) (fs w) with
          | None => (w, Throw (SystemError Fs.EEXIST dest))
          | Some n1 =>
              let n2 := Fs.remove (resolve dest) n1 in
              match Fs.lookup (resolve src) n2 with
              | None => (put_fs n2 w, Throw (SystemError Fs.ENOENT src))
              | Some s =>
                  match Fs.write_at (resolve dest) s n2 with
                  | Some n3 =>
                      (put_fs (Fs.remove (resolve src) n3) w, Ok tt)
                  | None =>
                      (put_fs n2 w, Throw (SystemError Fs.ENOENT dest))
                  end
              end
          end
    end.

Definition writeFile (p : fpath) (c : content) : M unit :=
  fun w =>
    match Fs.lookup (resolve p) (fs w) with
    | Some (Fs.Dir _) => (w, Throw (SystemError Fs.EISDIR p))
    | _ =>
        match Fs.write_at (resolve p) (Fs.File c) (fs w) with
        | Some n => (put_fs n w, Ok tt)
        | None => (w, Throw (SystemError Fs.ENOENT p))
        end
    end.

Definition writeJson (p : fpath) (j : PackageJson) : M unit :=
  writeFile p (Json j).

(** [fsExtra.readFile(p, "utf-8")] *)
Definition readFile (p : fpath) : M string :=
  fun w =>
    match Fs.lookup (resolve p) (fs w) with
    | Some (Fs.File (Text s)) => (w, Ok s)
    | Some (Fs.File (Json j)) => (w, Ok (json_text io j))
    | Some (Fs.File JsonNull) => (w, Ok "null")
    | Some (Fs.Dir _) => (w, Throw (SystemError Fs.EISDIR p))
    | None => (w, Throw (SystemError Fs.ENOENT p))
    end.

(** [fsExtra.readJSONSync(p)]; [None] is [null]. *)
Definition readJSONSync (p : fpath) : M (option PackageJson) :=
  fun w =>
    match Fs.lookup (resolve p) (fs w) with
    | Some (Fs.File (Json j)) => (w, Ok (Some j))
    | Some (Fs.File JsonNull) => (w, Ok None)
    | Some (Fs.File (Text _)) => (w, Throw (SyntaxError p))
    | Some (Fs.Dir _) => (w, Throw (SystemError Fs.EISDIR p))
    | None => (w, Throw (SystemError Fs.ENOENT p))
    end.

(** *** project-creation.ts *)

Definition removeProjectDirIfPresent (projectRoot : fpath) (dirName : string)
  : M unit :=
  let dirPath := path_join projectRoot [dirName] in
  present <- pathExists dirPath ;;
  when present (remove dirPath).

Definition removeTempFilesIfPresent (projectRoot : fpath) : M unit :=
  removeProjectDirIfPresent projectRoot "cache" ;;
  removeProjectDirIfPresent projectRoot "artifacts".

Definition printAsciiLogo : M unit := emit AsciiLogo.

Definition getPackageJson_version : M string := ret (hardhat_version io).

Definition printWelcomeMessage : M unit :=
  version <- getPackageJson_version ;;
  emit (Welcome version).

Definition checkForDuplicates (projectRoot : fpath)
  (projectType : SampleProjectTypeCreationAction) : M unit :=
  let srcPath := path_join (Abs (packageRoot io)) ["sample-projects"] in
  destFiles <- readdirSync projectRoot ;;
  basicFiles <- readdirSync (path_join srcPath ["basic"]) ;;
  srcFiles <-
    match projectType with
    | CREATE_BASIC_SAMPLE_PROJECT_ACTION => ret basicFiles
    | CREATE_ADVANCED_SAMPLE_PROJECT_ACTION =>
        advanced <- readdirSync (path_join srcPath ["advanced"]) ;;
        ret (Js.union [basicFiles; advanced])
    | CREATE_ADVANCED_TYPESCRIPT_SAMPLE_PROJECT_ACTION =>
        advanced <- readdirSync (path_join srcPath ["advanced"]) ;;
        advancedTs <- readdirSync (path_join srcPath ["advanced-ts"]) ;;
        ret (Js.union [basicFiles; advanced; advancedTs])
    end ;;
  let duplicates := Js.intersection srcFiles destFiles in
  if (0 <? length duplicates)%nat
  then throw (HardhatError
                (CONFLICTING_FILES projectRoot
                   (Js.join (os_EOL io)
                      (map (fun n => "  " ++ n) duplicates))))
  else ret tt.

Definition copySampleProject (projectRoot : fpath)
  (projectType : SampleProjectTypeCreationAction) : M unit :=
  let samples := path_join (Abs (packageRoot io)) ["sample-projects"] in
  checkForDuplicates projectRoot projectType ;;
  ensureDir projectRoot ;;
  copy (path_join samples ["basic"]) projectRoot ;;
  match projectType with
  | CREATE_ADVANCED_SAMPLE_PROJECT_ACTION
  | CREATE_ADVANCED_TYPESCRIPT_SAMPLE_PROJECT_ACTION =>
      copy (path_join samples ["advanced"]) projectRoot ;;
      remove (path_join projectRoot ["scripts"; "sample-script.js"]) ;;
      move_overwrite (path_join projectRoot ["npmignore"])
                     (path_join projectRoot [".npmignore"])
  | CREATE_BASIC_SAMPLE_PROJECT_ACTION => ret tt
  end ;;
  match projectType with
  | CREATE_ADVANCED_TYPESCRIPT_SAMPLE_PROJECT_ACTION =>
      copy (path_join samples ["advanced-ts"]) projectRoot ;;
      forM_ [ Rel ["hardhat.config.js"];
              Rel ["scripts"; "deploy.js"];
              Rel ["test"; "sample-test.js"] ]
            (fun jsFile => remove jsFile) ;;
      move_overwrite (path_join projectRoot ["npmignore"])
                     (path_join projectRoot [".npmignore"])
  | _ => ret tt
  end ;;
  removeTempFilesIfPresent projectRoot ;;
  remove (path_join projectRoot ["LICENSE.md"]).

Definition newline : string := String "010"%char EmptyString.

Definition addGitIgnore (projectRoot : fpath) : M unit :=
  let gitIgnorePath := path_join projectRoot [".gitignore"] in
  present <- pathExists gitIgnorePath ;;
  content <-
    (if present
     then existingContent <- readFile gitIgnorePath ;;
          ret (existingContent ++ newline ++ recommendedGitIgnore io)
     else ret (recommendedGitIgnore io)) ;;
  writeFile gitIgnorePath (Text content).

Definition isYarnProject : M bool := pathExists (Rel ["yarn.lock"]).

Definition getRecommendedDependenciesInstallationCommand
  (dependencies : Dependencies) (quoteDependencies : bool)
  : M (list string) :=
  let deps :=
    map (fun e => if quoteDependencies then quoted (token e) else token e)
        (Obj.entries dependencies) in
  yarn <- isYarnProject ;;
  if yarn then ret ("yarn" :: "add" :: "--dev" :: deps)
  else ret ("npm" :: "install" :: "--save-dev" :: deps).

Definition getDependencies (projectType : SampleProjectTypeCreationAction)
  : M Dependencies :=
  version <- getPackageJson_version ;;
  ret (Obj.spread (Obj.literal [(HARDHAT_PACKAGE_NAME, "^" ++ version)])
         (SAMPLE_PROJECT_DEPENDENCIES projectType)).

Definition printRecommendedDepsInstallationInstructions
  (projectType : SampleProjectTypeCreationAction) : M unit :=
  emit (ConsoleLog
         "You need to install these dependencies to run the sample project:") ;;
  dependencies <- getDependencies projectType ;;
  cmd <- getRecommendedDependenciesInstallationCommand dependencies true ;;
  emit (ConsoleLog ("  " ++ Js.join " " cmd)).

Definition writeEmptyHardhatConfig : M unit :=
  writeFile (Rel ["hardhat.config.js"])
    (Text ("/**" ++ newline
           ++ " * @type import('hardhat/config').HardhatUserConfig" ++ newline
           ++ " */" ++ newline
           ++ "module.exports = {" ++ newline
           ++ "  solidity: " ++ Js.dquote ++ DEFAULT_SOLC_VERSION io
           ++ Js.dquote ++ "," ++ newline
           ++ "};" ++ newline)).

Definition getAction : M Action :=
  match env_BASIC_WITH_DEFAULTS io with
  | Some _ => ret (CREATE_SAMPLE_PROJECT CREATE_BASIC_SAMPLE_PROJECT_ACTION)
  | None =>
  match env_ADVANCED_WITH_DEFAULTS io with
  | Some _ =>
      ret (CREATE_SAMPLE_PROJECT CREATE_ADVANCED_SAMPLE_PROJECT_ACTION)
  | None =>
  match env_ADVANCED_TYPESCRIPT_WITH_DEFAULTS io with
  | Some _ =>
      ret (CREATE_SAMPLE_PROJECT
             CREATE_ADVANCED_TYPESCRIPT_SAMPLE_PROJECT_ACTION)
  | None =>
      try_catch
        (emit (PromptAction (map action_value Action_values) 0) ;;
         actionResponse <- settle (answer_action io) ;;
         match action_of_value actionResponse with
         | Some a => ret a
         | None =>
             throw (HardhatError
                      (UNSUPPORTED_OPERATION
                         ("Responding with " ++ Js.dquote ++ actionResponse
                          ++ Js.dquote
                          ++ " to the project initialization wizard")))
         end)
        (fun e =>
           match e with
           | ThrownString "" => ret QUIT_ACTION
           | _ => throw e
           end)
  end end end.

Definition createPackageJson : M unit :=
  writeJson (Rel ["package.json"])
    {| pkg_name := Some "hardhat-project";
       pkg_dependencies := None;
       pkg_devDependencies := None;
       pkg_optionalDependencies := None |}.

Definition own_entries (o : option Dependencies) : list (string * string) :=
  match o with
  | Some d => Obj.entries d
  | None => []
  end.

(** [{ ...dependencies, ...devDependencies, ...optionalDependencies }] *)
Definition allDependencies (packageJson : PackageJson) : Dependencies :=
  Obj.spread
    (Obj.spread
       (Obj.spread [] (own_entries (pkg_dependencies packageJson)))
       (own_entries (pkg_devDependencies packageJson)))
    (own_entries (pkg_optionalDependencies packageJson)).

Definition isInstalled (dep : string) : M bool :=
  parsed <- readJSONSync (Rel ["package.json"]) ;;
  match parsed with
  | Some packageJson => ret (Obj.in_op dep (allDependencies packageJson))
  | None => throw TypeError        (* a property of null is read *)
  end.

Definition canInstallRecommendedDeps : M bool :=
  hasPackageJson <- pathExists (Rel ["package.json"]) ;;
  ret (hasPackageJson && negb (String.eqb (os_type io) "Windows_NT")).

Definition installDependencies (packageManager : string)
  (args : list string) : M bool :=
  emit (ConsoleLog (packageManager ++ " " ++ Js.join " " args)) ;;
  emit (Spawn packageManager args) ;;
  match child io packageManager args with
  | Close status =>
      match status with
      | Some 0%Z => ret true
      | _ => throw (ThrownBoolean false)
      end
  | SpawnError => throw (ThrownBoolean false)
  end.

Definition installRecommendedDependencies (dependencies : Dependencies)
  : M bool :=
  emit (ConsoleLog "") ;;
  installCmd <-
    getRecommendedDependenciesInstallationCommand dependencies false ;;
  match installCmd with
  | packageManager :: args => installDependencies packageManager args
  | [] => throw TypeError
  end.

(** The prompts of [./prompt]. *)
Definition confirmProjectCreation : M (fpath * bool) :=
  emit PromptProjectCreation ;;
  settle (answer_projectCreation io).

Definition confirmTelemetryConsent : M (option bool) :=
  emit PromptTelemetryConsent ;;
  settle (answer_telemetryConsent io).

Definition confirmRecommendedDepsInstallation (deps : Dependencies)
  : M bool :=
  emit (PromptRecommendedDepsInstallation deps) ;;
  settle (answer_recommendedDepsInstallation io deps).

Definition is_set (v : option string) : bool :=
  match v with Some _ => true | None => false end.

Definition useDefaultPromptResponses : bool :=
  is_set (env_BASIC_WITH_DEFAULTS io)
  || is_set (env_ADVANCED_WITH_DEFAULTS io)
  || is_set (env_ADVANCED_TYPESCRIPT_WITH_DEFAULTS io).

(** The block of [createProject] that decides the installation; its value
    is [shouldShowInstallationInstructions]. *)
Definition createProject_installation
  (action : SampleProjectTypeCreationAction) : M bool :=
  canInstall <- canInstallRecommendedDeps ;;
  if canInstall then
    dependencies <- getDependencies action ;;
    let recommendedDeps := Obj.keys dependencies in
    missing <-
      filterM (fun e => installed <- isInstalled (fst e) ;;
                        ret (negb installed))
              (Obj.entries dependencies) ;;
    let dependenciesToInstall := Obj.fromEntries missing in
    installedRecommendedDeps <- filterM isInstalled recommendedDeps ;;
    let installedExceptHardhat :=
      filter (fun name => negb (String.eqb name HARDHAT_PACKAGE_NAME))
             installedRecommendedDeps in
    if (length installedRecommendedDeps =? length recommendedDeps)%nat
    then ret false
    else if (length installedExceptHardhat =? 0)%nat
    then
      shouldInstall <-
        (if useDefaultPromptResponses then ret true
         else confirmRecommendedDepsInstallation dependenciesToInstall) ;;
      if shouldInstall then
        installed <- installRecommendedDependencies dependenciesToInstall ;;
        when (negb installed)
             (emit (ConsoleWarn
                      "Failed to install the sample project's dependencies")) ;;
        ret (negb installed)
      else ret true
    else ret true
  else ret true.

(** The part of [createProject] on the recommended dependencies: the
    block above, then the instructions when they are still to be shown. *)
Definition createProject_dependencies
  (action : SampleProjectTypeCreationAction) : M unit :=
  shouldShowInstallationInstructions <- createProject_installation action ;;
  when shouldShowInstallationInstructions
       (emit (ConsoleLog "") ;;
        printRecommendedDepsInstallationInstructions action).

(** The rest of [createProject] once a sample project is chosen and the
    answers of the user are known. *)
Definition createProject_sample
  (action : SampleProjectTypeCreationAction)
  (projectRoot : fpath) (shouldAddGitIgnore : bool) : M unit :=
  copySampleProject projectRoot action ;;
  when shouldAddGitIgnore (addGitIgnore projectRoot) ;;
  when (match consentedTelemetry io with None => true | Some _ => false end)
       (telemetryConsent <- confirmTelemetryConsent ;;
        match telemetryConsent with
        | Some consent => emit (WriteTelemetryConsent consent)
        | None => ret tt
        end) ;;
  createProject_dependencies action ;;
  emit (ConsoleLog "Project created") ;;
  emit (ConsoleLog
          "See the README.md file for some example tasks you can run.").

Definition createProject : M unit :=
  printAsciiLogo ;;
  printWelcomeMessage ;;
  action <- getAction ;;
  match action with
  | QUIT_ACTION => ret tt
  | _ =>
      hasPackageJson <- pathExists (Rel ["package.json"]) ;;
      when (negb hasPackageJson) createPackageJson ;;
      match action with
      | QUIT_ACTION => ret tt
      | CREATE_EMPTY_HARDHAT_CONFIG_ACTION =>
          writeEmptyHardhatConfig ;;
          emit (ConsoleLog "Config file created") ;;
          hardhatInstalled <- isInstalled HARDHAT_PACKAGE_NAME ;;
          when (negb hardhatInstalled)
               (emit (ConsoleLog "") ;;
                emit (ConsoleLog
                "You need to install hardhat locally to use it. Please run:") ;;
                version <- getPackageJson_version ;;
                cmd <- getRecommendedDependenciesInstallationCommand
                         (Obj.literal
                            [(HARDHAT_PACKAGE_NAME, "^" ++ version)])
                         true ;;
                emit (ConsoleLog "") ;;
                emit (ConsoleLog (Js.join " " cmd)) ;;
                emit (ConsoleLog ""))
      | CREATE_SAMPLE_PROJECT projectType =>
          responses <-
            (if useDefaultPromptResponses
             then ret (Some (Abs (cwd io), true))
             else
               try_catch
                 (r <- confirmProjectCreation ;; ret (Some r))
                 (fun e =>
                    match e with
                    | ThrownString "" => ret None
                    | _ => throw e
                    end)) ;;
          match responses with
          | None => ret tt
          | Some (projectRoot, shouldAddGitIgnore) =>
              createProject_sample projectType projectRoot
                                   shouldAddGitIgnore
          end
      end
  end.

End Program.

(** ** Observations of a run *)

(** The child processes a trace starts. *)
Definition spawned (t : list event) : list (string * list string) :=
  flat_map (fun e => match e with Spawn c args => [(c, args)] | _ => [] end) t.

(** The confirmations of an installation a trace asks for. *)
Definition install_prompts (t : list event) : list Dependencies :=
  flat_map (fun e => match e with
                     | PromptRecommendedDepsInstallation d => [d]
                     | _ => []
                     end) t.

(** The prompts of any kind a trace shows. *)
Definition is_prompt (e : event) : bool :=
  match e with
  | PromptAction _ _ | PromptProjectCreation | PromptTelemetryConsent
  | PromptRecommendedDepsInstallation _ => true
  | _ => false
  end.

Definition is_warning (e : event) : bool :=
  match e with
  | ConsoleWarn _ => true
  | _ => false
  end.

Definition instructions_header : string :=
  "You need to install these dependencies to run the sample project:".

(** Whether a trace prints the installation instructions of the sample
    project. *)
Definition prints_instructions (t : list event) : bool :=
  existsb (fun e => match e with
                    | ConsoleLog s => String.eqb s instructions_header
                    | _ => false
                    end) t.

(** The directories of [sample-projects] an action copies, in order. *)
Definition requested_tiers (projectType : SampleProjectTypeCreationAction)
  : list string :=
  match projectType with
  | CREATE_BASIC_SAMPLE_PROJECT_ACTION => ["basic"]
  | CREATE_ADVANCED_SAMPLE_PROJECT_ACTION => ["basic"; "advanced"]
  | CREATE_ADVANCED_TYPESCRIPT_SAMPLE_PROJECT_ACTION =>
      ["basic"; "advanced"; "advanced-ts"]
  end.

Definition sample_dir (io : Inputs) (tier : string) : fpath :=
  path_join (path_join (Abs (packageRoot io)) ["sample-projects"]) [tier].

(** The entries of [package.json] of the working directory, merged, when the
    file holds a manifest. *)
Definition manifest (io : Inputs) (n : Fs.node) : option Dependencies :=
  match Fs.lookup (resolve io (Rel ["package.json"])) n with
  | Some (Fs.File (Json j)) => Some (allDependencies j)
  | _ => None
  end.

(** Whether a section of a manifest has a name as a key, and whether one of
    the three sections of a manifest has. *)
Definition section_has (section : option Dependencies) (n : string) : bool :=
  match section with
  | Some d => existsb (String.eqb n) (map fst d)
  | None => false
  end.

Definition declares (j : PackageJson) (n : string) : bool :=
  section_has (pkg_dependencies j) n
  || section_has (pkg_devDependencies j) n
  || section_has (pkg_optionalDependencies j) n.

(** The required dependencies of an action: hardhat itself, then the table
    of the action. *)
Definition required (io : Inputs)
  (projectType : SampleProjectTypeCreationAction) : Dependencies :=
  (HARDHAT_PACKAGE_NAME, "^" ++ hardhat_version io)
    :: SAMPLE_PROJECT_DEPENDENCIES projectType.

(** The required entries a merged manifest does not name. *)
Definition missing (io : Inputs)
  (projectType : SampleProjectTypeCreationAction) (installed : Dependencies)
  : Dependencies :=
  filter (fun e => negb (Obj.has (fst e) installed)) (required io projectType).

(** The start of the install command, by the presence of [yarn.lock]. *)
Definition install_prefix (io : Inputs) (n : Fs.node) : list string :=
  if Fs.exists_ (resolve io (Rel ["yarn.lock"])) n
  then ["yarn"; "add"; "--dev"]
  else ["npm"; "install"; "--save-dev"].

(** What the promise of [installDependencies] settles with. *)
Definition settled (o : child_outcome) : result bool :=
  match o with
  | Close (Some 0%Z) => Ok true
  | _ => Throw (ThrownBoolean false)
  end.

(** The world after more events. *)
Definition add_trace (w : World) (es : list event) : World :=
  {| fs := fs w; trace := (trace w ++ es)%list |}.

(** The required names a merged manifest has. *)
Definition installed_names (io : Inputs)
  (projectType : SampleProjectTypeCreationAction) (installed : Dependencies)
  : list string :=
  filter (fun n => Obj.has n installed) (Obj.keys (required io projectType)).

(** Whether no directory of a tree lists a name twice. *)
Fixpoint nodupb (xs : list string) : bool :=
  match xs with
  | [] => true
  | x :: xs' => negb (Js.includes x xs') && nodupb xs'
  end.

Fixpoint unique_names (n : Fs.node) : bool :=
  match n with
  | Fs.File _ => true
  | Fs.Dir es =>
      nodupb (map fst es)
      && (fix all (es : list (string * Fs.node)) : bool :=
            match es with
            | [] => true
            | e :: es' => unique_names (snd e) && all es'
            end) es
  end.

(** The loop of [Fs.merge] over the entries of a source directory. *)
Definition merge_entries
  : list (string * Fs.node) -> list (string * Fs.node)
    -> list (string * Fs.node) * bool :=
  fix go (es : list (string * Fs.node)) (ds : list (string * Fs.node))
    : list (string * Fs.node) * bool :=
    match es with
    | [] => (ds, true)
    | (k, c) :: es' =>
        let '(c', ok) := Fs.merge c (Fs.assoc k ds) in
        let ds' := match c' with
                   | Some x => Fs.set_entry k x ds
                   | None => ds
                   end in
        if ok then go es' ds' else (ds', false)
    end.

(** Two paths none of which leads to the other. *)
Definition apart (p q : Fs.path) : bool :=
  negb (Fs.is_prefix p q) && negb (Fs.is_prefix q p).

(** The directory of [sample-projects] that an action copies last. *)
Definition last_tier (projectType : SampleProjectTypeCreationAction)
  : string :=
  match projectType with
  | CREATE_BASIC_SAMPLE_PROJECT_ACTION => "basic"
  | CREATE_ADVANCED_SAMPLE_PROJECT_ACTION => "advanced"
  | CREATE_ADVANCED_TYPESCRIPT_SAMPLE_PROJECT_ACTION => "advanced-ts"
  end.

(** The paths that [copySampleProject] removes or replaces after its last
    copy. *)
Definition cleaned (io : Inputs) (projectRoot : fpath)
  (projectType : SampleProjectTypeCreationAction) : list Fs.path :=
  (match projectType with
   | CREATE_BASIC_SAMPLE_PROJECT_ACTION => []
   | CREATE_ADVANCED_SAMPLE_PROJECT_ACTION =>
       [ resolve io (path_join projectRoot ["scripts"; "sample-script.js"]);
         resolve io (path_join projectRoot ["npmignore"]);
         resolve io (path_join projectRoot [".npmignore"]) ]
   | CREATE_ADVANCED_TYPESCRIPT_SAMPLE_PROJECT_ACTION =>
       [ resolve io (Rel ["hardhat.config.js"]);
         resolve io (Rel ["scripts"; "deploy.js"]);
         resolve io (Rel ["test"; "sample-test.js"]);
         resolve io (path_join projectRoot ["npmignore"]);
         resolve io (path_join projectRoot [".npmignore"]) ]
   end
   ++ [ resolve io (path_join projectRoot ["cache"]);
        resolve io (path_join projectRoot ["artifacts"]);
        resolve io (path_join projectRoot ["LICENSE.md"]) ])%list.


Definition is_spawn (e : event) : bool :=
  match e with
  | Spawn _ _ => true
  | _ => false
  end.

(** The events that are not a child process, or are one of the two
    installer commands with its fixed arguments first. *)
Definition installer_or_no_spawn (e : event) : bool :=
  match e with
  | Spawn command (first :: second :: _) =>
      String.eqb command "npm" && String.eqb first "install"
      && String.eqb second "--save-dev"
      || String.eqb command "yarn" && String.eqb first "add"
         && String.eqb second "--dev"
  | Spawn _ _ => false
  | _ => true
  end.

(** The events about the telemetry consent. *)
Definition is_telemetry (e : event) : bool :=
  match e with
  | PromptTelemetryConsent | WriteTelemetryConsent _ => true
  | _ => false
  end.

(** The events that are not a prompt, or are the prompt for the telemetry
    consent. *)
Definition telemetry_or_no_prompt (e : event) : bool :=
  negb (is_prompt e) || is_telemetry e.

(** A computation that adds nothing to the trace. *)
Definition silent {A} (m : M A) : Prop :=
  forall w, trace (fst (m w)) = trace w.

(** A computation that only adds events of a kind to the trace. *)
Definition only (P : event -> bool) {A} (m : M A) : Prop :=
  forall w, exists d,
    trace (fst (m w)) = (trace w ++ d)%list /\ forallb P d = true.

(** ** A sample installation and working directory *)

Module Sample.

Definition file (s : string) : Fs.node := Fs.File (Text s).

Definition basic : Fs.node :=
  Fs.Dir [ ("contracts", Fs.Dir [("Greeter.sol", file "contract Greeter")]);
           ("scripts", Fs.Dir [("sample-script.js", file "basic script")]);
           ("test", Fs.Dir [("sample-test.js", file "basic test")]);
           ("hardhat.config.js", file "basic config");
           ("README.md", file "basic readme");
           ("LICENSE.md", file "license") ].

Definition advanced : Fs.node :=
  Fs.Dir [ (".eslintrc.js", file "advanced eslint");
           ("hardhat.config.js", file "advanced config");
           ("npmignore", file "advanced ignore");
           ("scripts", Fs.Dir [("deploy.js", file "advanced deploy")]);
           ("README.md", file "advanced readme") ].

Definition advanced_ts : Fs.node :=
  Fs.Dir [ (".eslintrc.js", file "typed eslint");
           ("hardhat.config.ts", file "typed config");
           ("npmignore", file "typed ignore");
           ("scripts", Fs.Dir [("deploy.ts", file "typed deploy")]);
           ("test", Fs.Dir [("index.ts", file "typed test")]);
           ("tsconfig.json", file "tsconfig");
           ("README.md", file "typed readme") ].

(** The root of the file system: hardhat installed under [/opt/hardhat],
    and a home directory with the given entries. *)
Definition root (home : list (string * Fs.node)) : Fs.node :=
  Fs.Dir [ ("opt",
            Fs.Dir [("hardhat",
                     Fs.Dir [("sample-projects",
                              Fs.Dir [ ("basic", basic);
                                       ("advanced", advanced);
                                       ("advanced-ts", advanced_ts) ])])]);
           ("home", Fs.Dir home) ].

Definition world (home : list (string * Fs.node)) : World :=
  {| fs := root home; trace := [] |}.

(** Inputs of a run in [/home]; the arguments are the three environment
    variables, the platform, the answers to the action and project
    prompts, and the exit of the installer. *)
Definition inputs (basic_env advanced_env typed_env : option string)
  (platform : string) (action : result string)
  (project : result (fpath * bool)) (exit : child_outcome) : Inputs :=
  {| env_BASIC_WITH_DEFAULTS := basic_env;
     env_ADVANCED_WITH_DEFAULTS := advanced_env;
     env_ADVANCED_TYPESCRIPT_WITH_DEFAULTS := typed_env;
     cwd := ["home"];
     os_type := platform;
     os_EOL := newline;
     packageRoot := ["opt"; "hardhat"];
     hardhat_version := "2.9.0";
     DEFAULT_SOLC_VERSION := "0.7.3";
     recommendedGitIgnore := "node_modules";
     json_text := fun _ => "{}";
     consentedTelemetry := Some true;
     answer_action := action;
     answer_projectCreation := project;
     answer_telemetryConsent := Ok None;
     answer_recommendedDepsInstallation := fun _ => Ok true;
     child := fun _ _ => exit |}.

(** The manifest [createPackageJson] writes. *)
Definition default_manifest : PackageJson :=
  {| pkg_name := Some "hardhat-project";
     pkg_dependencies := None;
     pkg_devDependencies := None;
     pkg_optionalDependencies := None |}.

(** A manifest that declares every dependency of the basic project. *)
Definition full_basic_manifest : PackageJson :=
  {| pkg_name := Some "hardhat-project";
     pkg_dependencies := None;
     pkg_devDependencies :=
       Some (("hardhat", "^2.9.0") :: BASIC_SAMPLE_PROJECT_DEPENDENCIES);
     pkg_optionalDependencies := None |}.

End Sample.

(** * Properties *)

Unset Implicit Arguments.

(** ** Strings, arrays and objects *)

Lemma includes_In (x : string) (xs : list string) :
  Js.includes x xs = true <-> In x xs.
Proof.
  unfold Js.includes. rewrite existsb_exists. split.
  - intros [y [Hy E]]. apply String.eqb_eq in E. now subst.
  - intros H. exists x. split; [assumption | apply String.eqb_refl].
Qed.

Lemma includes_false (x : string) (xs : list string) :
  Js.includes x xs = false <-> ~ In x xs.
Proof.
  rewrite <- includes_In. destruct (Js.includes x xs); split; congruence.
Qed.

Lemma uniq_acc_In (xs seen : list string) (x : string) :
  In x (Js.uniq_acc seen xs) <-> In x xs /\ ~ In x seen.
Proof.
  revert seen. induction xs as [|a xs IH]; intros seen; simpl.
  - tauto.
  - destruct (Js.includes a seen) eqn:E.
    + apply includes_In in E. rewrite IH. split.
      * tauto.
      * intros [[->|H] Hn]; [contradiction | tauto].
    + apply includes_false in E. simpl. rewrite IH. simpl. split.
      * intros [->|[H Hn]]; [tauto|]. split; [tauto|].
        intros Hs. apply Hn. now right.
      * intros [[->|H] Hn]; [now left|].
        destruct (string_dec a x) as [->|Hd]; [now left|].
        right. split; [assumption|]. intros [?|?]; congruence.
Qed.

Lemma uniq_acc_NoDup (xs seen : list string) : NoDup (Js.uniq_acc seen xs).
Proof.
  revert seen. induction xs as [|a xs IH]; intros seen; simpl.
  - constructor.
  - destruct (Js.includes a seen); [apply IH|].
    constructor; [|apply IH].
    rewrite uniq_acc_In. intros [_ H]. apply H. now left.
Qed.

Lemma uniq_In (xs : list string) (x : string) : In x (Js.uniq xs) <-> In x xs.
Proof. unfold Js.uniq. rewrite uniq_acc_In. simpl. tauto. Qed.

Lemma union_In (arrays : list (list string)) (x : string) :
  In x (Js.union arrays) <-> In x (concat arrays).
Proof. apply uniq_In. Qed.

Lemma intersection_In (a b : list string) (x : string) :
  In x (Js.intersection a b) <-> In x a /\ In x b.
Proof.
  unfold Js.intersection. rewrite uniq_In, filter_In, includes_In. tauto.
Qed.

Lemma uniq_fixed_NoDup (xs : list string) : Js.uniq xs = xs -> NoDup xs.
Proof. intros <-. apply uniq_acc_NoDup. Qed.

Lemma intersection_NoDup (a b : list string) : NoDup (Js.intersection a b).
Proof. apply uniq_acc_NoDup. Qed.

Lemma positive_length {A} (x : A) (xs : list A) :
  In x xs -> (0 <? length xs)%nat = true.
Proof. destruct xs; simpl; [tauto | reflexivity]. Qed.

Lemma set_fresh (k v : string) (o : Obj.t) :
  ~ In k (Obj.keys o) -> Obj.set k v o = (o ++ [(k, v)])%list.
Proof.
  induction o as [|[k' v'] o IH]; simpl; intros H; [reflexivity|].
  destruct (String.eqb k' k) eqn:E.
  - apply String.eqb_eq in E. tauto.
  - rewrite IH by tauto. reflexivity.
Qed.

Lemma spread_fresh (more : list (string * string)) (o : Obj.t) :
  NoDup (Obj.keys (o ++ more)%list) -> Obj.spread o more = (o ++ more)%list.
Proof.
  unfold Obj.spread. revert o.
  induction more as [|[k v] more IH]; intros o H; simpl.
  - now rewrite app_nil_r.
  - assert (Hs : (o ++ (k, v) :: more = (o ++ [(k, v)]) ++ more)%list)
      by now rewrite <- app_assoc.
    rewrite Hs in *. rewrite set_fresh.
    + now apply IH.
    + unfold Obj.keys in *. rewrite !map_app in H. simpl in H.
      apply NoDup_app_remove_r in H. apply NoDup_remove_2 in H.
      now rewrite app_nil_r in H.
Qed.

Lemma fromEntries_NoDup (es : list (string * string)) :
  NoDup (map fst es) -> Obj.fromEntries es = es.
Proof. intros H. unfold Obj.fromEntries. now rewrite spread_fresh. Qed.

Lemma has_set (k k' v : string) (o : Obj.t) :
  Obj.has k (Obj.set k' v o) = Obj.has k o || String.eqb k k'.
Proof.
  unfold Obj.has, Js.includes, Obj.keys.
  induction o as [|[a b] o IH]; simpl.
  - now rewrite orb_false_r.
  - destruct (String.eqb a k') eqn:E; simpl.
    + apply String.eqb_eq in E. subst a.
      destruct (String.eqb k k'); simpl; [reflexivity|].
      now rewrite orb_false_r.
    + rewrite IH. now rewrite orb_assoc.
Qed.

Lemma has_spread (k : string) (more : list (string * string)) (o : Obj.t) :
  Obj.has k (Obj.spread o more) = Obj.has k o || Obj.has k more.
Proof.
  unfold Obj.spread. revert o.
  induction more as [|[a b] more IH]; intros o; simpl.
  - now rewrite orb_false_r.
  - rewrite IH, has_set. unfold Obj.has at 4. simpl.
    now rewrite <- orb_assoc.
Qed.

Lemma has_spread_empty (k : string) (more : list (string * string)) :
  Obj.has k (Obj.spread [] more) = existsb (String.eqb k) (map fst more).
Proof. rewrite has_spread. reflexivity. Qed.

(** What [allDependencies] has is what the three sections have. *)
Lemma allDependencies_declares (j : PackageJson) (n : string) :
  Obj.has n (allDependencies j) = declares j n.
Proof.
  unfold allDependencies, declares, section_has. rewrite !has_spread.
  destruct (pkg_dependencies j), (pkg_devDependencies j),
    (pkg_optionalDependencies j); reflexivity.
Qed.

Lemma forallb_incl (a b : list string) :
  forallb (fun x => Js.includes x b) a = true -> incl a b.
Proof.
  rewrite forallb_forall. intros H x Hx. apply includes_In. now apply H.
Qed.

(** ** Running the small computations *)

Ltac run :=
  repeat (unfold bind, ret, throw, when, settle, emit, try_catch; simpl).

Lemma getDependencies_run io projectType w :
  getDependencies io projectType w = (w, Ok (required io projectType)).
Proof.
  unfold getDependencies, getPackageJson_version, required. run.
  destruct projectType; reflexivity.
Qed.

Lemma resolve_cwd io (segments : list string) :
  resolve io (Rel segments) = (cwd io ++ segments)%list.
Proof. reflexivity. Qed.

Lemma command_run io dependencies quoteDependencies w :
  getRecommendedDependenciesInstallationCommand io dependencies
    quoteDependencies w
  = (w, Ok (install_prefix io (fs w)
            ++ map (fun e => if quoteDependencies then quoted (token e)
                             else token e) dependencies)%list).
Proof.
  unfold getRecommendedDependenciesInstallationCommand, isYarnProject,
    pathExists, install_prefix, Obj.entries, bind.
  destruct (Fs.exists_ (resolve io (Rel ["yarn.lock"])) (fs w)); reflexivity.
Qed.

Lemma add_trace_nil w : add_trace w [] = w.
Proof. destruct w. unfold add_trace. simpl. now rewrite app_nil_r. Qed.

Lemma add_trace_app w es es' :
  add_trace (add_trace w es) es' = add_trace w (es ++ es').
Proof. unfold add_trace. simpl. now rewrite app_assoc. Qed.

Lemma fs_add_trace w es : fs (add_trace w es) = fs w.
Proof. reflexivity. Qed.

Lemma emit_run e w : emit e w = (add_trace w [e], Ok tt).
Proof. reflexivity. Qed.

Lemma installDependencies_run io packageManager args w :
  installDependencies io packageManager args w
  = (add_trace w [ ConsoleLog (packageManager ++ " " ++ Js.join " " args);
                   Spawn packageManager args ],
     settled (child io packageManager args)).
Proof.
  unfold installDependencies, bind. rewrite !emit_run, add_trace_app. simpl.
  destruct (child io packageManager args) as [[[| |]|]|]; reflexivity.
Qed.

Lemma installRecommended_run io dependencies w :
  installRecommendedDependencies io dependencies w
  = (add_trace w
       [ ConsoleLog "";
         ConsoleLog (hd "" (install_prefix io (fs w)) ++ " "
                     ++ Js.join " " (tl (install_prefix io (fs w))
                                     ++ map token dependencies));
         Spawn (hd "" (install_prefix io (fs w)))
               (tl (install_prefix io (fs w)) ++ map token dependencies) ],
     settled (child io (hd "" (install_prefix io (fs w)))
                (tl (install_prefix io (fs w)) ++ map token dependencies))).
Proof.
  unfold installRecommendedDependencies, bind.
  rewrite emit_run, command_run.
  assert (E : exists pm sub, install_prefix io (fs w) = pm :: sub).
  { unfold install_prefix.
    destruct (Fs.exists_ (resolve io (Rel ["yarn.lock"])) (fs w));
      eexists; eexists; reflexivity. }
  destruct E as [pm [sub E]]. rewrite fs_add_trace, E. cbn [app hd tl].
  rewrite installDependencies_run, add_trace_app. reflexivity.
Qed.

(** ** The dependency tables *)

(** C7. The required dependencies that [getDependencies] returns are nested
    by tier. For the basic project they are hardhat, mapped to the caret
    range of the running version, and the five packages of the basic table;
    for the advanced project they are those of the basic project followed
    by fourteen more; for the advanced TypeScript project they are those of
    the advanced project followed by ten more. No name occurs twice, so each
    set of names is a strict superset of the one before, and hardhat is in
    each with the same range. *)
Theorem required_dependencies_nested :
  forall io w,
  exists basic advanced typed,
    getDependencies io CREATE_BASIC_SAMPLE_PROJECT_ACTION w = (w, Ok basic)
    /\ getDependencies io CREATE_ADVANCED_SAMPLE_PROJECT_ACTION w
       = (w, Ok advanced)
    /\ getDependencies io CREATE_ADVANCED_TYPESCRIPT_SAMPLE_PROJECT_ACTION w
       = (w, Ok typed)
    /\ basic
       = [ ("hardhat", ("^" ++ hardhat_version io)%string);
           ("@nomiclabs/hardhat-waffle", "^2.0.0");
           ("ethereum-waffle", "^3.0.0");
           ("chai", "^4.2.0");
           ("@nomiclabs/hardhat-ethers", "^2.0.0");
           ("ethers", "^5.0.0") ]
    /\ advanced
       = (basic
         ++ [ ("@nomiclabs/hardhat-etherscan", "^3.0.0");
              ("dotenv", "^16.0.0");
              ("eslint", "^7.29.0");
              ("eslint-config-prettier", "^8.3.0");
              ("eslint-config-standard", "^16.0.3");
              ("eslint-plugin-import", "^2.23.4");
              ("eslint-plugin-node", "^11.1.0");
              ("eslint-plugin-prettier", "^3.4.0");
              ("eslint-plugin-promise", "^5.1.0");
              ("hardhat-gas-reporter", "^1.0.4");
              ("prettier", "^2.3.2");
              ("prettier-plugin-solidity", "^1.0.0-beta.13");
              ("solhint", "^3.3.6");
              ("solidity-coverage", "^0.7.16") ])%list
    /\ typed
       = (advanced
         ++ [ ("@typechain/ethers-v5", "^7.0.1");
              ("@typechain/hardhat", "^2.3.0");
              ("@typescript-eslint/eslint-plugin", "^4.29.1");
              ("@typescript-eslint/parser", "^4.29.1");
              ("@types/chai", "^4.2.21");
              ("@types/node", "^12.0.0");
              ("@types/mocha", "^9.0.0");
              ("ts-node", "^10.1.0");
              ("typechain", "^5.1.2");
              ("typescript", "^4.5.2") ])%list
    /\ NoDup (map fst typed)
    /\ incl (map fst basic) (map fst advanced)
    /\ incl (map fst advanced) (map fst typed)
    /\ existsb (String.eqb "dotenv") (map fst basic) = false
    /\ existsb (String.eqb "typescript") (map fst advanced) = false
    /\ Obj.get "hardhat" basic = Some ("^" ++ hardhat_version io)%string
    /\ Obj.get "hardhat" advanced = Some ("^" ++ hardhat_version io)%string
    /\ Obj.get "hardhat" typed = Some ("^" ++ hardhat_version io)%string.
Proof.
  intros io w.
  exists (required io CREATE_BASIC_SAMPLE_PROJECT_ACTION),
    (required io CREATE_ADVANCED_SAMPLE_PROJECT_ACTION),
    (required io CREATE_ADVANCED_TYPESCRIPT_SAMPLE_PROJECT_ACTION).
  split; [apply getDependencies_run|].
  split; [apply getDependencies_run|].
  split; [apply getDependencies_run|].
  split; [reflexivity|]. split; [reflexivity|]. split; [reflexivity|].
  split; [apply uniq_fixed_NoDup; reflexivity|].
  split; [apply forallb_incl; reflexivity|].
  split; [apply forallb_incl; reflexivity|].
  repeat split; reflexivity.
Qed.

(** ** The install command *)

(** C8. The command starts with [yarn add --dev] when [yarn.lock] exists in
    the working directory and with [npm install --save-dev] otherwise; then
    comes one token for each entry, in order: the name, an at sign and the
    range, between two double quote characters exactly when the flag is
    set. The process that [installRecommendedDependencies] spawns is that
    package manager, and its arguments are the rest of the command with the
    tokens bare, never quoted. *)
Theorem install_command_quoting :
  forall io dependencies quoteDependencies w,
    getRecommendedDependenciesInstallationCommand io dependencies
      quoteDependencies w
    = (w, Ok ((if Fs.exists_ (resolve io (Rel ["yarn.lock"])) (fs w)
               then ["yarn"; "add"; "--dev"]
               else ["npm"; "install"; "--save-dev"])
              ++ map (fun e =>
                        if quoteDependencies
                        then (String "034"%char EmptyString
                              ++ (fst e ++ "@" ++ snd e)
                              ++ String "034"%char EmptyString)%string
                        else (fst e ++ "@" ++ snd e)%string)
                     dependencies)%list)
    /\ spawned (trace (fst (installRecommendedDependencies io dependencies w)))
       = (spawned (trace w)
         ++ [ (if Fs.exists_ (resolve io (Rel ["yarn.lock"])) (fs w)
               then "yarn" else "npm",
               (if Fs.exists_ (resolve io (Rel ["yarn.lock"])) (fs w)
                then ["add"; "--dev"] else ["install"; "--save-dev"])
               ++ map (fun e => (fst e ++ "@" ++ snd e)%string)
                      dependencies) ])%list.
Proof.
  intros io dependencies quoteDependencies w. split.
  - apply command_run.
  - rewrite installRecommended_run. unfold spawned, install_prefix.
    cbn [fst trace add_trace]. rewrite flat_map_app.
    destruct (Fs.exists_ (resolve io (Rel ["yarn.lock"])) (fs w));
      reflexivity.
Qed.

Lemma install_command_quoting_witness :
  let io := Sample.inputs None None None "Linux" (Ok "Quit")
              (Ok (Rel ["proj"], true)) (Close (Some 0%Z)) in
  let locked := Sample.world [("yarn.lock", Sample.file "lock")] in
  let deps := [("chai", "^4.2.0"); ("ethers", "^5.0.0")] in
  (getRecommendedDependenciesInstallationCommand io deps true locked
   = (locked,
      Ok [ "yarn"; "add"; "--dev";
           String "034"%char
             ("chai@^4.2.0" ++ String "034"%char EmptyString)%string;
           String "034"%char
             ("ethers@^5.0.0" ++ String "034"%char EmptyString)%string ])
   /\ spawned (trace (fst (installRecommendedDependencies io deps locked)))
      = [("yarn", ["add"; "--dev"; "chai@^4.2.0"; "ethers@^5.0.0"])])
  /\ getRecommendedDependenciesInstallationCommand io deps false
       (Sample.world [])
     = (Sample.world [],
        Ok ["npm"; "install"; "--save-dev"; "chai@^4.2.0"; "ethers@^5.0.0"]).
Proof.
  intros io locked deps. split.
  - exact (install_command_quoting io deps true locked).
  - exact (proj1 (install_command_quoting io deps false (Sample.world []))).
Defined.

(** ** The choice of the action *)

(** C9. When at least one of the three environment variables is set, the
    action is decided by the first that is set in the order basic, advanced,
    advanced TypeScript, and nothing is shown or changed: no prompt. *)
Theorem getAction_env_priority :
  forall io w,
    useDefaultPromptResponses io = true ->
    getAction io w
    = (w, Ok (CREATE_SAMPLE_PROJECT
                (if is_set (env_BASIC_WITH_DEFAULTS io)
                 then CREATE_BASIC_SAMPLE_PROJECT_ACTION
                 else if is_set (env_ADVANCED_WITH_DEFAULTS io)
                 then CREATE_ADVANCED_SAMPLE_PROJECT_ACTION
                 else CREATE_ADVANCED_TYPESCRIPT_SAMPLE_PROJECT_ACTION))).
Proof.
  intros io w. unfold useDefaultPromptResponses, getAction.
  destruct (env_BASIC_WITH_DEFAULTS io); [reflexivity|].
  destruct (env_ADVANCED_WITH_DEFAULTS io); [reflexivity|].
  destruct (env_ADVANCED_TYPESCRIPT_WITH_DEFAULTS io); [reflexivity|].
  simpl. discriminate.
Qed.

Lemma getAction_env_priority_witness :
  getAction
    (Sample.inputs (Some "1") (Some "1") (Some "1") "Linux"
       (Ok "Quit") (Ok (Rel ["proj"], true)) (Close (Some 0%Z)))
    (Sample.world [])
  = (Sample.world [],
     Ok (CREATE_SAMPLE_PROJECT CREATE_BASIC_SAMPLE_PROJECT_ACTION)).
Proof. apply getAction_env_priority. reflexivity. Defined.

(** ** The file system operations *)

Open Scope list_scope.

Lemma assoc_set_entry (s : string) (c : Fs.node) es :
  Fs.assoc s (Fs.set_entry s c es) = Some c.
Proof.
  induction es as [|[k v] es IH]; simpl.
  - now rewrite String.eqb_refl.
  - destruct (String.eqb k s) eqn:E; simpl; rewrite E; [reflexivity | exact IH].
Qed.

Lemma lookup_app (p q : Fs.path) (n : Fs.node) :
  Fs.lookup (p ++ q) n
  = match Fs.lookup p n with
    | Some c => Fs.lookup q c
    | None => None
    end.
Proof.
  revert n. induction p as [|s p IH]; intros n; simpl; [reflexivity|].
  destruct n as [c|es]; [reflexivity|].
  destruct (Fs.assoc s es); [apply IH | reflexivity].
Qed.

Lemma write_at_child (p : Fs.path) (s : string) (new n : Fs.node) es :
  Fs.lookup p n = Some (Fs.Dir es) ->
  exists n', Fs.write_at (p ++ [s]) new n = Some n'
             /\ Fs.lookup (p ++ [s]) n' = Some new.
Proof.
  revert n. induction p as [|a p IH]; intros n H; simpl in *.
  - injection H as ->. eexists. split; [reflexivity|].
    simpl. now rewrite assoc_set_entry.
  - destruct n as [c|ds]; [discriminate|].
    destruct (Fs.assoc a ds) as [c|] eqn:E; [|discriminate].
    destruct (IH c H) as [c' [Hw Hl]].
    destruct (p ++ [s])%list as [|b q] eqn:Ep.
    + destruct p; discriminate.
    + rewrite Hw. eexists. split; [reflexivity|].
      simpl. rewrite assoc_set_entry. exact Hl.
Qed.

Lemma readdirSync_missing io p w :
  Fs.lookup (resolve io p) (fs w) = None ->
  readdirSync io p w = (w, Throw (SystemError Fs.ENOENT p)).
Proof. intros H. unfold readdirSync. now rewrite H. Qed.

Lemma checkForDuplicates_missing io projectRoot projectType w :
  Fs.lookup (resolve io projectRoot) (fs w) = None ->
  checkForDuplicates io projectRoot projectType w
  = (w, Throw (SystemError Fs.ENOENT projectRoot)).
Proof.
  intros H. unfold checkForDuplicates, bind.
  now rewrite readdirSync_missing.
Qed.

(** ** The manifest and the gate of the installation *)

Lemma isInstalled_run io dep w installed :
  manifest io (fs w) = Some installed ->
  isInstalled io dep w = (w, Ok (Obj.in_op dep installed)).
Proof.
  unfold manifest, isInstalled, readJSONSync, bind, ret.
  destruct (Fs.lookup (resolve io (Rel ["package.json"])) (fs w))
    as [[[t|j|]|es]|]; try discriminate.
  now intros [= <-].
Qed.

Lemma manifest_exists io n installed :
  manifest io n = Some installed ->
  Fs.exists_ (resolve io (Rel ["package.json"])) n = true.
Proof.
  unfold manifest, Fs.exists_.
  destruct (Fs.lookup (resolve io (Rel ["package.json"])) n);
    [reflexivity | discriminate].
Qed.

Lemma canInstall_run io w :
  canInstallRecommendedDeps io w
  = (w, Ok (Fs.exists_ (resolve io (Rel ["package.json"])) (fs w)
            && negb (String.eqb (os_type io) "Windows_NT"))).
Proof. reflexivity. Qed.

Lemma filterM_pure {A} (f : A -> M bool) (p : A -> bool) (w : World) xs :
  (forall x, In x xs -> f x w = (w, Ok (p x))) ->
  filterM f xs w = (w, Ok (filter p xs)).
Proof.
  induction xs as [|x xs IH]; intros H; simpl; [reflexivity|].
  unfold bind. rewrite H by now left.
  rewrite IH by (intros y Hy; apply H; now right).
  reflexivity.
Qed.

Lemma required_keys_own io projectType :
  forallb (fun n => negb (Js.includes n Obj.prototype_properties))
          (Obj.keys (required io projectType)) = true.
Proof. destruct projectType; reflexivity. Qed.

Lemma in_op_required io projectType installed n :
  In n (Obj.keys (required io projectType)) ->
  Obj.in_op n installed = Obj.has n installed.
Proof.
  intros H. pose proof (required_keys_own io projectType) as K.
  rewrite forallb_forall in K. specialize (K n H).
  unfold Obj.in_op. destruct (Js.includes n Obj.prototype_properties);
    [discriminate | apply orb_false_r].
Qed.

Lemma required_keys_NoDup io projectType :
  NoDup (Obj.keys (required io projectType)).
Proof. apply uniq_fixed_NoDup. destruct projectType; reflexivity. Qed.

Lemma NoDup_keys_filter (p : string * string -> bool) es :
  NoDup (map fst es) -> NoDup (map fst (filter p es)).
Proof.
  induction es as [|e es IH]; simpl; intros H; [constructor|].
  inversion H as [|? ? Hn Hd]; subst.
  destruct (p e); simpl; [|now apply IH].
  constructor; [|now apply IH].
  intros Hi. apply Hn. apply in_map_iff in Hi. destruct Hi as [x [Hx Hf]].
  apply in_map_iff. exists x. split; [assumption|].
  apply filter_In in Hf. tauto.
Qed.

Lemma filter_all {A} (p : A -> bool) xs :
  (forall x, In x xs -> p x = true) -> filter p xs = xs.
Proof.
  induction xs as [|x xs IH]; simpl; intros H; [reflexivity|].
  rewrite H by now left. f_equal. apply IH. intros y Hy. apply H. now right.
Qed.

Lemma filter_none {A} (p : A -> bool) xs :
  (forall x, In x xs -> p x = false) -> filter p xs = [].
Proof.
  induction xs as [|x xs IH]; simpl; intros H; [reflexivity|].
  rewrite H by now left. apply IH. intros y Hy. apply H. now right.
Qed.

Lemma filter_shorter {A} (p : A -> bool) xs x :
  In x xs -> p x = false -> (length (filter p xs) < length xs)%nat.
Proof.
  induction xs as [|a xs IH]; simpl; [tauto|].
  intros [->|H] Hp.
  - rewrite Hp. pose proof (filter_length_le p xs). lia.
  - specialize (IH H Hp). destruct (p a); simpl; lia.
Qed.

Lemma chai_required io projectType :
  In "chai" (Obj.keys (required io projectType)).
Proof. destruct projectType; vm_compute; tauto. Qed.

(** Behind an open gate, the installation block decides on the installed
    names alone. *)
Lemma installation_classify io action w installed :
  manifest io (fs w) = Some installed ->
  String.eqb (os_type io) "Windows_NT" = false ->
  createProject_installation io action w
  = (if (length (installed_names io action installed)
         =? length (Obj.keys (required io action)))%nat
     then ret false
     else if (length (filter (fun name =>
                                negb (String.eqb name HARDHAT_PACKAGE_NAME))
                             (installed_names io action installed)) =? 0)%nat
     then
       shouldInstall <-
         (if useDefaultPromptResponses io then ret true
          else confirmRecommendedDepsInstallation io
                 (missing io action installed)) ;;
       if shouldInstall then
         ok <- installRecommendedDependencies io
                 (missing io action installed) ;;
         when (negb ok)
              (emit (ConsoleWarn
                      "Failed to install the sample project's dependencies")) ;;
         ret (negb ok)
       else ret true
     else ret true) w.
Proof.
  intros Hm Hos. unfold createProject_installation.
  unfold bind at 1. rewrite canInstall_run, (manifest_exists _ _ _ Hm), Hos.
  cbn [andb negb].
  unfold bind at 1. rewrite getDependencies_run.
  unfold bind at 1.
  rewrite (filterM_pure _ (fun e => negb (Obj.has (fst e) installed))).
  2:{ intros e He. unfold bind. rewrite (isInstalled_run _ _ _ _ Hm).
      unfold ret. rewrite (in_op_required io action).
      - reflexivity.
      - unfold Obj.entries in He. now apply in_map. }
  unfold bind at 1.
  rewrite (filterM_pure _ (fun n => Obj.has n installed)).
  2:{ intros n Hn. rewrite (isInstalled_run _ _ _ _ Hm).
      now rewrite (in_op_required io action). }
  rewrite fromEntries_NoDup
    by (apply NoDup_keys_filter, (required_keys_NoDup io action)).
  reflexivity.
Qed.

Lemma installation_gate_closed io action w :
  Fs.exists_ (resolve io (Rel ["package.json"])) (fs w)
  && negb (String.eqb (os_type io) "Windows_NT") = false ->
  createProject_installation io action w = (w, Ok true).
Proof.
  intros H. unfold createProject_installation, bind.
  rewrite canInstall_run, H. reflexivity.
Qed.

Lemma installation_fully_satisfied io action w installed :
  manifest io (fs w) = Some installed ->
  String.eqb (os_type io) "Windows_NT" = false ->
  (forall n, In n (Obj.keys (required io action)) ->
             Obj.has n installed = true) ->
  createProject_installation io action w = (w, Ok false).
Proof.
  intros Hm Hos Hall. rewrite (installation_classify _ _ _ _ Hm Hos).
  unfold installed_names. rewrite (filter_all _ _ Hall), Nat.eqb_refl.
  reflexivity.
Qed.

(** The instructions, as [createProject] prints them. *)
Lemma instructions_run io action w :
  (emit (ConsoleLog "") ;;
   printRecommendedDepsInstallationInstructions io action) w
  = (add_trace w
       [ ConsoleLog "";
         ConsoleLog instructions_header;
         ConsoleLog ("  " ++ Js.join " "
                       (install_prefix io (fs w)
                        ++ map (fun e => quoted (token e))
                               (required io action)))%string ],
     Ok tt).
Proof.
  unfold printRecommendedDepsInstallationInstructions, bind.
  rewrite !emit_run, getDependencies_run, command_run, emit_run.
  rewrite !add_trace_app. reflexivity.
Qed.

Lemma dependencies_print_instructions io action w :
  createProject_installation io action w = (w, Ok true) ->
  createProject_dependencies io action w
  = (add_trace w
       [ ConsoleLog "";
         ConsoleLog instructions_header;
         ConsoleLog ("  " ++ Js.join " "
                       (install_prefix io (fs w)
                        ++ map (fun e => quoted (token e))
                               (required io action)))%string ],
     Ok tt).
Proof.
  intros H. unfold createProject_dependencies. unfold bind at 1.
  rewrite H. apply instructions_run.
Qed.

Lemma framework_only_classes io action installed :
  (forall n, In n (Obj.keys (required io action)) ->
             Obj.has n installed = true -> n = HARDHAT_PACKAGE_NAME) ->
  (length (installed_names io action installed)
   =? length (Obj.keys (required io action)))%nat = false
  /\ filter (fun name => negb (String.eqb name HARDHAT_PACKAGE_NAME))
            (installed_names io action installed) = [].
Proof.
  intros H. split.
  - apply Nat.eqb_neq. unfold installed_names.
    assert (L : (length (filter (fun n => Obj.has n installed)
                           (Obj.keys (required io action)))
                 < length (Obj.keys (required io action)))%nat).
    { apply filter_shorter with (x := "chai"%string).
      - apply chai_required.
      - destruct (Obj.has "chai" installed) eqn:E; [|reflexivity].
        specialize (H _ (chai_required io action) E). discriminate. }
    lia.
  - apply filter_none. intros n Hn. unfold installed_names in Hn.
    apply filter_In in Hn. destruct Hn as [Hk Hi].
    rewrite (H n Hk Hi). reflexivity.
Qed.

(** With only hardhat installed, an open gate and an affirmative
    confirmation, the dependencies block spawns the installer on the missing
    entries, and ends as the promise of the installer settles. *)
Lemma dependencies_framework_only io action w installed :
  manifest io (fs w) = Some installed ->
  String.eqb (os_type io) "Windows_NT" = false ->
  (forall n, In n (Obj.keys (required io action)) ->
             Obj.has n installed = true -> n = HARDHAT_PACKAGE_NAME) ->
  useDefaultPromptResponses io = true
  \/ answer_recommendedDepsInstallation io (missing io action installed)
     = Ok true ->
  let pm := hd ""%string (install_prefix io (fs w)) in
  let args := tl (install_prefix io (fs w))
              ++ map token (missing io action installed) in
  createProject_dependencies io action w
  = (add_trace w
       ((if useDefaultPromptResponses io then []
         else [PromptRecommendedDepsInstallation
                 (missing io action installed)])
        ++ [ ConsoleLog "";
             ConsoleLog (pm ++ " " ++ Js.join " " args)%string;
             Spawn pm args ]),
     match settled (child io pm args) with
     | Ok _ => Ok tt
     | Throw e => Throw e
     end).
Proof.
  intros Hm Hos Hfw Hyes pm args.
  unfold createProject_dependencies. unfold bind at 1.
  rewrite (installation_classify _ _ _ _ Hm Hos).
  destruct (framework_only_classes _ _ _ Hfw) as [-> ->].
  cbn [length Nat.eqb].
  unfold bind at 1.
  assert (Hc : (if useDefaultPromptResponses io then ret true
                else confirmRecommendedDepsInstallation io
                       (missing io action installed)) w
               = (add_trace w
                    (if useDefaultPromptResponses io then []
                     else [PromptRecommendedDepsInstallation
                             (missing io action installed)]),
                  Ok true)).
  { destruct (useDefaultPromptResponses io).
    - now rewrite add_trace_nil.
    - destruct Hyes as [Hd|Ha]; [discriminate|].
      unfold confirmRecommendedDepsInstallation, bind, settle.
      rewrite emit_run, Ha. reflexivity. }
  rewrite Hc. unfold bind at 1.
  rewrite installRecommended_run, fs_add_trace, add_trace_app.
  fold pm args.
  destruct (child io pm args) as [[[| |]|]|]; reflexivity.
Qed.

(** ** The reconciliation of the dependencies *)

Lemma manifest_of_file io n j :
  Fs.lookup (resolve io (Rel ["package.json"])) n = Some (Fs.File (Json j)) ->
  manifest io n = Some (allDependencies j).
Proof. intros H. unfold manifest. now rewrite H. Qed.

Lemma missing_declares io action j :
  missing io action (allDependencies j)
  = filter (fun e => negb (declares j (fst e))) (required io action).
Proof.
  unfold missing. apply filter_ext. intros e.
  now rewrite allDependencies_declares.
Qed.

(** C5, as amended. When [package.json] of the working directory holds a
    manifest and each required dependency is a key of one of its three
    sections, the dependencies part of [createProject] ends normally and
    does nothing but print: on [Windows_NT], where the gate of the
    installation is closed, the empty line, the header of the installation
    instructions and the install command with every required [name@range]
    between double quotes; on every other platform nothing at all. So no
    installer is spawned and no confirmation is asked on any platform. *)
Theorem fully_satisfied_no_install :
  forall io action w j,
    Fs.lookup (resolve io (Rel ["package.json"])) (fs w)
    = Some (Fs.File (Json j)) ->
    (forall n, In n (map fst (required io action)) -> declares j n = true) ->
    createProject_dependencies io action w
    = (add_trace w
         (if String.eqb (os_type io) "Windows_NT"
          then
            [ ConsoleLog "";
              ConsoleLog
                "You need to install these dependencies to run the sample project:";
              ConsoleLog
                ("  "
                 ++ String.concat " "
                      ((if Fs.exists_ (resolve io (Rel ["yarn.lock"])) (fs w)
                        then ["yarn"; "add"; "--dev"]
                        else ["npm"; "install"; "--save-dev"])
                       ++ map (fun e =>
                                 (String "034"%char EmptyString
                                  ++ (fst e ++ "@" ++ snd e)
                                  ++ String "034"%char EmptyString)%string)
                              (required io action)))%string ]
          else []),
       Ok tt).
Proof.
  intros io action w j Hfile Hall.
  pose proof (manifest_of_file _ _ _ Hfile) as Hm.
  destruct (String.eqb (os_type io) "Windows_NT") eqn:Hos.
  - rewrite dependencies_print_instructions; [reflexivity|].
    apply installation_gate_closed. rewrite Hos. apply andb_false_r.
  - unfold createProject_dependencies, bind.
    rewrite (installation_fully_satisfied _ _ _ _ Hm Hos).
    + now rewrite add_trace_nil.
    + intros n Hn. rewrite allDependencies_declares. now apply Hall.
Qed.

Lemma fully_satisfied_no_install_witness :
  let linux := Sample.inputs None (Some "1") None "Linux" (Ok "Quit")
                 (Ok (Rel ["proj"], true)) (Close (Some 0%Z)) in
  let windows := Sample.inputs None (Some "1") None "Windows_NT" (Ok "Quit")
                   (Ok (Rel ["proj"], true)) (Close (Some 0%Z)) in
  let j := {| pkg_name := Some "mine";
              pkg_dependencies := Some [("chai", "*"); ("ethers", "*")];
              pkg_devDependencies :=
                Some [("hardhat", "*"); ("ethereum-waffle", "*")];
              pkg_optionalDependencies :=
                Some [ ("@nomiclabs/hardhat-waffle", "*");
                       ("@nomiclabs/hardhat-ethers", "*") ] |} in
  let w := Sample.world [("package.json", Fs.File (Json j))] in
  createProject_dependencies linux CREATE_BASIC_SAMPLE_PROJECT_ACTION w
  = (w, Ok tt)
  /\ createProject_dependencies windows CREATE_BASIC_SAMPLE_PROJECT_ACTION w
     = (add_trace w
          [ ConsoleLog "";
            ConsoleLog
              "You need to install these dependencies to run the sample project:";
            ConsoleLog
              (String.concat (String "034"%char EmptyString)
                 [ "  npm install --save-dev "; "hardhat@^2.9.0"; " ";
                   "@nomiclabs/hardhat-waffle@^2.0.0"; " ";
                   "ethereum-waffle@^3.0.0"; " "; "chai@^4.2.0"; " ";
                   "@nomiclabs/hardhat-ethers@^2.0.0"; " "; "ethers@^5.0.0";
                   "" ]) ],
        Ok tt).
Proof.
  intros linux windows j w.
  assert (Hall : forall io n,
             In n (map fst (required io CREATE_BASIC_SAMPLE_PROJECT_ACTION)) ->
             declares j n = true).
  { intros io n H. cbv in H.
    repeat (destruct H as [<-|H]; [reflexivity|]). contradiction. }
  split.
  - exact (fully_satisfied_no_install linux
             CREATE_BASIC_SAMPLE_PROJECT_ACTION w j eq_refl (Hall linux)).
  - exact (fully_satisfied_no_install windows
             CREATE_BASIC_SAMPLE_PROJECT_ACTION w j eq_refl (Hall windows)).
Defined.

(** C5 as stated fails in two ways. On [Windows_NT], with the basic project
    requested by its environment variable in a working directory whose
    manifest declares every required dependency, the whole run succeeds,
    spawns nothing, and still prints the installation instructions. And
    the manifest that is read is the one of the working directory, not the
    one of the destination: on another platform, with the destination
    [proj] holding a manifest that declares every required dependency and
    no manifest in the working directory, the run asks for the confirmation
    of the installation and spawns the installer on all the required
    dependencies, the manifest of the destination staying as it was. *)
Lemma fully_satisfied_prints_or_installs :
  (let io := Sample.inputs (Some "1") None None "Windows_NT" (Ok "Quit")
               (Ok (Rel ["proj"], true)) (Close (Some 0%Z)) in
   let w := Sample.world
              [("package.json", Fs.File (Json Sample.full_basic_manifest))] in
   forallb (declares Sample.full_basic_manifest)
           (map fst (required io CREATE_BASIC_SAMPLE_PROJECT_ACTION)) = true
   /\ Fs.lookup ["home"; "package.json"] (fs (fst (createProject io w)))
      = Some (Fs.File (Json Sample.full_basic_manifest))
   /\ snd (createProject io w) = Ok tt
   /\ spawned (trace (fst (createProject io w))) = []
   /\ prints_instructions (trace (fst (createProject io w))) = true)
  /\ (let io := Sample.inputs None None None "Linux"
                  (Ok "Create a basic sample project")
                  (Ok (Rel ["proj"], true)) (Close (Some 0%Z)) in
      let w := Sample.world
                 [("proj",
                   Fs.Dir [("package.json",
                            Fs.File (Json Sample.full_basic_manifest))])] in
      forallb (declares Sample.full_basic_manifest)
              (map fst (required io CREATE_BASIC_SAMPLE_PROJECT_ACTION)) = true
      /\ Fs.lookup ["home"; "proj"; "package.json"] (fs w)
         = Some (Fs.File (Json Sample.full_basic_manifest))
      /\ Fs.lookup ["home"; "proj"; "package.json"]
           (fs (fst (createProject io w)))
         = Some (Fs.File (Json Sample.full_basic_manifest))
      /\ snd (createProject io w) = Ok tt
      /\ install_prompts (trace (fst (createProject io w)))
         = [required io CREATE_BASIC_SAMPLE_PROJECT_ACTION]
      /\ spawned (trace (fst (createProject io w)))
         = [ ("npm",
              [ "install"; "--save-dev"; "hardhat@^2.9.0";
                "@nomiclabs/hardhat-waffle@^2.0.0"; "ethereum-waffle@^3.0.0";
                "chai@^4.2.0"; "@nomiclabs/hardhat-ethers@^2.0.0";
                "ethers@^5.0.0" ]) ]).
Proof. vm_compute. repeat split. Qed.

(** C6. When [package.json] of the working directory holds a manifest, the
    platform is not [Windows_NT], hardhat is the only required dependency
    that may be a key of one of the three sections of the manifest, and the
    confirmation is affirmative (by the default responses or by the answer
    to the prompt), the dependencies part of [createProject] spawns one
    process: the package manager, with its two fixed arguments and then the
    bare [name@range] of exactly the required entries of which the name is
    in no section of the manifest, in the order of the table. (That some
    entry is missing follows from the third hypothesis.) *)
Theorem framework_only_installs_missing :
  forall io action w j,
    Fs.lookup (resolve io (Rel ["package.json"])) (fs w)
    = Some (Fs.File (Json j)) ->
    String.eqb (os_type io) "Windows_NT" = false ->
    (forall n, In n (map fst (required io action)) ->
               declares j n = true -> n = "hardhat"%string) ->
    useDefaultPromptResponses io = true
    \/ answer_recommendedDepsInstallation io
         (filter (fun e => negb (declares j (fst e))) (required io action))
       = Ok true ->
    spawned (trace (fst (createProject_dependencies io action w)))
    = spawned (trace w)
      ++ [ (if Fs.exists_ (resolve io (Rel ["yarn.lock"])) (fs w)
            then "yarn"%string else "npm"%string,
            (if Fs.exists_ (resolve io (Rel ["yarn.lock"])) (fs w)
             then ["add"; "--dev"]%string
             else ["install"; "--save-dev"]%string)
            ++ map (fun e => (fst e ++ "@" ++ snd e)%string)
                 (filter (fun e => negb (declares j (fst e)))
                         (required io action))) ]
    /\ filter (fun e => negb (declares j (fst e))) (required io action) <> [].
Proof.
  intros io action w j Hfile Hos Hfw Hyes.
  pose proof (manifest_of_file _ _ _ Hfile) as Hm.
  assert (Hfw' : forall n, In n (Obj.keys (required io action)) ->
                   Obj.has n (allDependencies j) = true ->
                   n = HARDHAT_PACKAGE_NAME).
  { intros n Hn Hh. rewrite allDependencies_declares in Hh.
    now apply Hfw. }
  rewrite <- (missing_declares io action j) in *. split.
  - rewrite (dependencies_framework_only _ _ _ _ Hm Hos Hfw' Hyes).
    cbn [fst trace add_trace]. unfold spawned, install_prefix.
    rewrite !flat_map_app.
    destruct (useDefaultPromptResponses io);
      destruct (Fs.exists_ (resolve io (Rel ["yarn.lock"])) (fs w));
      reflexivity.
  - intros E. destruct (declares j "chai") eqn:Hc.
    + specialize (Hfw _ (chai_required io action) Hc). discriminate.
    + pose proof (chai_required io action) as K. unfold Obj.keys in K.
      apply in_map_iff in K. destruct K as [e [He Hi]].
      assert (Hin : In e (missing io action (allDependencies j))).
      { rewrite missing_declares. apply filter_In. split; [assumption|].
        now rewrite He, Hc. }
      rewrite E in Hin. contradiction.
Qed.

Lemma framework_only_installs_missing_witness :
  let io := Sample.inputs (Some "1") None None "Linux" (Ok "Quit")
              (Ok (Rel ["proj"], true)) (Close (Some 0%Z)) in
  let j := {| pkg_name := Some "mine";
              pkg_dependencies := Some [("lodash", "^4.17.0")];
              pkg_devDependencies := Some [("hardhat", "^2.0.0")];
              pkg_optionalDependencies := None |} in
  let w := Sample.world [("package.json", Fs.File (Json j))] in
  spawned (trace (fst (createProject_dependencies io
                         CREATE_BASIC_SAMPLE_PROJECT_ACTION w)))
  = [ ("npm"%string,
       [ "install"; "--save-dev";
         "@nomiclabs/hardhat-waffle@^2.0.0"; "ethereum-waffle@^3.0.0";
         "chai@^4.2.0"; "@nomiclabs/hardhat-ethers@^2.0.0";
         "ethers@^5.0.0" ]%string) ].
Proof.
  intros io j w.
  assert (Hfw : forall n,
             In n (map fst (required io CREATE_BASIC_SAMPLE_PROJECT_ACTION)) ->
             declares j n = true -> n = "hardhat"%string).
  { intros n H D. cbv in H.
    repeat (destruct H as [<-|H];
            [first [reflexivity | cbv in D; discriminate D]|]).
    contradiction. }
  exact (proj1 (framework_only_installs_missing io
                  CREATE_BASIC_SAMPLE_PROJECT_ACTION w j
                  eq_refl eq_refl Hfw (or_introl eq_refl))).
Defined.

(** ** The exit of the installer *)

(** C2 fails on the code. When the installer does not close with status 0,
    the promise of [installDependencies] is rejected: the call throws the
    value [false]; and in the dependencies part of [createProject], with only
    hardhat installed and the default responses, that value goes through:
    the part ends with the exception, having printed neither a warning nor
    the installation instructions. *)
Theorem installDependencies_failure_is_thrown :
  forall io action w installed,
    manifest io (fs w) = Some installed ->
    String.eqb (os_type io) "Windows_NT" = false ->
    (forall n, In n (Obj.keys (required io action)) ->
               Obj.has n installed = true -> n = HARDHAT_PACKAGE_NAME) ->
    useDefaultPromptResponses io = true ->
    let pm := hd ""%string (install_prefix io (fs w)) in
    let args := tl (install_prefix io (fs w))
                ++ map token (missing io action installed) in
    child io pm args <> Close (Some 0%Z) ->
    installDependencies io pm args w
    = (add_trace w [ ConsoleLog (pm ++ " " ++ Js.join " " args)%string;
                     Spawn pm args ],
       Throw (ThrownBoolean false))
    /\ exists delta,
         createProject_dependencies io action w
         = (add_trace w delta, Throw (ThrownBoolean false))
         /\ prints_instructions delta = false
         /\ existsb is_warning delta = false.
Proof.
  intros io action w installed Hm Hos Hfw Hdef pm args Hexit.
  assert (Hs : settled (child io pm args) = Throw (ThrownBoolean false)).
  { destruct (child io pm args) as [[[| |]|]|]; try reflexivity.
    now contradiction Hexit. }
  split.
  - rewrite installDependencies_run. now rewrite Hs.
  - eexists. split.
    + rewrite (dependencies_framework_only _ _ _ _ Hm Hos Hfw (or_introl Hdef)).
      fold pm args. rewrite Hs, Hdef. reflexivity.
    + unfold pm, install_prefix.
      destruct (Fs.exists_ (resolve io (Rel ["yarn.lock"])) (fs w));
        split; reflexivity.
Qed.

Lemma installDependencies_failure_is_thrown_witness :
  let io := Sample.inputs (Some "1") None None "Linux" (Ok "Quit")
              (Ok (Rel ["proj"], true)) (Close (Some 1%Z)) in
  let w := Sample.world
             [("package.json", Fs.File (Json Sample.default_manifest))] in
  snd (createProject_dependencies io CREATE_BASIC_SAMPLE_PROJECT_ACTION w)
  = Throw (ThrownBoolean false).
Proof.
  intros io w.
  destruct (installDependencies_failure_is_thrown io
              CREATE_BASIC_SAMPLE_PROJECT_ACTION w []
              eq_refl eq_refl
              (fun n _ (H : Obj.has n [] = true) =>
                 False_ind _ (Bool.diff_false_true H))
              eq_refl
              ltac:(discriminate)) as [_ [delta [E _]]].
  now rewrite E.
Defined.

(** ** The conflict check and the copy *)

Ltac tier_listings H :=
  repeat match type of H with
         | Forall2 _ (_ :: _) _ =>
             let a := fresh "tier" in
             let b := fresh "names" in
             let l := fresh "tiers" in
             let l' := fresh "listed" in
             let Hh := fresh "Hlist" in
             let Ht := fresh "Hrest" in
             inversion H as [|a b l l' Hh Ht]; subst; clear H;
             rename Ht into H; unfold sample_dir in Hh
         | Forall2 _ [] _ => inversion H; subst; clear H
         end.

Lemma checkForDuplicates_conflict io w projectRoot projectType
  destFiles tierFiles :
  readdirSync io projectRoot w = (w, Ok destFiles) ->
  Forall2 (fun tier names =>
             readdirSync io (sample_dir io tier) w = (w, Ok names))
          (requested_tiers projectType) tierFiles ->
  (exists f, In f (concat tierFiles) /\ In f destFiles) ->
  exists duplicates,
    checkForDuplicates io projectRoot projectType w
    = (w, Throw (HardhatError
                   (CONFLICTING_FILES projectRoot
                      (Js.join (os_EOL io)
                         (map (fun n => "  " ++ n)%string duplicates)))))
    /\ NoDup duplicates
    /\ (forall f,
           In f duplicates <-> In f (concat tierFiles) /\ In f destFiles).
Proof.
  intros Hd Ht [f [Hs Hdst]].
  unfold checkForDuplicates. unfold bind at 1. rewrite Hd.
  destruct projectType; simpl in Ht; tier_listings Ht.
  - exists (Js.intersection names destFiles).
    unfold bind at 1. rewrite Hlist. unfold bind at 1, ret at 1.
    simpl in Hs. rewrite app_nil_r in Hs.
    rewrite (positive_length f) by (apply intersection_In; tauto).
    split; [reflexivity|]. split; [apply intersection_NoDup|].
    intros g. rewrite intersection_In. simpl. now rewrite app_nil_r.
  - exists (Js.intersection (Js.union [names; names0]) destFiles).
    unfold bind at 1. rewrite Hlist. unfold bind at 1. unfold bind at 1.
    rewrite Hlist0. unfold ret at 1.
    rewrite (positive_length f)
      by (apply intersection_In; rewrite union_In; tauto).
    split; [reflexivity|]. split; [apply intersection_NoDup|].
    intros g. now rewrite intersection_In, union_In.
  - exists (Js.intersection (Js.union [names; names0; names1]) destFiles).
    unfold bind at 1. rewrite Hlist. unfold bind at 1. unfold bind at 1.
    rewrite Hlist0. unfold bind at 1. rewrite Hlist1. unfold ret at 1.
    rewrite (positive_length f)
      by (apply intersection_In; rewrite union_In; tauto).
    split; [reflexivity|]. split; [apply intersection_NoDup|].
    intros g. now rewrite intersection_In, union_In.
Qed.

(** C1. When the destination directory can be listed, the directories of
    the requested sample projects can be listed, and some name is both an
    entry of the destination and an entry of one of those directories,
    [copySampleProject] throws the conflicting files error with the
    destination and with the lines of the duplicates; the duplicates are,
    without repetition, exactly the names that are in both; and the world is
    the one the call started in: nothing was copied. *)
Theorem conflicting_files_before_any_copy :
  forall io w projectRoot projectType destFiles tierFiles,
    readdirSync io projectRoot w = (w, Ok destFiles) ->
    Forall2 (fun tier names =>
               readdirSync io (sample_dir io tier) w = (w, Ok names))
            (requested_tiers projectType) tierFiles ->
    (exists f, In f (concat tierFiles) /\ In f destFiles) ->
    exists duplicates,
      copySampleProject io projectRoot projectType w
      = (w, Throw (HardhatError
                     (CONFLICTING_FILES projectRoot
                        (Js.join (os_EOL io)
                           (map (fun n => "  " ++ n)%string duplicates)))))
      /\ NoDup duplicates
      /\ (forall f,
             In f duplicates <-> In f (concat tierFiles) /\ In f destFiles).
Proof.
  intros io w projectRoot projectType destFiles tierFiles Hd Ht Hc.
  destruct (checkForDuplicates_conflict io w projectRoot projectType
              destFiles tierFiles Hd Ht Hc) as [dups [E [Hn Hi]]].
  exists dups. split; [|split; assumption].
  unfold copySampleProject. unfold bind at 1. now rewrite E.
Qed.

Lemma conflicting_files_before_any_copy_witness :
  let io := Sample.inputs None None None "Linux" (Ok "Quit")
              (Ok (Rel ["proj"], true)) (Close (Some 0%Z)) in
  let w := Sample.world
             [("proj", Fs.Dir [ ("README.md", Sample.file "mine");
                                ("notes.txt", Sample.file "notes");
                                ("hardhat.config.js", Sample.file "mine") ])] in
  exists duplicates,
    copySampleProject io (Rel ["proj"])
      CREATE_ADVANCED_SAMPLE_PROJECT_ACTION w
    = (w, Throw (HardhatError
                   (CONFLICTING_FILES (Rel ["proj"])
                      (Js.join (os_EOL io)
                         (map (fun n => "  " ++ n)%string duplicates)))))
    /\ NoDup duplicates
    /\ (forall f,
           In f duplicates <->
           In f (concat
                   [ ["contracts"; "scripts"; "test"; "hardhat.config.js";
                      "README.md"; "LICENSE.md"];
                     [".eslintrc.js"; "hardhat.config.js"; "npmignore";
                      "scripts"; "README.md"] ]%string)
           /\ In f ["README.md"; "notes.txt"; "hardhat.config.js"]%string).
Proof.
  intros io w.
  apply (conflicting_files_before_any_copy io w (Rel ["proj"])
           CREATE_ADVANCED_SAMPLE_PROJECT_ACTION).
  - reflexivity.
  - repeat constructor.
  - exists "README.md"%string. simpl. tauto.
Defined.

(** C4 fails on the code. The conflict check lists the destination before
    [copySampleProject] makes it: when nothing exists at the destination the
    listing throws [ENOENT], and so do the check and the whole copy, in the
    world they started in; the call of [ensureDir] that follows the check is
    not reached. *)
Theorem missing_destination_is_an_error :
  forall io w projectRoot projectType,
    Fs.lookup (resolve io projectRoot) (fs w) = None ->
    readdirSync io projectRoot w
    = (w, Throw (SystemError Fs.ENOENT projectRoot))
    /\ checkForDuplicates io projectRoot projectType w
       = (w, Throw (SystemError Fs.ENOENT projectRoot))
    /\ copySampleProject io projectRoot projectType w
       = (w, Throw (SystemError Fs.ENOENT projectRoot)).
Proof.
  intros io w projectRoot projectType H.
  split; [now apply readdirSync_missing|].
  split; [now apply checkForDuplicates_missing|].
  unfold copySampleProject. unfold bind at 1.
  now rewrite checkForDuplicates_missing.
Qed.

Lemma missing_destination_is_an_error_witness :
  let io := Sample.inputs None None None "Linux"
              (Ok "Create a basic sample project")
              (Ok (Rel ["proj"], true)) (Close (Some 0%Z)) in
  let w := Sample.world [] in
  Fs.lookup (resolve io (Rel ["proj"])) (fs w) = None
  /\ copySampleProject io (Rel ["proj"]) CREATE_BASIC_SAMPLE_PROJECT_ACTION w
     = (w, Throw (SystemError Fs.ENOENT (Rel ["proj"]))).
Proof.
  intros io w. split; [reflexivity|].
  apply (missing_destination_is_an_error io w (Rel ["proj"])
           CREATE_BASIC_SAMPLE_PROJECT_ACTION eq_refl).
Defined.

(** ** Cancelling the wizard *)

Lemma action_of_sample_value projectType :
  action_of_value (sample_action_value projectType)
  = Some (CREATE_SAMPLE_PROJECT projectType).
Proof. destruct projectType; reflexivity. Qed.

(** Without the environment variables, the action is the answer to the
    prompt. *)
Lemma getAction_prompt io w :
  useDefaultPromptResponses io = false ->
  getAction io w
  = (add_trace w [PromptAction (map action_value Action_values) 0],
     match answer_action io with
     | Ok response =>
         match action_of_value response with
         | Some a => Ok a
         | None =>
             Throw (HardhatError
                      (UNSUPPORTED_OPERATION
                         ("Responding with " ++ Js.dquote ++ response
                          ++ Js.dquote
                          ++ " to the project initialization wizard")%string))
         end
     | Throw e =>
         match e with
         | ThrownString "" => Ok QUIT_ACTION
         | _ => Throw e
         end
     end).
Proof.
  unfold useDefaultPromptResponses, getAction.
  destruct (env_BASIC_WITH_DEFAULTS io); [discriminate|].
  destruct (env_ADVANCED_WITH_DEFAULTS io); [discriminate|].
  destruct (env_ADVANCED_TYPESCRIPT_WITH_DEFAULTS io); [discriminate|].
  intros _. unfold try_catch, bind, settle. rewrite emit_run.
  destruct (answer_action io) as [response|e].
  - destruct (action_of_value response); reflexivity.
  - destruct e as [| | | |s|]; try reflexivity. destruct s; reflexivity.
Qed.

(** C10. Without the environment variables, when a sample project is chosen
    at the first prompt and the project prompt is cancelled (it throws the
    empty string), [createProject] returns normally; if the working
    directory exists and had no [package.json], it has one afterwards, with
    the default name: the cancellation came after a write. When instead the
    first prompt is answered with Quit, or cancelled, in the same world,
    [createProject] returns normally and the file system is the one it
    started with. *)
Theorem cancel_at_project_prompt_after_write :
  forall io w projectType entries,
    useDefaultPromptResponses io = false ->
    answer_action io = Ok (sample_action_value projectType) ->
    answer_projectCreation io = Throw (ThrownString "") ->
    Fs.lookup (cwd io) (fs w) = Some (Fs.Dir entries) ->
    Fs.assoc "package.json" entries = None ->
    (exists w',
        createProject io w = (w', Ok tt)
        /\ trace w'
           = trace w
             ++ [ AsciiLogo; Welcome (hardhat_version io);
                  PromptAction (map action_value Action_values) 0;
                  PromptProjectCreation ]
        /\ Fs.lookup (resolve io (Rel ["package.json"])) (fs w) = None
        /\ Fs.lookup (resolve io (Rel ["package.json"])) (fs w')
           = Some (Fs.File
                     (Json {| pkg_name := Some "hardhat-project"%string;
                              pkg_dependencies := None;
                              pkg_devDependencies := None;
                              pkg_optionalDependencies := None |})))
    /\ (forall quit,
           useDefaultPromptResponses quit = false ->
           answer_action quit = Ok "Quit"%string
           \/ answer_action quit = Throw (ThrownString "") ->
           exists w',
             createProject quit w = (w', Ok tt) /\ fs w' = fs w).
Proof.
  intros io w projectType entries Hdef Hact Hcancel Hcwd Hnone. split.
  - assert (Hmiss : Fs.lookup (resolve io (Rel ["package.json"])) (fs w)
                    = None).
    { rewrite resolve_cwd, lookup_app, Hcwd. simpl. now rewrite Hnone. }
    destruct (write_at_child (cwd io) "package.json"
                (Fs.File
                   (Json {| pkg_name := Some "hardhat-project"%string;
                            pkg_dependencies := None;
                            pkg_devDependencies := None;
                            pkg_optionalDependencies := None |}))
                (fs w) entries Hcwd) as [n' [Hw Hl]].
    assert (Hrun :
              createProject io w
              = ({| fs := n';
                    trace := trace w
                             ++ [ AsciiLogo; Welcome (hardhat_version io);
                                  PromptAction
                                    (map action_value Action_values) 0;
                                  PromptProjectCreation ] |},
                 Ok tt)).
    { unfold createProject, printAsciiLogo, printWelcomeMessage,
        getPackageJson_version.
      unfold bind at 1. rewrite emit_run.
      unfold bind at 1. unfold bind at 1, ret at 1. rewrite emit_run.
      unfold bind at 1. rewrite (getAction_prompt _ _ Hdef), Hact.
      rewrite action_of_sample_value, !add_trace_app.
      unfold bind at 1, pathExists, Fs.exists_. rewrite fs_add_trace, Hmiss.
      cbn [negb when].
      unfold bind at 1, createPackageJson, writeJson, writeFile.
      rewrite fs_add_trace, Hmiss, resolve_cwd, Hw.
      unfold bind at 1. rewrite Hdef.
      unfold try_catch, bind at 1, confirmProjectCreation, bind at 1, settle.
      rewrite emit_run, Hcancel.
      unfold ret, add_trace, put_fs. cbn [fs trace].
      now rewrite <- !app_assoc. }
    eexists. split; [exact Hrun|].
    split; [reflexivity|]. split; [exact Hmiss | exact Hl].
  - intros quit Hq Hans.
    exists (add_trace w [ AsciiLogo; Welcome (hardhat_version quit);
                          PromptAction (map action_value Action_values) 0 ]).
    split; [|reflexivity].
    unfold createProject, printAsciiLogo, printWelcomeMessage,
      getPackageJson_version.
    unfold bind at 1. rewrite emit_run.
    unfold bind at 1. unfold bind at 1, ret at 1. rewrite emit_run.
    unfold bind at 1. rewrite (getAction_prompt _ _ Hq), !add_trace_app.
    destruct Hans as [-> | ->]; reflexivity.
Qed.

Lemma cancel_at_project_prompt_after_write_witness :
  let io := Sample.inputs None None None "Linux"
              (Ok "Create an advanced sample project")
              (Throw (ThrownString "")) (Close (Some 0%Z)) in
  let w := Sample.world [("notes.txt", Sample.file "notes")] in
  exists w',
    createProject io w = (w', Ok tt)
    /\ trace w'
       = trace w
         ++ [ AsciiLogo; Welcome (hardhat_version io);
              PromptAction (map action_value Action_values) 0;
              PromptProjectCreation ]
    /\ Fs.lookup (resolve io (Rel ["package.json"])) (fs w) = None
    /\ Fs.lookup (resolve io (Rel ["package.json"])) (fs w')
       = Some (Fs.File
                 (Json {| pkg_name := Some "hardhat-project"%string;
                          pkg_dependencies := None;
                          pkg_devDependencies := None;
                          pkg_optionalDependencies := None |})).
Proof.
  intros io w.
  apply (proj1 (cancel_at_project_prompt_after_write io w
                  CREATE_ADVANCED_SAMPLE_PROJECT_ACTION
                  [("notes.txt", Sample.file "notes")]
                  eq_refl eq_refl eq_refl eq_refl eq_refl)).
Defined.

(** ** The cleanup of the TypeScript project *)

(** C3 fails on the code. The three JavaScript files are removed by their
    bare relative paths, which the file system resolves in the working
    directory, not in the project root. With the TypeScript project copied
    into the empty directory [proj] of the working directory, the copy ends
    normally and [proj] still has [hardhat.config.js], [scripts/deploy.js]
    and [test/sample-test.js], next to their typed counterparts and to the
    [.npmignore] renamed from the staged file of the TypeScript project.
    With the working directory itself as project root, the same call removes
    the three files. *)
Theorem typed_project_keeps_javascript_outside_cwd :
  let io := Sample.inputs None None None "Linux"
              (Ok "Create an advanced sample project that uses TypeScript")
              (Ok (Rel ["proj"], true)) (Close (Some 0%Z)) in
  let inside := copySampleProject io (Rel ["proj"])
                  CREATE_ADVANCED_TYPESCRIPT_SAMPLE_PROJECT_ACTION
                  (Sample.world [("proj", Fs.Dir [])]) in
  let at_cwd := copySampleProject io (Abs (cwd io))
                  CREATE_ADVANCED_TYPESCRIPT_SAMPLE_PROJECT_ACTION
                  (Sample.world []) in
  (snd inside = Ok tt
   /\ map (fun p => Fs.exists_ (resolve io (path_join (Rel ["proj"]) p))
                      (fs (fst inside)))
          [ ["hardhat.config.js"]; ["scripts"; "deploy.js"];
            ["test"; "sample-test.js"] ]%string
      = [true; true; true]
   /\ map (fun p => Fs.exists_ (resolve io (path_join (Rel ["proj"]) p))
                      (fs (fst inside)))
          [ ["hardhat.config.ts"]; ["scripts"; "deploy.ts"];
            ["test"; "index.ts"]; ["npmignore"] ]%string
      = [true; true; true; false]
   /\ Fs.lookup (resolve io (Rel ["proj"; ".npmignore"])) (fs (fst inside))
      = Some (Sample.file "typed ignore"))
  /\ (snd at_cwd = Ok tt
      /\ map (fun p => Fs.exists_ (resolve io (Rel p)) (fs (fst at_cwd)))
             [ ["hardhat.config.js"]; ["scripts"; "deploy.js"];
               ["test"; "sample-test.js"] ]%string
         = [false; false; false]).
Proof. vm_compute. repeat split. Qed.

(** ** Whole runs *)

(** A run with the default responses in an empty working directory, on a
    platform where the installer can be spawned and succeeds: the manifest is
    written, the basic project is copied without its license, the ignore file
    is added, the missing dependencies (all of them) are installed with bare
    tokens, and no instructions are printed. *)
Example basic_project_with_defaults :
  let io := Sample.inputs (Some "1") None None "Linux" (Ok "Quit")
              (Ok (Rel ["proj"], true)) (Close (Some 0%Z)) in
  let end_ := createProject io (Sample.world []) in
  snd end_ = Ok tt
  /\ readdirSync io (Abs (cwd io)) (fst end_)
     = (fst end_,
        Ok [ "package.json"; "contracts"; "scripts"; "test";
             "hardhat.config.js"; "README.md"; ".gitignore" ]%string)
  /\ spawned (trace (fst end_))
     = [ ("npm"%string,
          [ "install"; "--save-dev"; "hardhat@^2.9.0";
            "@nomiclabs/hardhat-waffle@^2.0.0"; "ethereum-waffle@^3.0.0";
            "chai@^4.2.0"; "@nomiclabs/hardhat-ethers@^2.0.0";
            "ethers@^5.0.0" ]%string) ]
  /\ existsb is_prompt (trace (fst end_)) = false
  /\ prints_instructions (trace (fst end_)) = false.
Proof. vm_compute. repeat split. Qed.

(** The same run in a directory whose manifest already declares every
    required dependency: nothing is spawned, asked or printed about the
    installation. *)
Example fully_satisfied_project_on_linux :
  let io := Sample.inputs (Some "1") None None "Linux" (Ok "Quit")
              (Ok (Rel ["proj"], true)) (Close (Some 0%Z)) in
  let end_ :=
    createProject io
      (Sample.world
         [("package.json", Fs.File (Json Sample.full_basic_manifest))]) in
  snd end_ = Ok tt
  /\ spawned (trace (fst end_)) = []
  /\ existsb is_prompt (trace (fst end_)) = false
  /\ prints_instructions (trace (fst end_)) = false.
Proof. vm_compute. repeat split. Qed.

(** The same run when the installer exits with status 1: the run ends with
    the thrown [false], after the spawn and before any instructions or the
    closing messages. *)
Example failed_installation_aborts_the_run :
  let io := Sample.inputs (Some "1") None None "Linux" (Ok "Quit")
              (Ok (Rel ["proj"], true)) (Close (Some 1%Z)) in
  let end_ := createProject io (Sample.world []) in
  snd end_ = Throw (ThrownBoolean false)
  /\ length (spawned (trace (fst end_))) = 1%nat
  /\ prints_instructions (trace (fst end_)) = false
  /\ existsb is_warning (trace (fst end_)) = false
  /\ last (trace (fst end_)) AsciiLogo
     = Spawn "npm"
         [ "install"; "--save-dev"; "hardhat@^2.9.0";
           "@nomiclabs/hardhat-waffle@^2.0.0"; "ethereum-waffle@^3.0.0";
           "chai@^4.2.0"; "@nomiclabs/hardhat-ethers@^2.0.0";
           "ethers@^5.0.0" ]%string.
Proof. vm_compute. repeat split. Qed.

(** * Further properties *)

(** ** More on the file system operations *)

Lemma assoc_set_entry_other (k s : string) (c : Fs.node) es :
  k <> s -> Fs.assoc k (Fs.set_entry s c es) = Fs.assoc k es.
Proof.
  intros Hk. induction es as [|[a v] es IH]; simpl.
  - destruct (String.eqb s k) eqn:E; [|reflexivity].
    apply String.eqb_eq in E. congruence.
  - destruct (String.eqb a s) eqn:E; simpl.
    + apply String.eqb_eq in E. subst a.
      destruct (String.eqb s k) eqn:E'; [|reflexivity].
      apply String.eqb_eq in E'. congruence.
    + destruct (String.eqb a k); [reflexivity | exact IH].
Qed.

Lemma assoc_del_entry_same (s : string) es :
  Fs.assoc s (Fs.del_entry s es) = None.
Proof.
  unfold Fs.del_entry. induction es as [|[a v] es IH]; simpl; [reflexivity|].
  destruct (String.eqb a s) eqn:E; simpl; [exact IH|].
  now rewrite E.
Qed.

Lemma assoc_del_entry_other (k s : string) es :
  k <> s -> Fs.assoc k (Fs.del_entry s es) = Fs.assoc k es.
Proof.
  intros Hk. unfold Fs.del_entry.
  induction es as [|[a v] es IH]; simpl; [reflexivity|].
  destruct (String.eqb a s) eqn:E; simpl.
  - apply String.eqb_eq in E. subst a.
    destruct (String.eqb s k) eqn:E'; [|exact IH].
    apply String.eqb_eq in E'. congruence.
  - destruct (String.eqb a k); [reflexivity | exact IH].
Qed.

Lemma assoc_map_named (s k : string) (f : Fs.node -> Fs.node) es :
  Fs.assoc k (map (fun e => if String.eqb (fst e) s
                            then (fst e, f (snd e)) else e) es)
  = if String.eqb k s then option_map f (Fs.assoc k es) else Fs.assoc k es.
Proof.
  induction es as [|[a v] es IH]; simpl.
  - now destruct (String.eqb k s).
  - destruct (String.eqb a s) eqn:Eas; simpl;
      destruct (String.eqb a k) eqn:Eak.
    + apply String.eqb_eq in Eas, Eak. subst.
      now rewrite String.eqb_refl.
    + exact IH.
    + apply String.eqb_eq in Eak. subst a.
      now rewrite Eas.
    + exact IH.
Qed.

Lemma write_at_lookup (p : Fs.path) (new n n' : Fs.node) :
  Fs.write_at p new n = Some n' -> Fs.lookup p n' = Some new.
Proof.
  revert n n'. induction p as [|s p IH]; intros n n' H; simpl in *.
  - now injection H as <-.
  - destruct n as [c|es]; [discriminate|].
    destruct p as [|b q].
    + injection H as <-. simpl. now rewrite assoc_set_entry.
    + destruct (Fs.assoc s es) as [c|]; [|discriminate].
      destruct (Fs.write_at (b :: q) new c) as [c'|] eqn:E; [|discriminate].
      injection H as <-. simpl Fs.lookup at 1. rewrite assoc_set_entry.
      now apply (IH c).
Qed.

(** Writing at a path leaves the entries beside it as they were. *)
Lemma write_at_sibling (p q : Fs.path) (a b : string) (new n n' : Fs.node) :
  a <> b ->
  Fs.write_at (p ++ [a]) new n = Some n' ->
  Fs.lookup (p ++ b :: q) n' = Fs.lookup (p ++ b :: q) n.
Proof.
  intros Hab. revert n n'. induction p as [|s p IH]; intros n n' H.
  - simpl in H. destruct n as [c|es]; [discriminate|].
    injection H as <-. simpl. rewrite assoc_set_entry_other by congruence.
    reflexivity.
  - simpl app in *. simpl in H. destruct n as [c|es]; [discriminate|].
    destruct (p ++ [a]) as [|x r] eqn:Ep; [destruct p; discriminate|].
    destruct (Fs.assoc s es) as [c|] eqn:Es; [|discriminate].
    destruct (Fs.write_at (x :: r) new c) as [c'|] eqn:E; [|discriminate].
    injection H as <-. simpl. rewrite assoc_set_entry, Es.
    now apply IH.
Qed.

Lemma remove_below (a x : string) (r : Fs.path) es :
  Fs.remove (a :: x :: r) (Fs.Dir es)
  = Fs.Dir (map (fun e => if String.eqb (fst e) a
                          then (fst e, Fs.remove (x :: r) (snd e)) else e)
                es).
Proof. reflexivity. Qed.

Lemma remove_lookup_same (p : Fs.path) (s : string) (n : Fs.node) :
  Fs.lookup (p ++ [s]) (Fs.remove (p ++ [s]) n) = None.
Proof.
  revert n. induction p as [|a p IH]; intros n.
  - simpl. destruct n as [c|es]; [reflexivity|].
    simpl. now rewrite assoc_del_entry_same.
  - simpl app.
    destruct (p ++ [s]) as [|x r] eqn:Ep; [destruct p; discriminate|].
    destruct n as [c|es]; [reflexivity|].
    rewrite remove_below. cbn [Fs.lookup].
    rewrite (assoc_map_named a a (Fs.remove (x :: r))), String.eqb_refl.
    destruct (Fs.assoc a es) as [c|]; [|reflexivity].
    cbn [option_map]. apply IH.
Qed.

(** Removing at a path leaves the entries beside it as they were. *)
Lemma remove_sibling (p q : Fs.path) (a b : string) (n : Fs.node) :
  a <> b ->
  Fs.lookup (p ++ b :: q) (Fs.remove (p ++ [a]) n)
  = Fs.lookup (p ++ b :: q) n.
Proof.
  intros Hab. revert n. induction p as [|s p IH]; intros n.
  - simpl. destruct n as [c|es]; [reflexivity|].
    simpl. now rewrite assoc_del_entry_other by congruence.
  - simpl app.
    destruct (p ++ [a]) as [|x r] eqn:Ep; [destruct p; discriminate|].
    destruct n as [c|es]; [reflexivity|].
    rewrite remove_below. cbn [Fs.lookup].
    rewrite (assoc_map_named s s (Fs.remove (x :: r))), String.eqb_refl.
    destruct (Fs.assoc s es) as [c|]; [|reflexivity].
    cbn [option_map]. apply IH.
Qed.

Lemma is_prefix_sibling (p q : Fs.path) (a b : string) :
  a <> b -> Fs.is_prefix (p ++ [a]) (p ++ b :: q) = false.
Proof.
  intros Hab. induction p as [|s p IH]; simpl.
  - destruct (String.eqb a b) eqn:E; [|reflexivity].
    apply String.eqb_eq in E. contradiction.
  - now rewrite String.eqb_refl.
Qed.

Lemma resolve_join io (root : fpath) (more : list string) :
  resolve io (path_join root more) = resolve io root ++ more.
Proof. destruct root; simpl; [reflexivity | now rewrite app_assoc]. Qed.

(** ** Sequencing *)

Lemma bind_Ok {A B} (m : M A) (k : A -> M B) w w' b :
  bind m k w = (w', Ok b) ->
  exists a w1, m w = (w1, Ok a) /\ k a w1 = (w', Ok b).
Proof.
  unfold bind. destruct (m w) as [w1 [a|e]]; intros H.
  - now exists a, w1.
  - discriminate.
Qed.

(** ** The cleanup after the copy *)

Lemma through_file_lookup (p : Fs.path) (n c : Fs.node) :
  Fs.lookup p n = Some c -> Fs.through_file p n = false.
Proof.
  revert n. induction p as [|s p IH]; intros n H; [reflexivity|].
  destruct n as [x|es]; [discriminate|]. cbn [Fs.lookup] in H.
  cbn [Fs.through_file]. destruct (Fs.assoc s es); [|reflexivity].
  now apply IH.
Qed.

(** [removeProjectDirIfPresent] never fails; afterwards the project root has
    no entry of that name, and its other entries are as before. *)
Lemma removeProjectDirIfPresent_run io projectRoot dirName w :
  exists w1,
    removeProjectDirIfPresent io projectRoot dirName w = (w1, Ok tt)
    /\ trace w1 = trace w
    /\ Fs.lookup (resolve io projectRoot ++ [dirName]) (fs w1) = None
    /\ (forall other rest,
           other <> dirName ->
           Fs.lookup (resolve io projectRoot ++ other :: rest) (fs w1)
           = Fs.lookup (resolve io projectRoot ++ other :: rest) (fs w)).
Proof.
  unfold removeProjectDirIfPresent, bind, pathExists, Fs.exists_, when,
    remove, ret.
  rewrite resolve_join.
  destruct (Fs.lookup (resolve io projectRoot ++ [dirName]) (fs w)) eqn:E.
  - rewrite (through_file_lookup _ _ _ E).
    eexists. split; [reflexivity|]. cbn [fs trace put_fs].
    split; [reflexivity|]. split; [apply remove_lookup_same|].
    intros other rest Ho. apply remove_sibling. congruence.
  - exists w. repeat split; auto.
Qed.

(** A removal that ends normally leaves no entry of that name, and the
    other entries as they were. *)
Lemma remove_run io projectRoot name w w1 :
  remove io (path_join projectRoot [name]) w = (w1, Ok tt) ->
  trace w1 = trace w
  /\ Fs.lookup (resolve io projectRoot ++ [name]) (fs w1) = None
  /\ (forall other rest,
         other <> name ->
         Fs.lookup (resolve io projectRoot ++ other :: rest) (fs w1)
         = Fs.lookup (resolve io projectRoot ++ other :: rest) (fs w)).
Proof.
  unfold remove. rewrite resolve_join.
  destruct (Fs.through_file (resolve io projectRoot ++ [name]) (fs w));
    [discriminate|].
  intros [= <-]. cbn [fs trace put_fs].
  split; [reflexivity|]. split; [apply remove_lookup_same|].
  intros other rest Ho. apply remove_sibling. congruence.
Qed.

(** The last steps of [copySampleProject], when they end normally. *)
Lemma cleanup_run io projectRoot w w1 :
  (removeTempFilesIfPresent io projectRoot ;;
   remove io (path_join projectRoot ["LICENSE.md"])) w = (w1, Ok tt) ->
  trace w1 = trace w
  /\ Fs.lookup (resolve io projectRoot ++ ["cache"]) (fs w1) = None
  /\ Fs.lookup (resolve io projectRoot ++ ["artifacts"]) (fs w1) = None
  /\ Fs.lookup (resolve io projectRoot ++ ["LICENSE.md"]) (fs w1) = None
  /\ (forall other rest,
         other <> "cache"%string -> other <> "artifacts"%string ->
         other <> "LICENSE.md"%string ->
         Fs.lookup (resolve io projectRoot ++ other :: rest) (fs w1)
         = Fs.lookup (resolve io projectRoot ++ other :: rest) (fs w)).
Proof.
  destruct (removeProjectDirIfPresent_run io projectRoot "cache" w)
    as [wa [Ea [Ta [Na Fa]]]].
  destruct (removeProjectDirIfPresent_run io projectRoot "artifacts" wa)
    as [wb [Eb [Tb [Nb Fb]]]].
  unfold removeTempFilesIfPresent, bind. rewrite Ea, Eb. intros Ec.
  destruct (remove_run io projectRoot "LICENSE.md" wb w1 Ec)
    as [Tc [Nc Fc]].
  split; [congruence|].
  split; [rewrite Fc, Fb by discriminate; exact Na|].
  split; [rewrite Fc by discriminate; exact Nb|].
  split; [exact Nc|].
  intros other rest H1 H2 H3. now rewrite Fc, Fb, Fa.
Qed.

(** X12. Whenever [copySampleProject] ends normally, whatever the project, the
    project root has neither a license file nor the two directories of
    temporary files. *)
Theorem copy_leaves_no_license_or_temporary_files :
  forall io projectRoot projectType w w',
    copySampleProject io projectRoot projectType w = (w', Ok tt) ->
    map (fun name => Fs.exists_ (resolve io (path_join projectRoot [name]))
                       (fs w'))
        ["LICENSE.md"; "cache"; "artifacts"]%string
    = [false; false; false].
Proof.
  intros io projectRoot projectType w w' H.
  unfold copySampleProject in H.
  apply bind_Ok in H. destruct H as [[] [w1 [H1 H]]].
  apply bind_Ok in H. destruct H as [[] [w2 [H2 H]]].
  apply bind_Ok in H. destruct H as [[] [w3 [H3 H]]].
  apply bind_Ok in H. destruct H as [[] [w4 [H4 H]]].
  apply bind_Ok in H. destruct H as [[] [w5 [H5 H]]].
  rename w' into w6.
  destruct (cleanup_run io projectRoot w5 w6 H) as [T [Nc [Na [Nl _]]]].
  unfold Fs.exists_. cbn [map]. now rewrite !resolve_join, Nc, Na, Nl.
Qed.

(** ** What a computation adds to the trace *)

Lemma silent_ret {A} (a : A) : silent (ret a).
Proof. intros w. reflexivity. Qed.

Lemma silent_throw {A} (e : exn) : silent (@throw A e).
Proof. intros w. reflexivity. Qed.

Lemma silent_bind {A B} (m : M A) (k : A -> M B) :
  silent m -> (forall a, silent (k a)) -> silent (bind m k).
Proof.
  intros Hm Hk w. unfold bind. specialize (Hm w).
  destruct (m w) as [w1 [a|e]]; simpl in *; [|exact Hm].
  now rewrite Hk.
Qed.

Lemma silent_when (b : bool) (m : M unit) : silent m -> silent (when b m).
Proof. destruct b; [auto | intros _; apply silent_ret]. Qed.

Lemma silent_forM {A} (xs : list A) (f : A -> M unit) :
  (forall x, silent (f x)) -> silent (forM_ xs f).
Proof.
  intros H. induction xs; simpl; [apply silent_ret|].
  apply silent_bind; auto.
Qed.

Lemma silent_filterM {A} (f : A -> M bool) (xs : list A) :
  (forall x, silent (f x)) -> silent (filterM f xs).
Proof.
  intros H. induction xs; simpl; [apply silent_ret|].
  apply silent_bind; [apply H|]. intros b.
  apply silent_bind; [exact IHxs|]. intros r. apply silent_ret.
Qed.

Ltac fs_silent :=
  intros w; cbv beta delta [pathExists readdirSync remove ensureDir copy
                            move_overwrite writeFile writeJson readFile
                            readJSONSync];
  repeat first
    [ progress cbv zeta
    | match goal with
      | |- context [match ?x with _ => _ end] => destruct x
      end ];
  reflexivity.

Lemma silent_pathExists io p : silent (pathExists io p).
Proof. fs_silent. Qed.

Lemma silent_readdirSync io p : silent (readdirSync io p).
Proof. fs_silent. Qed.

Lemma silent_remove io p : silent (remove io p).
Proof. fs_silent. Qed.

Lemma silent_ensureDir io p : silent (ensureDir io p).
Proof. fs_silent. Qed.

Lemma silent_copy io src dest : silent (copy io src dest).
Proof. fs_silent. Qed.

Lemma silent_move_overwrite io src dest : silent (move_overwrite io src dest).
Proof. fs_silent. Qed.

Lemma silent_writeFile io p c : silent (writeFile io p c).
Proof. fs_silent. Qed.

Lemma silent_readFile io p : silent (readFile io p).
Proof. fs_silent. Qed.

Lemma silent_readJSONSync io p : silent (readJSONSync io p).
Proof. fs_silent. Qed.

Ltac head_of t :=
  lazymatch t with
  | ?f _ => head_of f
  | _ => t
  end.

(** Goes through a computation made of the operations above. *)
Ltac silence :=
  lazymatch goal with
  | |- silent (bind _ _) => apply silent_bind; [silence | intros; silence]
  | |- silent (ret _) => apply silent_ret
  | |- silent (throw _) => apply silent_throw
  | |- silent (when _ _) => apply silent_when; silence
  | |- silent (forM_ _ _) => apply silent_forM; intros; silence
  | |- silent (filterM _ _) => apply silent_filterM; intros; silence
  | |- silent (pathExists _ _) => apply silent_pathExists
  | |- silent (readdirSync _ _) => apply silent_readdirSync
  | |- silent (remove _ _) => apply silent_remove
  | |- silent (ensureDir _ _) => apply silent_ensureDir
  | |- silent (copy _ _ _) => apply silent_copy
  | |- silent (move_overwrite _ _ _) => apply silent_move_overwrite
  | |- silent (writeFile _ _ _) => apply silent_writeFile
  | |- silent (writeJson _ _ _) => apply silent_writeFile
  | |- silent (readFile _ _) => apply silent_readFile
  | |- silent (readJSONSync _ _) => apply silent_readJSONSync
  | |- silent (match ?x with _ => _ end) => destruct x; silence
  | |- silent (let _ := _ in _) => cbv zeta; silence
  | |- silent ?m => let h := head_of m in unfold h; silence
  end.

Lemma silent_checkForDuplicates io projectRoot projectType :
  silent (checkForDuplicates io projectRoot projectType).
Proof. silence. Qed.

Lemma silent_copySampleProject io projectRoot projectType :
  silent (copySampleProject io projectRoot projectType).
Proof. silence. Qed.

Lemma silent_addGitIgnore io projectRoot : silent (addGitIgnore io projectRoot).
Proof. silence. Qed.

Lemma silent_isInstalled io dep : silent (isInstalled io dep).
Proof. silence. Qed.

Lemma silent_canInstall io : silent (canInstallRecommendedDeps io).
Proof. silence. Qed.

Lemma silent_getDependencies io projectType :
  silent (getDependencies io projectType).
Proof. silence. Qed.

Lemma silent_command io dependencies quoteDependencies :
  silent (getRecommendedDependenciesInstallationCommand io dependencies
            quoteDependencies).
Proof. silence. Qed.

Lemma only_ret P {A} (a : A) : only P (ret a).
Proof. intros w. exists []. simpl. now rewrite app_nil_r. Qed.

Lemma only_throw P {A} (e : exn) : only P (@throw A e).
Proof. intros w. exists []. simpl. now rewrite app_nil_r. Qed.

Lemma only_settle P {A} (r : result A) : only P (settle r).
Proof. intros w. exists []. simpl. now rewrite app_nil_r. Qed.

Lemma only_silent P {A} (m : M A) : silent m -> only P m.
Proof. intros H w. exists []. rewrite H. now rewrite app_nil_r. Qed.

Lemma only_emit (P : event -> bool) e : P e = true -> only P (emit e).
Proof. intros H w. exists [e]. simpl. now rewrite H. Qed.

Lemma only_bind P {A B} (m : M A) (k : A -> M B) :
  only P m -> (forall a, only P (k a)) -> only P (bind m k).
Proof.
  intros Hm Hk w. unfold bind. destruct (Hm w) as [d [Hd Pd]].
  destruct (m w) as [w1 [a|e]]; simpl in *; [|now exists d].
  destruct (Hk a w1) as [d' [Hd' Pd']]. exists (d ++ d').
  rewrite Hd', Hd, app_assoc, forallb_app, Pd, Pd'. now split.
Qed.

Lemma only_try_catch P {A} (m : M A) (handler : exn -> M A) :
  only P m -> (forall e, only P (handler e)) -> only P (try_catch m handler).
Proof.
  intros Hm Hk w. unfold try_catch. destruct (Hm w) as [d [Hd Pd]].
  destruct (m w) as [w1 [a|e]]; simpl in *; [now exists d|].
  destruct (Hk e w1) as [d' [Hd' Pd']]. exists (d ++ d').
  rewrite Hd', Hd, app_assoc, forallb_app, Pd, Pd'. now split.
Qed.

Lemma only_when P (b : bool) (m : M unit) :
  (b = true -> only P m) -> only P (when b m).
Proof. destruct b; [auto | intros _; apply only_ret]. Qed.

Lemma only_filterM P {A} (f : A -> M bool) (xs : list A) :
  (forall x, only P (f x)) -> only P (filterM f xs).
Proof.
  intros H. induction xs; simpl; [apply only_ret|].
  apply only_bind; [apply H|]. intros b.
  apply only_bind; [exact IHxs|]. intros r. apply only_ret.
Qed.

(** Goes through a computation; [leaf] closes what is special to the
    property at hand, and is tried first. *)
Ltac only_with leaf :=
  cbv beta;
  first
    [ solve [leaf]
    | match goal with H : false = true |- _ => discriminate H end
    | lazymatch goal with
      | |- only _ (bind _ _) =>
          apply only_bind; [only_with leaf | intros; only_with leaf]
      | |- only _ (ret _) => apply only_ret
      | |- only _ (throw _) => apply only_throw
      | |- only _ (settle _) => apply only_settle
      | |- only _ (emit _) => apply only_emit; reflexivity
      | |- only _ (when _ _) => apply only_when; intros; only_with leaf
      | |- only _ (try_catch _ _) =>
          apply only_try_catch; [only_with leaf | intros; only_with leaf]
      | |- only _ (filterM _ _) =>
          apply only_filterM; intros; only_with leaf
      | |- only _ (pathExists _ _) => apply only_silent, silent_pathExists
      | |- only _ (writeFile _ _ _) => apply only_silent, silent_writeFile
      | |- only _ (writeJson _ _ _) => apply only_silent, silent_writeFile
      | |- only _ (copySampleProject _ _ _) =>
          apply only_silent, silent_copySampleProject
      | |- only _ (addGitIgnore _ _) => apply only_silent, silent_addGitIgnore
      | |- only _ (isInstalled _ _) => apply only_silent, silent_isInstalled
      | |- only _ (canInstallRecommendedDeps _) =>
          apply only_silent, silent_canInstall
      | |- only _ (getDependencies _ _) =>
          apply only_silent, silent_getDependencies
      | |- only _ (getRecommendedDependenciesInstallationCommand _ _ _) =>
          apply only_silent, silent_command
      | |- only _ (match ?x with _ => _ end) => destruct x; only_with leaf
      | |- only _ (let _ := _ in _) => cbv zeta; only_with leaf
      | |- only _ ?m => let h := head_of m in unfold h; only_with leaf
      end ].

Lemma no_spawn_events (d : list event) :
  forallb (fun e => negb (is_spawn e)) d = true -> spawned d = [].
Proof.
  induction d as [|e d IH]; simpl; [reflexivity|].
  intros H. apply andb_true_iff in H. destruct H as [He Hd].
  destruct e; try discriminate; simpl; auto.
Qed.

Lemma spawned_app (a b : list event) :
  spawned (a ++ b) = spawned a ++ spawned b.
Proof. unfold spawned. apply flat_map_app. Qed.

(** ** What a whole run never does *)

Lemma only_installRecommended io dependencies :
  only installer_or_no_spawn (installRecommendedDependencies io dependencies).
Proof.
  intros w. rewrite installRecommended_run. eexists.
  split; [reflexivity|]. unfold install_prefix.
  destruct (Fs.exists_ (resolve io (Rel ["yarn.lock"])) (fs w)); reflexivity.
Qed.

(** X4. Whatever the inputs and the file system, the only processes a run of
    [createProject] starts are [npm install --save-dev ...] and
    [yarn add --dev ...]. *)
Theorem createProject_spawns_only_the_installer :
  forall io w,
  exists d,
    trace (fst (createProject io w)) = trace w ++ d
    /\ forallb installer_or_no_spawn d = true.
Proof.
  intros io. change (only installer_or_no_spawn (createProject io)).
  only_with ltac:(apply only_installRecommended).
Qed.

Lemma installation_closed_on_windows io action :
  os_type io = "Windows_NT"%string ->
  silent (createProject_installation io action).
Proof.
  intros H w. rewrite installation_gate_closed; [reflexivity|].
  rewrite H. apply andb_false_r.
Qed.

(** X5. On [Windows_NT] a run of [createProject] starts no process at all,
    whatever the manifest and the answers. *)
Theorem createProject_never_spawns_on_windows :
  forall io w,
    os_type io = "Windows_NT"%string ->
    spawned (trace (fst (createProject io w))) = spawned (trace w).
Proof.
  intros io w H.
  assert (O : only (fun e => negb (is_spawn e)) (createProject io)).
  { only_with ltac:(apply only_silent, installation_closed_on_windows, H). }
  destruct (O w) as [d [-> Pd]].
  now rewrite spawned_app, (no_spawn_events _ Pd), app_nil_r.
Qed.

Lemma createProject_never_spawns_on_windows_witness :
  let io := Sample.inputs (Some "1") None None "Windows_NT" (Ok "Quit")
              (Ok (Rel ["proj"], true)) (Close (Some 0%Z)) in
  spawned (trace (fst (createProject io (Sample.world [])))) = [].
Proof.
  intros io.
  apply (createProject_never_spawns_on_windows io (Sample.world []) eq_refl).
Defined.

Lemma getAction_default_silent io :
  useDefaultPromptResponses io = true -> silent (getAction io).
Proof.
  unfold useDefaultPromptResponses, getAction. intros H w.
  destruct (env_BASIC_WITH_DEFAULTS io); [reflexivity|].
  destruct (env_ADVANCED_WITH_DEFAULTS io); [reflexivity|].
  destruct (env_ADVANCED_TYPESCRIPT_WITH_DEFAULTS io); [reflexivity|].
  discriminate.
Qed.

Lemma installation_default_prompts io action :
  useDefaultPromptResponses io = true ->
  only telemetry_or_no_prompt (createProject_installation io action).
Proof.
  intros H. unfold createProject_installation. rewrite H.
  only_with idtac.
Qed.

(** X2. With one of the three environment variables set, the only question a
    run of [createProject] can ask is the one about the telemetry consent:
    neither the action, nor the project root, nor the installation is asked
    for. *)
Theorem default_responses_ask_only_for_telemetry :
  forall io w,
    useDefaultPromptResponses io = true ->
    exists d,
      trace (fst (createProject io w)) = trace w ++ d
      /\ forallb telemetry_or_no_prompt d = true.
Proof.
  intros io w H. revert w.
  change (only telemetry_or_no_prompt (createProject io)).
  unfold createProject. rewrite H.
  only_with ltac:(first [ apply only_silent, getAction_default_silent, H
                        | apply installation_default_prompts, H ]).
Qed.

Lemma default_responses_ask_only_for_telemetry_witness :
  let io := Sample.inputs None (Some "") None "Linux" (Ok "Quit")
              (Ok (Rel ["proj"], true)) (Close (Some 0%Z)) in
  exists d,
    trace (fst (createProject io (Sample.world []))) = [] ++ d
    /\ forallb telemetry_or_no_prompt d = true.
Proof.
  intros io.
  apply (default_responses_ask_only_for_telemetry io (Sample.world [])
           eq_refl).
Defined.

Lemma sample_with_consent io action projectRoot shouldAddGitIgnore :
  consentedTelemetry io <> None ->
  only (fun e => negb (is_telemetry e))
       (createProject_sample io action projectRoot shouldAddGitIgnore).
Proof.
  intros H. unfold createProject_sample.
  destruct (consentedTelemetry io); [|contradiction].
  only_with idtac.
Qed.

(** X3. When the telemetry consent is already recorded, a run of
    [createProject] neither asks for it nor writes it. *)
Theorem recorded_consent_is_not_asked_again :
  forall io w,
    consentedTelemetry io <> None ->
    exists d,
      trace (fst (createProject io w)) = trace w ++ d
      /\ forallb (fun e => negb (is_telemetry e)) d = true.
Proof.
  intros io w H. revert w.
  change (only (fun e => negb (is_telemetry e)) (createProject io)).
  only_with ltac:(apply sample_with_consent, H).
Qed.

Lemma recorded_consent_is_not_asked_again_witness :
  let io := Sample.inputs None None None "Linux"
              (Ok "Create a basic sample project")
              (Ok (Abs ["home"], false)) (Close (Some 0%Z)) in
  exists d,
    trace (fst (createProject io (Sample.world []))) = [] ++ d
    /\ forallb (fun e => negb (is_telemetry e)) d = true.
Proof.
  intros io.
  apply (recorded_consent_is_not_asked_again io (Sample.world [])).
  discriminate.
Defined.

(** ** More on the reconciliation of the dependencies *)

(** The three lines of the instructions. *)
(** X17. When a required dependency other than hardhat is in the merged manifest
    and another required dependency is not, the gate being open, nothing is
    installed and nothing is asked: the instructions are printed, and they
    list every required dependency, between double quotes, whether it is
    installed or not. *)
Theorem partially_installed_only_prints_instructions :
  forall io action w installed present absent,
    manifest io (fs w) = Some installed ->
    String.eqb (os_type io) "Windows_NT" = false ->
    In present (Obj.keys (required io action)) ->
    present <> HARDHAT_PACKAGE_NAME ->
    Obj.has present installed = true ->
    In absent (Obj.keys (required io action)) ->
    Obj.has absent installed = false ->
    createProject_dependencies io action w
    = (add_trace w
         [ ConsoleLog "";
           ConsoleLog instructions_header;
           ConsoleLog ("  " ++ Js.join " "
                         (install_prefix io (fs w)
                          ++ map (fun e => quoted (token e))
                                 (required io action)))%string ],
       Ok tt).
Proof.
  intros io action w installed present absent Hm Hos Hp Hne Hpi Ha Hai.
  apply dependencies_print_instructions.
  rewrite (installation_classify _ _ _ _ Hm Hos).
  assert (E1 : (length (installed_names io action installed)
                =? length (Obj.keys (required io action)))%nat = false).
  { apply Nat.eqb_neq. unfold installed_names.
    pose proof (filter_shorter (fun n => Obj.has n installed) _ _ Ha Hai).
    lia. }
  assert (E2 : (length (filter (fun name =>
                                  negb (String.eqb name HARDHAT_PACKAGE_NAME))
                               (installed_names io action installed))
                =? 0)%nat = false).
  { apply Nat.eqb_neq.
    assert (Hin : In present
                    (filter (fun name =>
                               negb (String.eqb name HARDHAT_PACKAGE_NAME))
                            (installed_names io action installed))).
    { apply filter_In. split.
      - unfold installed_names. apply filter_In. now split.
      - apply negb_true_iff, String.eqb_neq, Hne. }
    destruct (filter _ (installed_names io action installed));
      [contradiction | discriminate]. }
  now rewrite E1, E2.
Qed.

Lemma partially_installed_only_prints_instructions_witness :
  let io := Sample.inputs (Some "1") None None "Linux" (Ok "Quit")
              (Ok (Rel ["proj"], true)) (Close (Some 0%Z)) in
  let j := {| pkg_name := None;
              pkg_dependencies := Some [("chai", "^4.0.0")]%string;
              pkg_devDependencies := None;
              pkg_optionalDependencies := None |} in
  let w := Sample.world [("package.json", Fs.File (Json j))] in
  spawned (trace (fst (createProject_dependencies io
                         CREATE_BASIC_SAMPLE_PROJECT_ACTION w))) = []
  /\ prints_instructions
       (trace (fst (createProject_dependencies io
                      CREATE_BASIC_SAMPLE_PROJECT_ACTION w))) = true.
Proof.
  intros io j w.
  rewrite (partially_installed_only_prints_instructions io
             CREATE_BASIC_SAMPLE_PROJECT_ACTION w (allDependencies j)
             "chai" "ethers" eq_refl eq_refl
             ltac:(vm_compute; tauto) ltac:(discriminate) eq_refl
             ltac:(vm_compute; tauto) eq_refl).
  split; reflexivity.
Defined.

(** X18. With only hardhat installed and an open gate, an answer of no to the
    confirmation leads to the instructions, without any process; and a value
    thrown by the confirmation, the empty string of a cancellation too, is
    not caught: the dependencies part ends with it. *)
Theorem declined_installation_prints_instructions :
  forall io action w installed,
    manifest io (fs w) = Some installed ->
    String.eqb (os_type io) "Windows_NT" = false ->
    (forall n, In n (Obj.keys (required io action)) ->
               Obj.has n installed = true -> n = HARDHAT_PACKAGE_NAME) ->
    useDefaultPromptResponses io = false ->
    (answer_recommendedDepsInstallation io (missing io action installed)
     = Ok false ->
     createProject_dependencies io action w
     = (add_trace w
          [ PromptRecommendedDepsInstallation (missing io action installed);
            ConsoleLog "";
            ConsoleLog instructions_header;
            ConsoleLog ("  " ++ Js.join " "
                          (install_prefix io (fs w)
                           ++ map (fun e => quoted (token e))
                                  (required io action)))%string ],
        Ok tt))
    /\ (forall e,
           answer_recommendedDepsInstallation io (missing io action installed)
           = Throw e ->
           createProject_dependencies io action w
           = (add_trace w
                [ PromptRecommendedDepsInstallation
                    (missing io action installed) ],
              Throw e)).
Proof.
  intros io action w installed Hm Hos Hfw Hdef.
  assert (E : createProject_installation io action w
              = (shouldInstall <-
                   confirmRecommendedDepsInstallation io
                     (missing io action installed) ;;
                 if shouldInstall then
                   ok <- installRecommendedDependencies io
                           (missing io action installed) ;;
                   when (negb ok)
                     (emit (ConsoleWarn
                      "Failed to install the sample project's dependencies")) ;;
                   ret (negb ok)
                 else ret true) w).
  { rewrite (installation_classify _ _ _ _ Hm Hos).
    destruct (framework_only_classes _ _ _ Hfw) as [-> ->].
    now rewrite Hdef. }
  split.
  - intros Hno. unfold createProject_dependencies. unfold bind at 1.
    rewrite E. unfold bind at 1, confirmRecommendedDepsInstallation.
    unfold bind at 1, settle. rewrite emit_run, Hno.
    cbv beta iota. unfold ret at 1. unfold when.
    rewrite instructions_run, add_trace_app. reflexivity.
  - intros e He. unfold createProject_dependencies. unfold bind at 1.
    rewrite E. unfold bind at 1, confirmRecommendedDepsInstallation.
    unfold bind at 1, settle. now rewrite emit_run, He.
Qed.

Lemma declined_installation_prints_instructions_witness :
  let io := {| env_BASIC_WITH_DEFAULTS := None;
               env_ADVANCED_WITH_DEFAULTS := None;
               env_ADVANCED_TYPESCRIPT_WITH_DEFAULTS := None;
               cwd := ["home"]%string;
               os_type := "Darwin";
               os_EOL := newline;
               packageRoot := ["opt"; "hardhat"]%string;
               hardhat_version := "2.9.0";
               DEFAULT_SOLC_VERSION := "0.7.3";
               recommendedGitIgnore := "node_modules";
               json_text := fun _ => "{}"%string;
               consentedTelemetry := Some false;
               answer_action := Ok "Create a basic sample project"%string;
               answer_projectCreation := Ok (Abs ["home"]%string, true);
               answer_telemetryConsent := Ok None;
               answer_recommendedDepsInstallation := fun _ => Ok false;
               child := fun _ _ => Close (Some 0%Z) |} in
  let w := Sample.world
             [("package.json", Fs.File (Json Sample.default_manifest))] in
  spawned (trace (fst (createProject_dependencies io
                         CREATE_BASIC_SAMPLE_PROJECT_ACTION w))) = []
  /\ prints_instructions
       (trace (fst (createProject_dependencies io
                      CREATE_BASIC_SAMPLE_PROJECT_ACTION w))) = true.
Proof.
  intros io w.
  rewrite (proj1 (declined_installation_prints_instructions io
                    CREATE_BASIC_SAMPLE_PROJECT_ACTION w []
                    eq_refl eq_refl
                    (fun n _ (H : Obj.has n [] = true) =>
                       False_ind _ (Bool.diff_false_true H))
                    eq_refl) eq_refl).
  split; reflexivity.
Defined.

(** X19. With only hardhat installed, an open gate, an affirmative confirmation
    and an installer that closes with status 0, the dependencies part ends
    normally after the spawn, and prints neither a warning nor the
    instructions. *)
Theorem successful_installation_prints_no_instructions :
  forall io action w installed,
    manifest io (fs w) = Some installed ->
    String.eqb (os_type io) "Windows_NT" = false ->
    (forall n, In n (Obj.keys (required io action)) ->
               Obj.has n installed = true -> n = HARDHAT_PACKAGE_NAME) ->
    useDefaultPromptResponses io = true
    \/ answer_recommendedDepsInstallation io (missing io action installed)
       = Ok true ->
    child io (hd ""%string (install_prefix io (fs w)))
      (tl (install_prefix io (fs w))
       ++ map token (missing io action installed))
    = Close (Some 0%Z) ->
    exists d,
      createProject_dependencies io action w = (add_trace w d, Ok tt)
      /\ length (spawned d) = 1%nat
      /\ prints_instructions d = false
      /\ existsb is_warning d = false.
Proof.
  intros io action w installed Hm Hos Hfw Hyes Hexit.
  eexists. split.
  - rewrite (dependencies_framework_only _ _ _ _ Hm Hos Hfw Hyes), Hexit.
    reflexivity.
  - unfold install_prefix.
    destruct (useDefaultPromptResponses io);
      destruct (Fs.exists_ (resolve io (Rel ["yarn.lock"])) (fs w));
      repeat split; reflexivity.
Qed.

Lemma successful_installation_prints_no_instructions_witness :
  let io := Sample.inputs (Some "1") None None "Linux" (Ok "Quit")
              (Ok (Rel ["proj"], true)) (Close (Some 0%Z)) in
  let w := Sample.world
             [ ("package.json", Fs.File (Json Sample.default_manifest));
               ("yarn.lock", Sample.file "lock") ] in
  exists d,
    createProject_dependencies io CREATE_ADVANCED_SAMPLE_PROJECT_ACTION w
    = (add_trace w d, Ok tt)
    /\ length (spawned d) = 1%nat
    /\ prints_instructions d = false
    /\ existsb is_warning d = false.
Proof.
  intros io w.
  apply (successful_installation_prints_no_instructions io
           CREATE_ADVANCED_SAMPLE_PROJECT_ACTION w []
           eq_refl eq_refl
           (fun n _ (H : Obj.has n [] = true) =>
              False_ind _ (Bool.diff_false_true H))
           (or_introl eq_refl) eq_refl).
Defined.

(** X15. The gate being closed (no [package.json] in the working directory, or
    [Windows_NT]), the dependencies part does not read the manifest at all:
    whatever is in the working directory, it ends normally after the three
    lines of the instructions, which the file system is the same after. *)
Theorem closed_gate_only_prints_instructions :
  forall io action w,
    Fs.exists_ (resolve io (Rel ["package.json"])) (fs w) = false
    \/ os_type io = "Windows_NT"%string ->
    createProject_dependencies io action w
    = (add_trace w
         [ ConsoleLog "";
           ConsoleLog instructions_header;
           ConsoleLog ("  " ++ Js.join " "
                         (install_prefix io (fs w)
                          ++ map (fun e => quoted (token e))
                                 (required io action)))%string ],
       Ok tt).
Proof.
  intros io action w H. apply dependencies_print_instructions.
  apply installation_gate_closed. destruct H as [-> | ->]; [reflexivity|].
  apply andb_false_r.
Qed.

Lemma closed_gate_only_prints_instructions_witness :
  let io := Sample.inputs (Some "1") None None "Windows_NT" (Ok "Quit")
              (Ok (Rel ["proj"], true)) (Close (Some 0%Z)) in
  let w := Sample.world [("package.json", Sample.file "not json")] in
  createProject_dependencies io CREATE_BASIC_SAMPLE_PROJECT_ACTION w
  = (add_trace w
       [ ConsoleLog "";
         ConsoleLog instructions_header;
         ConsoleLog ("  " ++ Js.join " "
                       (install_prefix io (fs w)
                        ++ map (fun e => quoted (token e))
                               (required io
                                 CREATE_BASIC_SAMPLE_PROJECT_ACTION)))%string ],
     Ok tt).
Proof.
  intros io w.
  apply (closed_gate_only_prints_instructions io
           CREATE_BASIC_SAMPLE_PROJECT_ACTION w (or_intror eq_refl)).
Defined.

(** X16. The gate being open, a [package.json] that holds no manifest makes
    the dependencies part throw at the first test of installation, before
    anything is shown or started: the syntax error of the parser for a text
    that is not JSON, a type error for the JSON of [null], of which no
    property can be read, and the system error of the reading for a
    directory. *)
Theorem unreadable_manifest_is_an_error :
  forall io action w n,
    String.eqb (os_type io) "Windows_NT" = false ->
    Fs.lookup (resolve io (Rel ["package.json"])) (fs w) = Some n ->
    (forall j, n <> Fs.File (Json j)) ->
    createProject_dependencies io action w
    = (w, Throw (match n with
                 | Fs.Dir _ => SystemError Fs.EISDIR (Rel ["package.json"])
                 | Fs.File JsonNull => TypeError
                 | Fs.File _ => SyntaxError (Rel ["package.json"])
                 end)).
Proof.
  intros io action w n Hos Hl Hn.
  unfold createProject_dependencies, createProject_installation.
  unfold bind at 1. unfold bind at 1.
  rewrite canInstall_run. unfold Fs.exists_. rewrite Hl, Hos.
  cbn [andb negb]. unfold bind at 1. rewrite getDependencies_run.
  unfold bind at 1. unfold required. cbn [Obj.entries filterM].
  unfold bind at 1. unfold bind at 1. unfold isInstalled at 1.
  unfold bind at 1, readJSONSync. rewrite Hl.
  destruct n as [[t|j|]|es]; try reflexivity.
  now contradiction (Hn j).
Qed.

Lemma unreadable_manifest_is_an_error_witness :
  let io := Sample.inputs (Some "1") None None "Linux" (Ok "Quit")
              (Ok (Rel ["proj"], true)) (Close (Some 0%Z)) in
  let text := Sample.world [("package.json", Sample.file "not json")] in
  let null := Sample.world [("package.json", Fs.File JsonNull)] in
  let dir := Sample.world [("package.json", Fs.Dir [])] in
  createProject_dependencies io CREATE_BASIC_SAMPLE_PROJECT_ACTION text
  = (text, Throw (SyntaxError (Rel ["package.json"])))
  /\ createProject_dependencies io CREATE_BASIC_SAMPLE_PROJECT_ACTION null
     = (null, Throw TypeError)
  /\ createProject_dependencies io CREATE_BASIC_SAMPLE_PROJECT_ACTION dir
     = (dir, Throw (SystemError Fs.EISDIR (Rel ["package.json"]))).
Proof.
  intros io text null dir. split; [|split].
  - apply (unreadable_manifest_is_an_error io
             CREATE_BASIC_SAMPLE_PROJECT_ACTION text
             (Sample.file "not json") eq_refl eq_refl).
    discriminate.
  - apply (unreadable_manifest_is_an_error io
             CREATE_BASIC_SAMPLE_PROJECT_ACTION null
             (Fs.File JsonNull) eq_refl eq_refl).
    discriminate.
  - apply (unreadable_manifest_is_an_error io
             CREATE_BASIC_SAMPLE_PROJECT_ACTION dir
             (Fs.Dir []) eq_refl eq_refl).
    discriminate.
Defined.

(** ** The test of installation *)

(** X14. [isInstalled] reads the manifest of the working directory at every call
    and leaves the world as it is. A name is installed exactly when one of
    the three sections of the manifest has it as a key (a section that is
    absent has none), or when it is the name of a property that every
    object inherits, such as [constructor], which is in every manifest. *)
Theorem isInstalled_looks_in_three_sections :
  forall io w j dep,
    Fs.lookup (resolve io (Rel ["package.json"])) (fs w)
    = Some (Fs.File (Json j)) ->
    isInstalled io dep w
    = (w, Ok (Obj.has dep (own_entries (pkg_dependencies j))
              || Obj.has dep (own_entries (pkg_devDependencies j))
              || Obj.has dep (own_entries (pkg_optionalDependencies j))
              || Js.includes dep Obj.prototype_properties)).
Proof.
  intros io w j dep H. unfold isInstalled, bind, readJSONSync. rewrite H.
  unfold ret, Obj.in_op, allDependencies. now rewrite !has_spread.
Qed.

Lemma isInstalled_looks_in_three_sections_witness :
  let io := Sample.inputs None None None "Linux" (Ok "Quit")
              (Ok (Rel ["proj"], true)) (Close (Some 0%Z)) in
  let j := {| pkg_name := None;
              pkg_dependencies := None;
              pkg_devDependencies := None;
              pkg_optionalDependencies := Some [("chai", "*")]%string |} in
  let w := Sample.world [("package.json", Fs.File (Json j))] in
  map (fun dep => snd (isInstalled io dep w))
      ["chai"; "ethers"; "constructor"]%string
  = [Ok true; Ok false; Ok true].
Proof.
  intros io j w. cbn [map].
  rewrite !(isInstalled_looks_in_three_sections io w j) by reflexivity.
  reflexivity.
Defined.

(** ** The interactive choice of the action *)

Lemma action_of_action_value a : action_of_value (action_value a) = Some a.
Proof. destruct a as [[| |]| |]; reflexivity. Qed.

Lemma action_of_value_sound s a :
  action_of_value s = Some a -> action_value a = s.
Proof.
  unfold action_of_value. intros H. apply find_some in H.
  now apply String.eqb_eq.
Qed.

(** X1. Without the environment variables [getAction] shows one prompt, with
    the five actions and the first one highlighted, and then: an answer that
    is the text of an action is that action; any other answer is the
    unsupported operation error, which quotes the answer; a cancelled prompt
    (the empty string thrown) is the Quit action; and any other thrown value
    is thrown again. *)
Theorem getAction_reads_the_answer :
  forall io w,
    useDefaultPromptResponses io = false ->
    fst (getAction io w)
    = add_trace w
        [ PromptAction
            [ "Create a basic sample project";
              "Create an advanced sample project";
              "Create an advanced sample project that uses TypeScript";
              "Create an empty hardhat.config.js"; "Quit" ]%string 0 ]
    /\ (forall a, answer_action io = Ok (action_value a) ->
                  snd (getAction io w) = Ok a)
    /\ (forall s, answer_action io = Ok s ->
                  (forall a, action_value a <> s) ->
                  snd (getAction io w)
                  = Throw (HardhatError
                             (UNSUPPORTED_OPERATION
                                ("Responding with " ++ Js.dquote ++ s
                                 ++ Js.dquote
                                 ++ " to the project initialization wizard")
                                %string)))
    /\ (answer_action io = Throw (ThrownString "") ->
        snd (getAction io w) = Ok QUIT_ACTION)
    /\ (forall e, answer_action io = Throw e -> e <> ThrownString "" ->
                  snd (getAction io w) = Throw e).
Proof.
  intros io w H. rewrite (getAction_prompt _ _ H). cbn [fst snd].
  split; [reflexivity|]. split; [|split; [|split]].
  - intros a ->. now rewrite action_of_action_value.
  - intros s -> Hs. destruct (action_of_value s) as [a|] eqn:E;
      [|reflexivity].
    now apply action_of_value_sound, Hs in E.
  - now intros ->.
  - intros e -> He. destruct e as [| | | |s|]; try reflexivity.
    destruct s; [contradiction | reflexivity].
Qed.

Lemma getAction_reads_the_answer_witness :
  let io := Sample.inputs None None None "Linux"
              (Ok "Create an empty hardhat.config.js")
              (Ok (Rel ["proj"], true)) (Close (Some 0%Z)) in
  snd (getAction io (Sample.world []))
  = Ok CREATE_EMPTY_HARDHAT_CONFIG_ACTION.
Proof.
  intros io.
  apply (proj1 (proj2 (getAction_reads_the_answer io (Sample.world [])
                         eq_refl))
           CREATE_EMPTY_HARDHAT_CONFIG_ACTION eq_refl).
Defined.

(** ** More on the conflict check *)

Lemma readdirSync_world io p w : fst (readdirSync io p w) = w.
Proof.
  unfold readdirSync.
  destruct (Fs.lookup (resolve io p) (fs w)) as [[c|es]|]; reflexivity.
Qed.

Lemma bind_world {A B} (m : M A) (k : A -> M B) w :
  fst (m w) = w -> (forall a, fst (k a w) = w) -> fst (bind m k w) = w.
Proof.
  unfold bind. destruct (m w) as [w1 [a|e]]; simpl; intros ->; auto.
Qed.

Lemma checkForDuplicates_world io projectRoot projectType w :
  fst (checkForDuplicates io projectRoot projectType w) = w.
Proof.
  unfold checkForDuplicates.
  apply bind_world; [apply readdirSync_world|]. intros destFiles.
  apply bind_world; [apply readdirSync_world|]. intros basicFiles.
  apply bind_world.
  - destruct projectType; [reflexivity | |].
    + apply bind_world; [apply readdirSync_world | reflexivity].
    + apply bind_world; [apply readdirSync_world|]. intros advanced.
      apply bind_world; [apply readdirSync_world | reflexivity].
  - intros srcFiles.
    now destruct (0 <? length (Js.intersection srcFiles destFiles))%nat.
Qed.

(** X7. The conflict check changes nothing, whatever it finds; and when it
    throws, for a conflict or because a directory cannot be listed,
    [copySampleProject] throws the same value in the world it started in:
    every failure of the check comes before the first write. *)
Theorem failed_check_leaves_the_world_unchanged :
  forall io projectRoot projectType w,
  exists r,
    checkForDuplicates io projectRoot projectType w = (w, r)
    /\ match r with
       | Ok _ => True
       | Throw e =>
           copySampleProject io projectRoot projectType w = (w, Throw e)
       end.
Proof.
  intros io projectRoot projectType w.
  pose proof (checkForDuplicates_world io projectRoot projectType w) as Hw.
  destruct (checkForDuplicates io projectRoot projectType w) as [w1 r] eqn:E.
  simpl in Hw. subst w1. exists r. split; [reflexivity|].
  destruct r as [[]|e]; [exact Logic.I|].
  unfold copySampleProject. unfold bind at 1. now rewrite E.
Qed.

Lemma intersection_disjoint (a b : list string) :
  (forall x, In x a -> ~ In x b) -> Js.intersection a b = [].
Proof.
  intros H. destruct (Js.intersection a b) as [|x l] eqn:E; [reflexivity|].
  assert (Hx : In x (Js.intersection a b)) by (rewrite E; now left).
  apply intersection_In in Hx. destruct Hx as [Ha Hb].
  now contradiction (H x Ha).
Qed.

(** X8. When the destination and the directories of the requested sample
    projects can be listed and share no name, the conflict check passes.
    Names that two of the requested sample projects share are no conflict. *)
Theorem disjoint_names_pass_the_check :
  forall io w projectRoot projectType destFiles tierFiles,
    readdirSync io projectRoot w = (w, Ok destFiles) ->
    Forall2 (fun tier names =>
               readdirSync io (sample_dir io tier) w = (w, Ok names))
            (requested_tiers projectType) tierFiles ->
    (forall f, In f (concat tierFiles) -> ~ In f destFiles) ->
    checkForDuplicates io projectRoot projectType w = (w, Ok tt).
Proof.
  intros io w projectRoot projectType destFiles tierFiles Hd Ht Hdis.
  unfold checkForDuplicates. unfold bind at 1. rewrite Hd.
  destruct projectType; simpl in Ht; tier_listings Ht.
  - unfold bind at 1. rewrite Hlist. unfold bind at 1, ret at 1.
    rewrite intersection_disjoint; [reflexivity|].
    intros x Hx. apply Hdis. simpl. now rewrite app_nil_r.
  - unfold bind at 1. rewrite Hlist. unfold bind at 1. unfold bind at 1.
    rewrite Hlist0. unfold ret at 1.
    rewrite intersection_disjoint; [reflexivity|].
    intros x Hx. apply Hdis. now apply union_In in Hx.
  - unfold bind at 1. rewrite Hlist. unfold bind at 1. unfold bind at 1.
    rewrite Hlist0. unfold bind at 1. rewrite Hlist1. unfold ret at 1.
    rewrite intersection_disjoint; [reflexivity|].
    intros x Hx. apply Hdis. now apply union_In in Hx.
Qed.

Lemma disjoint_names_pass_the_check_witness :
  let io := Sample.inputs None None None "Linux" (Ok "Quit")
              (Ok (Rel ["proj"], true)) (Close (Some 0%Z)) in
  let w := Sample.world
             [("proj", Fs.Dir [ ("notes.txt", Sample.file "notes");
                                ("src", Fs.Dir []) ])] in
  checkForDuplicates io (Rel ["proj"])
    CREATE_ADVANCED_TYPESCRIPT_SAMPLE_PROJECT_ACTION w
  = (w, Ok tt).
Proof.
  intros io w.
  apply (disjoint_names_pass_the_check io w (Rel ["proj"])
           CREATE_ADVANCED_TYPESCRIPT_SAMPLE_PROJECT_ACTION
           ["notes.txt"; "src"]%string
           [ ["contracts"; "scripts"; "test"; "hardhat.config.js";
              "README.md"; "LICENSE.md"];
             [".eslintrc.js"; "hardhat.config.js"; "npmignore"; "scripts";
              "README.md"];
             [".eslintrc.js"; "hardhat.config.ts"; "npmignore"; "scripts";
              "test"; "tsconfig.json"; "README.md"] ]%string).
  - reflexivity.
  - repeat constructor.
  - intros f Hf [<-|[<-|[]]]; vm_compute in Hf;
      repeat (destruct Hf as [Hf|Hf]; [discriminate Hf|]); exact Hf.
Defined.

(** ** More on paths *)

Lemma lookup_snoc (p : Fs.path) (a : string) (n c : Fs.node) :
  Fs.lookup (p ++ [a]) n = Some c ->
  exists es, Fs.lookup p n = Some (Fs.Dir es) /\ Fs.assoc a es = Some c.
Proof.
  rewrite lookup_app. destruct (Fs.lookup p n) as [[x|es]|]; simpl;
    try discriminate.
  intros H. exists es. split; [reflexivity|].
  now destruct (Fs.assoc a es).
Qed.

Lemma lookup_child (p : Fs.path) (a : string) (n : Fs.node) es :
  Fs.lookup p n = Some (Fs.Dir es) ->
  Fs.lookup (p ++ [a]) n = Fs.assoc a es.
Proof.
  intros H. rewrite lookup_app, H. simpl. now destruct (Fs.assoc a es).
Qed.

Lemma set_entry_same (s : string) (c : Fs.node) es :
  Fs.assoc s es = Some c -> Fs.set_entry s c es = es.
Proof.
  induction es as [|[k v] es IH]; simpl; [discriminate|].
  destruct (String.eqb k s); [now intros [= ->] | intros H; now rewrite IH].
Qed.

Lemma mkdirs_existing (p : Fs.path) (n : Fs.node) es :
  Fs.lookup p n = Some (Fs.Dir es) -> Fs.mkdirs p n = Some n.
Proof.
  revert n. induction p as [|s p IH]; intros n H; simpl in H.
  - injection H as ->. reflexivity.
  - destruct n as [c|ds]; [discriminate|]. simpl.
    destruct (Fs.assoc s ds) as [c|] eqn:E; [|discriminate].
    rewrite (IH c H). now rewrite set_entry_same.
Qed.

Lemma parent_snoc (p : Fs.path) (a : string) : Fs.parent (p ++ [a]) = p.
Proof. apply removelast_last. Qed.

(** ** The ignore file *)

(** X13. In a project root that is a directory, where [.gitignore] is not a
    directory, [addGitIgnore] ends normally: afterwards [.gitignore] is a
    text file that holds the recommended content, after the content it had
    and a line break when it existed; the other entries of the project root
    and the trace are as before. *)
Theorem addGitIgnore_appends_to_the_existing_file :
  forall io projectRoot w es,
    Fs.lookup (resolve io projectRoot) (fs w) = Some (Fs.Dir es) ->
    (forall ds, Fs.assoc ".gitignore" es <> Some (Fs.Dir ds)) ->
    exists w',
      addGitIgnore io projectRoot w = (w', Ok tt)
      /\ trace w' = trace w
      /\ Fs.lookup (resolve io (path_join projectRoot [".gitignore"])) (fs w')
         = Some (Fs.File
                   (Text (match Fs.assoc ".gitignore" es with
                          | Some (Fs.File (Text existing)) =>
                              existing ++ newline ++ recommendedGitIgnore io
                          | Some (Fs.File (Json j)) =>
                              json_text io j ++ newline
                              ++ recommendedGitIgnore io
                          | Some (Fs.File JsonNull) =>
                              "null" ++ newline ++ recommendedGitIgnore io
                          | _ => recommendedGitIgnore io
                          end)%string))
      /\ (forall other rest,
             other <> ".gitignore"%string ->
             Fs.lookup (resolve io projectRoot ++ other :: rest) (fs w')
             = Fs.lookup (resolve io projectRoot ++ other :: rest) (fs w)).
Proof.
  intros io projectRoot w es Hroot Hnd.
  pose proof (lookup_child _ ".gitignore" _ _ Hroot) as Hgi.
  set (text := (match Fs.assoc ".gitignore" es with
                | Some (Fs.File (Text existing)) =>
                    existing ++ newline ++ recommendedGitIgnore io
                | Some (Fs.File (Json j)) =>
                    json_text io j ++ newline ++ recommendedGitIgnore io
                | Some (Fs.File JsonNull) =>
                    "null" ++ newline ++ recommendedGitIgnore io
                | _ => recommendedGitIgnore io
                end)%string).
  destruct (write_at_child _ ".gitignore" (Fs.File (Text text)) _ _ Hroot)
    as [n' [Hw Hl]].
  exists (put_fs n' w).
  assert (Hrun : addGitIgnore io projectRoot w = (put_fs n' w, Ok tt)).
  { unfold addGitIgnore, bind, pathExists, Fs.exists_, readFile, writeFile,
      ret.
    rewrite resolve_join, Hgi. subst text.
    destruct (Fs.assoc ".gitignore" es) as [[[s|j|]|ds]|] eqn:E;
      try (now contradiction (Hnd ds)); rewrite ?Hgi, Hw; reflexivity. }
  split; [exact Hrun|]. split; [reflexivity|].
  split; [rewrite resolve_join; exact Hl|].
  intros other rest Ho. cbn [fs put_fs].
  apply (write_at_sibling _ _ ".gitignore" other (Fs.File (Text text)));
    [congruence | exact Hw].
Qed.

Lemma addGitIgnore_appends_to_the_existing_file_witness :
  let io := Sample.inputs None None None "Linux" (Ok "Quit")
              (Ok (Rel ["proj"], true)) (Close (Some 0%Z)) in
  let w := Sample.world [(".gitignore", Sample.file "dist")] in
  exists w',
    addGitIgnore io (Abs ["home"]%string) w = (w', Ok tt)
    /\ trace w' = trace w
    /\ Fs.lookup (resolve io (path_join (Abs ["home"]%string)
                                [".gitignore"])) (fs w')
       = Some (Fs.File (Text ("dist" ++ newline ++ "node_modules")%string))
    /\ (forall other rest,
           other <> ".gitignore"%string ->
           Fs.lookup (["home"]%string ++ other :: rest) (fs w')
           = Fs.lookup (["home"]%string ++ other :: rest) (fs w)).
Proof.
  intros io w.
  apply (addGitIgnore_appends_to_the_existing_file io (Abs ["home"]%string) w
           [(".gitignore", Sample.file "dist")] eq_refl).
  discriminate.
Defined.

Lemma ret_bind {A B} (a : A) (k : A -> M B) w : bind (ret a) k w = k a w.
Proof. reflexivity. Qed.

(** Writing a file in an existing directory, not over a directory. *)
Lemma writeFile_run io (q : fpath) (dir : Fs.path) (name : string)
  (c : content) w es :
  resolve io q = dir ++ [name] ->
  Fs.lookup dir (fs w) = Some (Fs.Dir es) ->
  (forall ds, Fs.assoc name es <> Some (Fs.Dir ds)) ->
  exists n',
    writeFile io q c w = (put_fs n' w, Ok tt)
    /\ Fs.lookup (dir ++ [name]) n' = Some (Fs.File c)
    /\ (forall other rest,
           other <> name ->
           Fs.lookup (dir ++ other :: rest) n'
           = Fs.lookup (dir ++ other :: rest) (fs w)).
Proof.
  intros Hq Hdir Hnd.
  destruct (write_at_child _ name (Fs.File c) _ _ Hdir) as [n' [Hw Hl]].
  exists n'. split; [|split; [exact Hl|]].
  - unfold writeFile. rewrite Hq, (lookup_child _ name _ _ Hdir), Hw.
    destruct (Fs.assoc name es) as [[x|ds]|]; try reflexivity.
    now contradiction (Hnd ds).
  - intros other rest Ho.
    apply (write_at_sibling _ _ name other (Fs.File c));
      [congruence | exact Hw].
Qed.

(** ** The empty configuration *)

(** X6. Without the environment variables, when the empty configuration is
    chosen in a working directory that has a manifest, [createProject] ends
    normally: [hardhat.config.js] of the working directory holds the empty
    configuration with the default compiler version, over whatever file was
    there (no conflict is looked for); every other entry of the working
    directory is as before; nothing is copied, asked after the first prompt
    or started; and the command that installs hardhat alone is printed
    exactly when the manifest does not name hardhat. *)
Theorem empty_config_overwrites_and_advises :
  forall io w entries j,
    useDefaultPromptResponses io = false ->
    answer_action io = Ok "Create an empty hardhat.config.js"%string ->
    Fs.lookup (cwd io) (fs w) = Some (Fs.Dir entries) ->
    Fs.assoc "package.json" entries = Some (Fs.File (Json j)) ->
    (forall ds, Fs.assoc "hardhat.config.js" entries <> Some (Fs.Dir ds)) ->
    exists n',
      createProject io w
      = ({| fs := n';
            trace :=
              trace w
              ++ [ AsciiLogo; Welcome (hardhat_version io);
                   PromptAction (map action_value Action_values) 0;
                   ConsoleLog "Config file created" ]
              ++ (if Obj.has "hardhat" (allDependencies j) then []
                  else
                    [ ConsoleLog "";
                      ConsoleLog
                  "You need to install hardhat locally to use it. Please run:";
                      ConsoleLog "";
                      ConsoleLog
                        (Js.join " "
                           (install_prefix io (fs w)
                            ++ [quoted ("hardhat@^" ++ hardhat_version io)
                                  %string]));
                      ConsoleLog "" ]) |},
         Ok tt)
      /\ Fs.lookup (resolve io (Rel ["hardhat.config.js"])) n'
         = Some (Fs.File
                   (Text ("/**" ++ newline
                        ++ " * @type import('hardhat/config').HardhatUserConfig"
                        ++ newline
                        ++ " */" ++ newline
                        ++ "module.exports = {" ++ newline
                        ++ "  solidity: " ++ Js.dquote
                        ++ DEFAULT_SOLC_VERSION io
                        ++ Js.dquote ++ "," ++ newline
                        ++ "};" ++ newline)%string))
      /\ (forall other rest,
             other <> "hardhat.config.js"%string ->
             Fs.lookup (cwd io ++ other :: rest) n'
             = Fs.lookup (cwd io ++ other :: rest) (fs w)).
Proof.
  intros io w entries j Hdef Hact Hcwd Hpj Hcfg.
  pose proof (lookup_child _ "package.json" _ _ Hcwd) as Lpj.
  rewrite Hpj in Lpj.
  set (w3 := add_trace w
               [ AsciiLogo; Welcome (hardhat_version io);
                 PromptAction (map action_value Action_values) 0 ]).
  destruct (writeFile_run io (Rel ["hardhat.config.js"]) (cwd io)
              "hardhat.config.js"
              (Text ("/**" ++ newline
                     ++ " * @type import('hardhat/config').HardhatUserConfig"
                     ++ newline
                     ++ " */" ++ newline
                     ++ "module.exports = {" ++ newline
                     ++ "  solidity: " ++ Js.dquote
                     ++ DEFAULT_SOLC_VERSION io
                     ++ Js.dquote ++ "," ++ newline
                     ++ "};" ++ newline)%string)
              w3 entries eq_refl Hcwd Hcfg) as [n' [Hw [Hl Frame]]].
  exists n'. split; [|split; [exact Hl | exact Frame]].
  unfold createProject, printAsciiLogo, printWelcomeMessage,
    getPackageJson_version.
  unfold bind at 1. rewrite emit_run.
  unfold bind at 1. rewrite ret_bind, emit_run.
  unfold bind at 1. rewrite (getAction_prompt _ _ Hdef), Hact.
  rewrite !add_trace_app.
  change (action_of_value "Create an empty hardhat.config.js")
    with (Some CREATE_EMPTY_HARDHAT_CONFIG_ACTION).
  cbv beta iota. cbn [app]. fold w3.
  unfold bind at 1, pathExists, Fs.exists_.
  replace (fs w3) with (fs w) by reflexivity.
  rewrite resolve_cwd, Lpj. cbn [negb when]. rewrite ret_bind.
  unfold bind at 1, writeEmptyHardhatConfig. rewrite Hw.
  unfold bind at 1. rewrite emit_run.
  unfold bind at 1, isInstalled, bind at 1, readJSONSync.
  cbn [fs put_fs add_trace].
  rewrite resolve_cwd, (Frame "package.json"%string []) by discriminate.
  replace (fs w3) with (fs w) by reflexivity.
  rewrite Lpj. unfold ret at 1.
  assert (Ein : Obj.in_op HARDHAT_PACKAGE_NAME (allDependencies j)
                = Obj.has "hardhat" (allDependencies j)).
  { unfold Obj.in_op. apply orb_false_r. }
  rewrite Ein.
  destruct (Obj.has "hardhat" (allDependencies j)).
  - cbn [negb when]. unfold ret, put_fs, w3, add_trace. cbn [fs trace].
    now rewrite <- !app_assoc.
  - cbn [negb when].
    unfold bind at 1. rewrite emit_run. cbv beta iota.
    unfold bind at 1. rewrite emit_run. cbv beta iota.
    rewrite ret_bind. unfold bind at 1. rewrite command_run. cbv beta iota.
    unfold bind at 1. rewrite emit_run. cbv beta iota.
    unfold bind at 1. rewrite emit_run. cbv beta iota.
    rewrite emit_run, !add_trace_app.
    unfold install_prefix, Fs.exists_. cbn [fs put_fs add_trace trace].
    rewrite resolve_cwd, (Frame "yarn.lock"%string []) by discriminate.
    unfold ret, put_fs, w3, add_trace. cbn [fs trace].
    rewrite <- !app_assoc. reflexivity.
Qed.

Lemma empty_config_overwrites_and_advises_witness :
  let io := Sample.inputs None None None "Linux"
              (Ok "Create an empty hardhat.config.js")
              (Ok (Rel ["proj"], true)) (Close (Some 0%Z)) in
  let w := Sample.world
             [ ("package.json", Fs.File (Json Sample.full_basic_manifest));
               ("hardhat.config.js", Sample.file "my own configuration") ] in
  snd (createProject io w) = Ok tt
  /\ trace (fst (createProject io w))
     = [ AsciiLogo; Welcome "2.9.0";
         PromptAction (map action_value Action_values) 0;
         ConsoleLog "Config file created" ].
Proof.
  intros io w.
  destruct (empty_config_overwrites_and_advises io w
              [ ("package.json", Fs.File (Json Sample.full_basic_manifest));
                ("hardhat.config.js", Sample.file "my own configuration") ]
              Sample.full_basic_manifest eq_refl eq_refl eq_refl eq_refl
              ltac:(discriminate)) as [n' [E _]].
  rewrite E. split; reflexivity.
Defined.

(** ** The staged ignore file *)

(** A move over a sibling, when it ends normally, is a renaming: the source
    is gone, the destination is what the source was, and the other entries
    of the directory are as before. *)
Lemma move_run io (root : fpath) (a b : string) w w' :
  a <> b ->
  move_overwrite io (path_join root [a]) (path_join root [b]) w
  = (w', Ok tt) ->
  trace w' = trace w
  /\ Fs.lookup (resolve io root ++ [a]) (fs w') = None
  /\ Fs.lookup (resolve io root ++ [a]) (fs w) <> None
  /\ Fs.lookup (resolve io root ++ [b]) (fs w')
     = Fs.lookup (resolve io root ++ [a]) (fs w)
  /\ (forall other rest,
         other <> a -> other <> b ->
         Fs.lookup (resolve io root ++ other :: rest) (fs w')
         = Fs.lookup (resolve io root ++ other :: rest) (fs w)).
Proof.
  intros Hab. unfold move_overwrite. rewrite !resolve_join.
  destruct (Fs.lookup (resolve io root ++ [a]) (fs w)) as [s|] eqn:Es;
    [|discriminate].
  rewrite is_prefix_sibling by exact Hab. cbn [andb].
  rewrite parent_snoc.
  destruct (lookup_snoc _ _ _ _ Es) as [es [Hroot Ha]].
  rewrite (mkdirs_existing _ _ _ Hroot). cbv zeta.
  rewrite (remove_sibling _ [] b a) by congruence. rewrite Es.
  destruct (Fs.write_at (resolve io root ++ [b]) s
              (Fs.remove (resolve io root ++ [b]) (fs w))) as [n3|] eqn:Ew;
    [|discriminate].
  intros [= <-]. cbn [fs trace put_fs].
  split; [reflexivity|]. split; [apply remove_lookup_same|].
  split; [discriminate|]. split.
  - rewrite (remove_sibling _ [] a b) by exact Hab.
    apply (write_at_lookup _ _ _ _ Ew).
  - intros other rest Hoa Hob.
    rewrite remove_sibling by congruence.
    rewrite (write_at_sibling _ rest b other s _ _) by (congruence || exact Ew).
    apply remove_sibling. congruence.
Qed.

(** X11. Whenever [copySampleProject] ends normally for the advanced or the
    advanced TypeScript project, the project root has a [.npmignore] and no
    [npmignore]: the staged file was there to be renamed. *)
Theorem staged_ignore_file_is_renamed :
  forall io projectRoot projectType w w',
    projectType <> CREATE_BASIC_SAMPLE_PROJECT_ACTION ->
    copySampleProject io projectRoot projectType w = (w', Ok tt) ->
    Fs.exists_ (resolve io (path_join projectRoot [".npmignore"])) (fs w')
    = true
    /\ Fs.exists_ (resolve io (path_join projectRoot ["npmignore"])) (fs w')
       = false.
Proof.
  intros io projectRoot projectType w w' Hpt H.
  unfold copySampleProject in H.
  apply bind_Ok in H. destruct H as [[] [w1 [H1 H]]].
  apply bind_Ok in H. destruct H as [[] [w2 [H2 H]]].
  apply bind_Ok in H. destruct H as [[] [w3 [H3 H]]].
  apply bind_Ok in H. destruct H as [[] [w4 [H4 H]]].
  apply bind_Ok in H. destruct H as [[] [w5 [H5 H]]].
  rename w' into w6.
  destruct (cleanup_run io projectRoot w5 w6 H) as [_ [_ [_ [_ F]]]].
  assert (Hmoved :
            Fs.lookup (resolve io projectRoot ++ ["npmignore"]) (fs w5) = None
            /\ Fs.lookup (resolve io projectRoot ++ [".npmignore"]) (fs w5)
               <> None).
  { destruct projectType; [contradiction| |].
    - injection H5 as <-.
      apply bind_Ok in H4. destruct H4 as [[] [wa [_ H4]]].
      apply bind_Ok in H4. destruct H4 as [[] [wb [_ H4]]].
      apply move_run in H4; [|discriminate].
      destruct H4 as [_ [Hn [Hs [Hd _]]]]. split; [exact Hn|].
      now rewrite Hd.
    - apply bind_Ok in H5. destruct H5 as [[] [wa [_ H5]]].
      apply bind_Ok in H5. destruct H5 as [[] [wb [_ H5]]].
      apply move_run in H5; [|discriminate].
      destruct H5 as [_ [Hn [Hs [Hd _]]]]. split; [exact Hn|].
      now rewrite Hd. }
  destruct Hmoved as [Hn Hd].
  unfold Fs.exists_. rewrite !resolve_join.
  rewrite (F ".npmignore"%string []), (F "npmignore"%string [])
    by discriminate.
  rewrite Hn.
  destruct (Fs.lookup (resolve io projectRoot ++ [".npmignore"]) (fs w5));
    [split; reflexivity | contradiction].
Qed.

Lemma staged_ignore_file_is_renamed_witness :
  let io := Sample.inputs None None None "Linux" (Ok "Quit")
              (Ok (Rel ["proj"], true)) (Close (Some 0%Z)) in
  let w := Sample.world [("proj", Fs.Dir [(".npmignore", Fs.Dir [])])] in
  let w' := fst (copySampleProject io (Rel ["proj"])
                   CREATE_ADVANCED_SAMPLE_PROJECT_ACTION w) in
  Fs.exists_ (resolve io (path_join (Rel ["proj"]) [".npmignore"])) (fs w')
  = true
  /\ Fs.exists_ (resolve io (path_join (Rel ["proj"]) ["npmignore"])) (fs w')
     = false.
Proof.
  intros io w w'.
  apply (staged_ignore_file_is_renamed io (Rel ["proj"])
           CREATE_ADVANCED_SAMPLE_PROJECT_ACTION w w');
    [discriminate | reflexivity].
Defined.

Lemma copy_leaves_no_license_or_temporary_files_witness :
  let io := Sample.inputs None None None "Linux" (Ok "Quit")
              (Ok (Rel ["proj"], true)) (Close (Some 0%Z)) in
  let w := Sample.world
             [("proj", Fs.Dir [ ("cache", Fs.Dir [("old", Sample.file "x")]);
                                ("artifacts", Sample.file "y") ])] in
  let w' := fst (copySampleProject io (Rel ["proj"])
                   CREATE_BASIC_SAMPLE_PROJECT_ACTION w) in
  map (fun name => Fs.exists_ (resolve io (path_join (Rel ["proj"]) [name]))
                     (fs w'))
      ["LICENSE.md"; "cache"; "artifacts"]%string
  = [false; false; false].
Proof.
  intros io w w'.
  apply (copy_leaves_no_license_or_temporary_files io (Rel ["proj"])
           CREATE_BASIC_SAMPLE_PROJECT_ACTION w w').
  reflexivity.
Defined.

(** ** The overlay of a copy *)

Lemma merge_dir es dst :
  Fs.merge (Fs.Dir es) dst
  = match dst with
    | Some (Fs.File _) => (dst, false)
    | _ =>
        let '(ds', ok) :=
          merge_entries es (match dst with
                            | Some (Fs.Dir ds) => ds
                            | _ => []
                            end) in
        (Some (Fs.Dir ds'), ok)
    end.
Proof. destruct dst as [[c|ds]|]; reflexivity. Qed.

Lemma merge_entries_cons k c es ds :
  merge_entries ((k, c) :: es) ds
  = let '(c', ok) := Fs.merge c (Fs.assoc k ds) in
    let ds' := match c' with
               | Some x => Fs.set_entry k x ds
               | None => ds
               end in
    if ok then merge_entries es ds' else (ds', false).
Proof. reflexivity. Qed.

Lemma merge_ok_some src dst r :
  Fs.merge src dst = (r, true) -> exists n, r = Some n.
Proof.
  destruct src as [c|es].
  - simpl. destruct dst as [[x|ds]|]; intros [= <-]; eauto.
  - rewrite merge_dir. destruct dst as [[x|ds]|]; try discriminate;
      destruct (merge_entries es _) as [ds' ok]; intros [= <- ->]; eauto.
Qed.

Lemma merge_entries_frame k es :
  forall ds ds' ok,
    merge_entries es ds = (ds', ok) ->
    ~ In k (map fst es) ->
    Fs.assoc k ds' = Fs.assoc k ds.
Proof.
  induction es as [|[k0 c] es IH]; intros ds ds' ok H Hk.
  - now injection H as <-.
  - rewrite merge_entries_cons in H. simpl in Hk.
    destruct (Fs.merge c (Fs.assoc k0 ds)) as [c' ok0].
    assert (Hstep : Fs.assoc k (match c' with
                                | Some x => Fs.set_entry k0 x ds
                                | None => ds
                                end) = Fs.assoc k ds).
    { destruct c'; [|reflexivity].
      apply assoc_set_entry_other. intros ->. tauto. }
    cbv zeta in H. destruct ok0.
    + rewrite (IH _ _ _ H) by tauto. exact Hstep.
    + injection H as <-. exact Hstep.
Qed.

Lemma nodupb_cons x xs :
  nodupb (x :: xs) = true -> ~ In x xs /\ nodupb xs = true.
Proof.
  simpl. intros H. apply andb_true_iff in H. destruct H as [H1 H2].
  split; [|exact H2]. apply includes_false. now apply negb_true_iff.
Qed.

Lemma merge_entries_member k c es :
  forall ds ds',
    merge_entries es ds = (ds', true) ->
    nodupb (map fst es) = true ->
    Fs.assoc k es = Some c ->
    exists d x, Fs.merge c d = (Some x, true) /\ Fs.assoc k ds' = Some x.
Proof.
  induction es as [|[k0 c0] es IH]; intros ds ds' H Hn Hk; [discriminate|].
  rewrite merge_entries_cons in H. simpl in Hn, Hk.
  apply nodupb_cons in Hn. destruct Hn as [Hfresh Hn].
  destruct (Fs.merge c0 (Fs.assoc k0 ds)) as [c' ok0] eqn:Em.
  cbv zeta in H. destruct ok0; [|discriminate].
  destruct (merge_ok_some _ _ _ Em) as [x ->].
  destruct (String.eqb k0 k) eqn:E.
  - apply String.eqb_eq in E. subst k0. injection Hk as ->.
    exists (Fs.assoc k ds), x. split; [exact Em|].
    rewrite (merge_entries_frame k _ _ _ _ H Hfresh).
    apply assoc_set_entry.
  - now apply (IH _ _ H).
Qed.

Lemma unique_names_dir es :
  unique_names (Fs.Dir es) = true ->
  nodupb (map fst es) = true
  /\ (forall k c, Fs.assoc k es = Some c -> unique_names c = true).
Proof.
  simpl. intros H. apply andb_true_iff in H. destruct H as [Hn Ha].
  split; [exact Hn|]. clear Hn.
  induction es as [|[k0 c0] es IH]; intros k c Hk; [discriminate|].
  apply andb_true_iff in Ha. destruct Ha as [H0 Ha]. simpl in Hk.
  destruct (String.eqb k0 k); [now injection Hk as <- | now apply (IH Ha k)].
Qed.

(** After a merge that went through, every file of the source is in the
    result, at the same path and with the same content. *)
Lemma merge_file_wins (q : Fs.path) (c : content) :
  forall src dst n,
    unique_names src = true ->
    Fs.merge src dst = (Some n, true) ->
    Fs.lookup q src = Some (Fs.File c) ->
    Fs.lookup q n = Some (Fs.File c).
Proof.
  induction q as [|k q IH]; intros src dst n Hu Hm Hl.
  - simpl in Hl. injection Hl as ->. simpl in Hm.
    destruct dst as [[x|ds]|]; now injection Hm as <-.
  - destruct src as [x|es]; [discriminate|]. simpl in Hl.
    destruct (Fs.assoc k es) as [child|] eqn:Ek; [|discriminate].
    destruct (unique_names_dir _ Hu) as [Hn Hc].
    rewrite merge_dir in Hm.
    assert (Hd : exists ds ds',
               merge_entries es ds = (ds', true) /\ n = Fs.Dir ds').
    { destruct dst as [[y|ds]|]; try discriminate;
        destruct (merge_entries es _) as [ds' ok] eqn:E;
        injection Hm as <- ->; eauto. }
    destruct Hd as [ds [ds' [He ->]]].
    destruct (merge_entries_member _ _ _ _ _ He Hn Ek) as [d [x [Hx Ha]]].
    simpl. rewrite Ha. apply (IH child d x); [now apply (Hc k) | exact Hx|].
    exact Hl.
Qed.

(** ** Paths that are apart *)

Lemma is_prefix_app (r p q : Fs.path) :
  Fs.is_prefix (r ++ p) (r ++ q) = Fs.is_prefix p q.
Proof.
  induction r as [|s r IH]; simpl; [reflexivity|].
  now rewrite String.eqb_refl.
Qed.

Lemma prefix_app_left (p z q : Fs.path) :
  Fs.is_prefix (p ++ z) q = true -> Fs.is_prefix p q = true.
Proof.
  revert q. induction p as [|s p IH]; intros q; simpl; [reflexivity|].
  destruct q as [|b q]; [discriminate|].
  intros H. apply andb_true_iff in H. destruct H as [-> H].
  now apply IH.
Qed.

Lemma prefix_app_right (q p z : Fs.path) :
  Fs.is_prefix q p = true -> Fs.is_prefix q (p ++ z) = true.
Proof.
  revert p. induction q as [|s q IH]; intros p; simpl; [reflexivity|].
  destruct p as [|b p]; [discriminate|]. simpl.
  intros H. apply andb_true_iff in H. destruct H as [-> H].
  now apply IH.
Qed.

Lemma prefix_of_app (q p z : Fs.path) :
  Fs.is_prefix q (p ++ z) = true ->
  Fs.is_prefix q p = true \/ Fs.is_prefix p q = true.
Proof.
  revert p. induction q as [|s q IH]; intros p; simpl; [now left|].
  destruct p as [|b p]; [now right|]. simpl.
  intros H. apply andb_true_iff in H. destruct H as [E H].
  apply String.eqb_eq in E. subst b. rewrite String.eqb_refl.
  destruct (IH p H) as [-> | ->]; [now left | now right].
Qed.

Lemma apart_app (p z q : Fs.path) :
  apart p q = true -> apart (p ++ z) q = true.
Proof.
  unfold apart. intros H. apply andb_true_iff in H. destruct H as [H1 H2].
  apply negb_true_iff in H1, H2. apply andb_true_iff. split.
  - apply negb_true_iff. destruct (Fs.is_prefix (p ++ z) q) eqn:E;
      [|reflexivity].
    apply prefix_app_left in E. congruence.
  - apply negb_true_iff. destruct (Fs.is_prefix q (p ++ z)) eqn:E;
      [|reflexivity].
    apply prefix_of_app in E. destruct E; congruence.
Qed.

Lemma apart_split (p q : Fs.path) :
  apart p q = true ->
  Fs.is_prefix p q = false /\ Fs.is_prefix q p = false.
Proof.
  unfold apart. intros H. apply andb_true_iff in H. destruct H as [H1 H2].
  now apply negb_true_iff in H1, H2.
Qed.

Lemma is_prefix_parent (q p : Fs.path) :
  Fs.is_prefix q (Fs.parent p) = true -> Fs.is_prefix q p = true.
Proof.
  destruct p as [|a p] using rev_ind; [auto|].
  rewrite parent_snoc. apply prefix_app_right.
Qed.

Lemma lookup_in_empty (q : Fs.path) :
  q <> [] -> Fs.lookup q (Fs.Dir []) = None.
Proof. destruct q; [congruence | reflexivity]. Qed.

(** Making directories leaves what is not on the way as it was. *)
Lemma mkdirs_frame (p : Fs.path) :
  forall q n n',
    Fs.is_prefix q p = false ->
    Fs.mkdirs p n = Some n' ->
    Fs.lookup q n' = Fs.lookup q n.
Proof.
  induction p as [|s p IH]; intros q n n' Hq H.
  - destruct n; [discriminate | now injection H as <-].
  - destruct n as [c|ds]; [discriminate|]. simpl in H.
    destruct q as [|b q]; [discriminate|]. simpl in Hq.
    destruct (Fs.mkdirs p _) as [c'|] eqn:Em; [|discriminate].
    injection H as <-. simpl.
    destruct (String.eqb b s) eqn:E.
    + apply String.eqb_eq in E. subst b. rewrite assoc_set_entry.
      rewrite (IH q _ _ Hq Em).
      destruct (Fs.assoc s ds); [reflexivity|].
      apply lookup_in_empty. intros ->. discriminate.
    + rewrite assoc_set_entry_other; [reflexivity|].
      intros ->. now rewrite String.eqb_refl in E.
Qed.

Lemma mkdirs_lookup (p : Fs.path) :
  forall n n',
    Fs.mkdirs p n = Some n' -> exists es, Fs.lookup p n' = Some (Fs.Dir es).
Proof.
  induction p as [|s p IH]; intros n n' H.
  - destruct n as [c|ds]; [discriminate|]. injection H as <-. now exists ds.
  - destruct n as [c|ds]; [discriminate|]. simpl in H.
    destruct (Fs.mkdirs p _) as [c'|] eqn:Em; [|discriminate].
    injection H as <-. simpl. rewrite assoc_set_entry. now apply (IH _ _ Em).
Qed.

(** Writing at a path leaves what is apart from it as it was. *)
Lemma write_at_frame (p : Fs.path) :
  forall q new n n',
    apart p q = true ->
    Fs.write_at p new n = Some n' ->
    Fs.lookup q n' = Fs.lookup q n.
Proof.
  induction p as [|s p IH]; intros q new n n' Ha H;
    destruct (apart_split _ _ Ha) as [H1 H2]; [discriminate|].
  destruct q as [|b q]; [discriminate|].
  simpl in H. destruct n as [c|es]; [discriminate|].
  simpl in H1, H2.
  destruct (String.eqb s b) eqn:E.
  - apply String.eqb_eq in E. subst b. rewrite String.eqb_refl in H2.
    simpl in H1, H2.
    destruct p as [|x r]; [discriminate|].
    destruct (Fs.assoc s es) as [c|] eqn:Es; [|discriminate].
    destruct (Fs.write_at (x :: r) new c) as [c'|] eqn:Ew; [|discriminate].
    injection H as <-. simpl. rewrite assoc_set_entry, Es.
    apply (IH q new c c'); [|exact Ew].
    unfold apart. now rewrite H1, H2.
  - assert (Hb : b <> s) by (intros ->; now rewrite String.eqb_refl in E).
    destruct p as [|x r].
    + injection H as <-. simpl. now rewrite assoc_set_entry_other.
    + destruct (Fs.assoc s es) as [c|]; [|discriminate].
      destruct (Fs.write_at (x :: r) new c) as [c'|]; [|discriminate].
      injection H as <-. simpl. now rewrite assoc_set_entry_other.
Qed.

(** Removing at a path leaves the files that are not under it. *)
Lemma remove_keeps_file (p : Fs.path) :
  forall q n c,
    Fs.is_prefix p q = false ->
    Fs.lookup q n = Some (Fs.File c) ->
    Fs.lookup q (Fs.remove p n) = Some (Fs.File c).
Proof.
  induction p as [|s p IH]; intros q n c Hp Hl; [discriminate|].
  destruct n as [x|es]; [destruct p; exact Hl|].
  destruct q as [|b q]; [discriminate|].
  simpl in Hp, Hl.
  destruct p as [|x r].
  - simpl. destruct (String.eqb s b) eqn:E; [discriminate|].
    rewrite assoc_del_entry_other; [exact Hl|].
    intros ->. now rewrite String.eqb_refl in E.
  - rewrite remove_below. simpl.
    rewrite (assoc_map_named s b (Fs.remove (x :: r))).
    destruct (String.eqb b s) eqn:E.
    + apply String.eqb_eq in E. subst b. rewrite String.eqb_refl in Hp.
      simpl in Hp.
      destruct (Fs.assoc s es) as [child|]; [|discriminate].
      simpl. now apply IH.
    + exact Hl.
Qed.

(** Removing at a path leaves what is apart from it as it was. *)
Lemma remove_frame (p : Fs.path) :
  forall q n,
    apart p q = true ->
    Fs.lookup q (Fs.remove p n) = Fs.lookup q n.
Proof.
  induction p as [|s p IH]; intros q n Ha;
    destruct (apart_split _ _ Ha) as [H1 H2]; [discriminate|].
  destruct q as [|b q]; [discriminate|].
  destruct n as [x|es]; [destruct p; reflexivity|].
  simpl in H1, H2.
  destruct p as [|x r].
  - simpl. destruct (String.eqb s b) eqn:E.
    + apply String.eqb_eq in E. subst b. now rewrite String.eqb_refl in H2.
    + rewrite assoc_del_entry_other; [reflexivity|].
      intros ->. now rewrite String.eqb_refl in E.
  - rewrite remove_below. simpl.
    rewrite (assoc_map_named s b (Fs.remove (x :: r))).
    destruct (String.eqb b s) eqn:E; [|reflexivity].
    apply String.eqb_eq in E. subst b.
    destruct (Fs.assoc s es) as [child|]; [|reflexivity].
    simpl. apply IH. clear IH. unfold apart.
    destruct (apart_split _ _ Ha) as [K1 K2]. simpl in K1, K2.
    rewrite String.eqb_refl in K1, K2. simpl in K1, K2.
    apply andb_true_iff. split; apply negb_true_iff; assumption.
Qed.

(** ** The copy of fs-extra *)

Lemma write_after_mkdirs (p : Fs.path) (new n n1 : Fs.node) :
  Fs.mkdirs (Fs.parent p) n = Some n1 ->
  exists n2, Fs.write_at p new n1 = Some n2.
Proof.
  destruct p as [|a p _] using rev_ind; [intros _; now exists new|].
  rewrite parent_snoc. intros H.
  destruct (mkdirs_lookup _ _ _ H) as [es Hes].
  destruct (write_at_child _ a new _ _ Hes) as [n2 [Hw _]]. now exists n2.
Qed.

Lemma copy_Ok io src dest w w' :
  copy io src dest w = (w', Ok tt) ->
  exists s n1 d,
    Fs.lookup (resolve io src) (fs w) = Some s
    /\ Fs.mkdirs (Fs.parent (resolve io dest)) (fs w) = Some n1
    /\ Fs.merge s (Fs.lookup (resolve io dest) n1) = (Some d, true)
    /\ Fs.write_at (resolve io dest) d n1 = Some (fs w').
Proof.
  unfold copy.
  destruct (Fs.lookup (resolve io src) (fs w)) as [s|]; [|discriminate].
  destruct (Fs.is_prefix (resolve io src) (resolve io dest)); [discriminate|].
  destruct (Fs.mkdirs (Fs.parent (resolve io dest)) (fs w)) as [n1|] eqn:Em;
    [|discriminate].
  destruct (Fs.merge s (Fs.lookup (resolve io dest) n1)) as [d ok] eqn:Eg.
  destruct ok; [|discriminate].
  destruct (merge_ok_some _ _ _ Eg) as [d' ->].
  destruct (write_after_mkdirs (resolve io dest) d' _ _ Em) as [n2 Hw].
  rewrite Hw. intros [= <-]. exists s, n1, d'. now repeat split.
Qed.

(** After a copy that ended normally, every file of the source is in the
    destination, at the same relative path and with the same content. *)
Lemma copy_file_wins io src dest w w' s q c :
  copy io src dest w = (w', Ok tt) ->
  Fs.lookup (resolve io src) (fs w) = Some s ->
  unique_names s = true ->
  Fs.lookup q s = Some (Fs.File c) ->
  Fs.lookup (resolve io dest ++ q) (fs w') = Some (Fs.File c).
Proof.
  intros H Hs Hu Hq.
  destruct (copy_Ok _ _ _ _ _ H) as [s' [n1 [d [Hs' [_ [Hg Hw]]]]]].
  rewrite Hs in Hs'. injection Hs' as <-.
  rewrite lookup_app, (write_at_lookup _ _ _ _ Hw).
  apply (merge_file_wins q c s _ d Hu Hg Hq).
Qed.

(** A copy that ended normally leaves what is apart from its destination. *)
Lemma copy_frame io src dest w w' q :
  copy io src dest w = (w', Ok tt) ->
  apart (resolve io dest) q = true ->
  Fs.lookup q (fs w') = Fs.lookup q (fs w).
Proof.
  intros H Ha.
  destruct (copy_Ok _ _ _ _ _ H) as [s [n1 [d [_ [Hm [_ Hw]]]]]].
  rewrite (write_at_frame _ _ _ _ _ Ha Hw).
  apply (mkdirs_frame _ _ _ _) with (2 := Hm).
  destruct (apart_split _ _ Ha) as [_ H2].
  destruct (Fs.is_prefix q (Fs.parent (resolve io dest))) eqn:E;
    [|reflexivity].
  apply is_prefix_parent in E. congruence.
Qed.

Lemma ensureDir_frame io p w w' q :
  ensureDir io p w = (w', Ok tt) ->
  Fs.is_prefix q (resolve io p) = false ->
  Fs.lookup q (fs w') = Fs.lookup q (fs w).
Proof.
  unfold ensureDir.
  destruct (Fs.mkdirs (resolve io p) (fs w)) as [n|] eqn:E; [|discriminate].
  intros [= <-] Hq. apply (mkdirs_frame _ _ _ _ Hq E).
Qed.

Lemma remove_op_frame io (root : fpath) (more : list string) w w' q :
  remove io (path_join root more) w = (w', Ok tt) ->
  apart (resolve io root) q = true ->
  Fs.lookup q (fs w') = Fs.lookup q (fs w).
Proof.
  unfold remove.
  destruct (Fs.through_file (resolve io (path_join root more)) (fs w));
    [discriminate|].
  intros [= <-] Ha. cbn [fs put_fs].
  rewrite resolve_join. now apply remove_frame, apart_app.
Qed.

Lemma move_frame io (root : fpath) (a b : string) w w' q :
  a <> b ->
  move_overwrite io (path_join root [a]) (path_join root [b]) w
  = (w', Ok tt) ->
  apart (resolve io root) q = true ->
  Fs.lookup q (fs w') = Fs.lookup q (fs w).
Proof.
  intros Hab. unfold move_overwrite. rewrite !resolve_join.
  destruct (Fs.lookup (resolve io root ++ [a]) (fs w)); [|discriminate].
  rewrite is_prefix_sibling by exact Hab. cbn [andb].
  rewrite parent_snoc.
  destruct (Fs.mkdirs (resolve io root) (fs w)) as [n1|] eqn:Em;
    [|discriminate].
  cbv zeta.
  destruct (Fs.lookup (resolve io root ++ [a])
              (Fs.remove (resolve io root ++ [b]) n1)) as [s|];
    [|discriminate].
  destruct (Fs.write_at (resolve io root ++ [b]) s
              (Fs.remove (resolve io root ++ [b]) n1)) as [n3|] eqn:Ew;
    [|discriminate].
  intros [= <-] Ha. cbn [fs put_fs].
  rewrite remove_frame by now apply apart_app.
  rewrite (write_at_frame _ _ _ _ _ (apart_app _ [b] _ Ha) Ew).
  rewrite remove_frame by now apply apart_app.
  destruct (apart_split _ _ Ha) as [_ H2].
  apply (mkdirs_frame _ _ _ _ H2 Em).
Qed.

(** ** The files of the chosen project *)

Lemma excluded_name (root : Fs.path) (x name : string) (rest : Fs.path) :
  negb (Fs.is_prefix (root ++ [x]) (root ++ name :: rest)) = true ->
  name <> x.
Proof.
  rewrite is_prefix_app. simpl. intros H ->.
  now rewrite String.eqb_refl in H.
Qed.

Lemma check_Ok_world io projectRoot projectType w w1 :
  checkForDuplicates io projectRoot projectType w = (w1, Ok tt) -> w1 = w.
Proof.
  intros H.
  pose proof (checkForDuplicates_world io projectRoot projectType w) as K.
  now rewrite H in K.
Qed.

Lemma remove_op_keeps_file io p w w' q c :
  remove io p w = (w', Ok tt) ->
  negb (Fs.is_prefix (resolve io p) q) = true ->
  Fs.lookup q (fs w) = Some (Fs.File c) ->
  Fs.lookup q (fs w') = Some (Fs.File c).
Proof.
  unfold remove.
  destruct (Fs.through_file (resolve io p) (fs w)); [discriminate|].
  intros [= <-] Hp Hl. cbn [fs put_fs].
  apply remove_keeps_file; [now apply negb_true_iff | exact Hl].
Qed.

(** X9. Whenever [copySampleProject] ends normally, every file of the sample
    project that was copied last (the one the action names) is in the
    project root, at the same relative path and with the same content,
    unless its path is one that the cleanup removes or replaces. The
    directory of the sample project is taken to list no name twice and to
    be apart from the project root. *)
Theorem chosen_project_files_are_copied :
  forall io projectRoot projectType w w' tier name rest c,
    copySampleProject io projectRoot projectType w = (w', Ok tt) ->
    Fs.lookup (resolve io (sample_dir io (last_tier projectType))) (fs w)
    = Some tier ->
    unique_names tier = true ->
    apart (resolve io projectRoot)
          (resolve io (sample_dir io (last_tier projectType))) = true ->
    Fs.lookup (name :: rest) tier = Some (Fs.File c) ->
    forallb (fun p =>
               negb (Fs.is_prefix p (resolve io projectRoot ++ name :: rest)))
            (cleaned io projectRoot projectType) = true ->
    Fs.lookup (resolve io projectRoot ++ name :: rest) (fs w')
    = Some (Fs.File c).
Proof.
  intros io projectRoot projectType w w' tier name rest c
    H Htier Hu Hapart Hfile Hclean.
  unfold copySampleProject in H.
  apply bind_Ok in H. destruct H as [[] [w1 [H1 H]]].
  apply bind_Ok in H. destruct H as [[] [w2 [H2 H]]].
  apply bind_Ok in H. destruct H as [[] [w3 [H3 H]]].
  apply bind_Ok in H. destruct H as [[] [w4 [H4 H]]].
  apply bind_Ok in H. destruct H as [[] [w5 [H5 H]]].
  rename w' into w6.
  destruct (cleanup_run io projectRoot w5 w6 H) as [_ [_ [_ [_ F]]]].
  apply check_Ok_world in H1. subst w1.
  destruct (apart_split _ _ Hapart) as [_ Hnp].
  assert (T2 : Fs.lookup (resolve io (sample_dir io (last_tier projectType)))
                 (fs w2) = Some tier).
  { now rewrite (ensureDir_frame _ _ _ _ _ H2 Hnp). }
  (* the names that the last steps remove *)
  unfold cleaned in Hclean. rewrite forallb_app in Hclean.
  apply andb_true_iff in Hclean. destruct Hclean as [Hfirst Hlast].
  cbn [forallb] in Hlast. rewrite !resolve_join in Hlast.
  apply andb_true_iff in Hlast. destruct Hlast as [Xc Hlast].
  apply andb_true_iff in Hlast. destruct Hlast as [Xa Hlast].
  apply andb_true_iff in Hlast. destruct Hlast as [Xl _].
  apply excluded_name in Xc, Xa, Xl.
  rewrite F by assumption. clear F H w6.
  destruct projectType; cbn [last_tier] in *.
  - (* basic *)
    injection H4 as <-. injection H5 as <-.
    apply (copy_file_wins _ _ _ _ _ tier _ _ H3 T2 Hu Hfile).
  - (* advanced *)
    injection H5 as <-.
    apply bind_Ok in H4. destruct H4 as [[] [wa [Ha H4]]].
    apply bind_Ok in H4. destruct H4 as [[] [wb [Hb Hc]]].
    cbn [forallb] in Hfirst. rewrite !resolve_join in Hfirst.
    apply andb_true_iff in Hfirst. destruct Hfirst as [Xs Hfirst].
    apply andb_true_iff in Hfirst. destruct Hfirst as [Xn Hfirst].
    apply andb_true_iff in Hfirst. destruct Hfirst as [Xd _].
    apply excluded_name in Xn, Xd.
    apply move_run in Hc; [|discriminate].
    destruct Hc as [_ [_ [_ [_ Fm]]]]. rewrite Fm by assumption.
    apply (remove_op_keeps_file _ _ _ _ _ _ Hb);
      [now rewrite resolve_join|].
    assert (T3 : Fs.lookup (resolve io (sample_dir io "advanced")) (fs w3)
                 = Some tier).
    { now rewrite (copy_frame _ _ _ _ _ _ H3 Hapart). }
    apply (copy_file_wins _ _ _ _ _ tier _ _ Ha T3 Hu Hfile).
  - (* advanced TypeScript *)
    apply bind_Ok in H4. destruct H4 as [[] [wa [Ha H4]]].
    apply bind_Ok in H4. destruct H4 as [[] [wb [Hb Hc]]].
    apply bind_Ok in H5. destruct H5 as [[] [wd [Hd H5]]].
    apply bind_Ok in H5. destruct H5 as [[] [we [He Hf]]].
    cbn [forallb] in Hfirst. rewrite !resolve_join in Hfirst.
    apply andb_true_iff in Hfirst. destruct Hfirst as [X1 Hfirst].
    apply andb_true_iff in Hfirst. destruct Hfirst as [X2 Hfirst].
    apply andb_true_iff in Hfirst. destruct Hfirst as [X3 Hfirst].
    apply andb_true_iff in Hfirst. destruct Hfirst as [Xn Hfirst].
    apply andb_true_iff in Hfirst. destruct Hfirst as [Xd _].
    apply excluded_name in Xn, Xd.
    apply move_run in Hf; [|discriminate].
    destruct Hf as [_ [_ [_ [_ Fm]]]]. rewrite Fm by assumption.
    (* the three removals in the working directory *)
    cbn [forM_] in He.
    apply bind_Ok in He. destruct He as [[] [e1 [He1 He]]].
    apply bind_Ok in He. destruct He as [[] [e2 [He2 He]]].
    apply bind_Ok in He. destruct He as [[] [e3 [He3 He]]].
    injection He as <-.
    apply (remove_op_keeps_file _ _ _ _ _ _ He3 X3).
    apply (remove_op_keeps_file _ _ _ _ _ _ He2 X2).
    apply (remove_op_keeps_file _ _ _ _ _ _ He1 X1).
    assert (T3 : Fs.lookup (resolve io (sample_dir io "advanced-ts")) (fs w4)
                 = Some tier).
    { apply move_frame with (q := resolve io (sample_dir io "advanced-ts"))
        in Hc; [|discriminate | exact Hapart].
      rewrite Hc.
      rewrite (remove_op_frame _ _ _ _ _ _ Hb Hapart).
      rewrite (copy_frame _ _ _ _ _ _ Ha Hapart).
      now rewrite (copy_frame _ _ _ _ _ _ H3 Hapart). }
    apply (copy_file_wins _ _ _ _ _ tier _ _ Hd T3 Hu Hfile).
Qed.

Lemma chosen_project_files_are_copied_witness :
  let io := Sample.inputs None None None "Linux" (Ok "Quit")
              (Ok (Rel ["proj"], true)) (Close (Some 0%Z)) in
  let w := Sample.world [("proj", Fs.Dir [("notes.txt", Sample.file "n")])] in
  let w' := fst (copySampleProject io (Rel ["proj"])
                   CREATE_ADVANCED_TYPESCRIPT_SAMPLE_PROJECT_ACTION w) in
  Fs.lookup (resolve io (Rel ["proj"]) ++ ["scripts"; "deploy.ts"]%string)
    (fs w')
  = Some (Sample.file "typed deploy").
Proof.
  intros io w w'.
  apply (chosen_project_files_are_copied io (Rel ["proj"])
           CREATE_ADVANCED_TYPESCRIPT_SAMPLE_PROJECT_ACTION w w'
           Sample.advanced_ts "scripts" ["deploy.ts"]%string
           (Text "typed deploy"));
    reflexivity.
Defined.

(** ** The entries that the project root had *)












